(** * PanTrade cloud functions: wallet ledger and settlement engine

    A shallow embedding of the transactional handlers of
    [functions/src] (orders, withdrawal, refund, referrals, fees) and the
    properties of the ledger that follow from the code, with the
    one-time codes, the rewards, the weekly reset of the leaderboard and
    the deletion of a vendor's account beside them.

    Conventions of the embedding.
    - A JavaScript [number] that holds an amount of money is an exact
      rational ([Q]); equalities between amounts are stated with [==].
      The binary64 evaluation of the pricing function is given next to
      the rational one ([calculateServiceCharge64]).
    - A Firestore document is a record; a field that the code reads
      through [|| 0], [?? 0] or [?.] is an [option]. A request payload
      is typed as its interface says: a field declared [number] holds a
      number, and an absent string is the empty string.
    - A handler is a function of the world (the database and the log of
      observable effects) in an error monad; [runTransaction] discards
      the writes of a body that throws.
    - The clock, the month key derived from it, the Paystack gateway and
      Firestore's automatic document id come from an environment.
    - The collections outside the wallet ([otp_codes], [rewards], the
      leaderboard settings) are maps of their own, passed to the
      functions that use them; the mail and notification services are
      oracles. *)

From Stdlib Require Import QArith Qminmax Qround Lqa ZArith Lia Floats.
From stdpp Require Import base option list strings pretty gmap.

Local Open Scope Z_scope.

(** ** JavaScript numbers *)

Module Num.

(** [number]: amounts are kept exact. *)
Definition number := Q.
Bind Scope Q_scope with number.

(** [a > b], [a < b] on numbers. *)
Definition num_gt (a b : number) : bool := negb (Qle_bool a b).
Definition num_lt (a b : number) : bool := negb (Qle_bool b a).

(** [Math.min], [Math.max], [Math.abs]. *)
Definition Math_min (a b : number) : number := if Qle_bool a b then a else b.
Definition Math_max (a b : number) : number := if Qle_bool a b then b else a.
Definition Math_abs (a : number) : number := if Qle_bool 0%Q a then a else Qopp a.

(** [x || 0] and [x ?? 0] on a field that holds a number or is absent
    (on numbers the two differ only at [NaN], which no amount is). *)
Definition orZero (x : option number) : number := default 0%Q x.

(** [!x] on a number: only zero is falsy. *)
Definition falsy (x : number) : bool := Qeq_bool x 0%Q.

(** [!s] on a string: only the empty string is falsy (an absent field
    of the request payload is read as the empty string). *)
Definition blank (s : string) : bool := if decide (s = "") then true else false.

(** Truthiness of an optional string ([undefined] and [""] are falsy). *)
Definition truthy (s : option string) : bool :=
  match s with Some v => negb (blank v) | None => false end.

End Num.

(** ** fees/fees.utils.ts *)

Module Fees.
Import Num.

(** [calculateServiceCharge]: 5.5% of the subtotal plus 100, capped at
    2000. The sources hold two versions of this function; this is the
    one the update note and the test suite [fees.utils.test.ts]
    describe, the suite also for the fee validation of
    [createOrderAndLogTransaction]. *)
Definition calculateServiceCharge (subtotal : number) : number :=
  let rawCharge := (subtotal * 0.055 + 100)%Q in
  Math_min rawCharge 2000%Q.

(** The other version in the sources, which the update note says was
    replaced: 5.5% of the subtotal, capped at 500. *)
Definition calculateServiceCharge_before_update (subtotal : number) : number :=
  let rawCharge := (subtotal * 0.055)%Q in
  Math_min rawCharge 500%Q.

(** [Math.min] on binary64 values: NaN if either argument is NaN. *)
Definition Math_min64 (a b : float) : float :=
  if PrimFloat.is_nan a then a
  else if PrimFloat.is_nan b then b
  else if PrimFloat.ltb b a then b else a.

(** The same function on binary64 values; the literal is the double
    nearest to 0.055. *)
Definition calculateServiceCharge64 (subtotal : float) : float :=
  let rawCharge := (subtotal * 0x1.c28f5c28f5c29p-5 + 100)%float in
  Math_min64 rawCharge 2000%float.

(** [testCases] of [fees.utils.test.ts]: subtotal and expected charge
    (34545.45 as the double nearest to it). *)
Definition testCases : list (float * float) :=
  [ (0, 100); (1000, 155); (2000, 210); (5000, 375); (10000, 650);
    (20000, 1200); (0x1.0de2e66666666p+15, 2000); (35000, 2000);
    (40000, 2000); (50000, 2000); (100000, 2000); (100, 105.5);
    (500, 127.5) ]%float.

(** [isPass]: [Math.abs(result - expected) < 0.01]. *)
Definition isPass (testCase : float * float) : bool :=
  let result := calculateServiceCharge64 testCase.1 in
  PrimFloat.ltb (PrimFloat.abs (result - testCase.2)) 0x1.47ae147ae147bp-7.

End Fees.

(** ** Errors a handler can raise *)

(** The [FunctionsErrorCode]s the handlers use. *)
Inductive FunctionsErrorCode :=
| invalid_argument | not_found | already_exists | failed_precondition
| permission_denied | deadline_exceeded | internal.

(** What a [throw] carries: an [HttpsError] (code and message, and in
    [HttpsErrorWith] the [details] argument, here always the error that
    was caught), a rejected axios request, an error Firestore raises on
    a write, a plain [Error], or a [TypeError]. *)
Inductive Thrown :=
| HttpsError (code : FunctionsErrorCode) (message : string)
| HttpsErrorWith (code : FunctionsErrorCode) (message : string) (details : Thrown)
| AxiosError (url : string)
| FirestoreError (code : FunctionsErrorCode) (path : string)
| Error (message : string)
| TypeError (message : string).

(** The code the client of a callable function sees: that of an
    [HttpsError]; anything else thrown is reported as [internal]. *)
Definition codeOf (t : Thrown) : FunctionsErrorCode :=
  match t with
  | HttpsError c _ => c
  | HttpsErrorWith c _ _ => c
  | _ => internal
  end.

(** The [details] of an [HttpsError]. *)
Definition detailsOf (t : Thrown) : option Thrown :=
  match t with
  | HttpsErrorWith _ _ d => Some d
  | _ => None
  end.

(** ** Documents *)

(** A [Date] or Firestore [Timestamp]: milliseconds since the epoch. *)
Definition Timestamp := Z.

Inductive PaymentStatus := payment_pending | payment_paid | payment_failed.
Inductive OrderStatus := order_pending | order_processing | order_completed | order_cancelled.
Inductive ChargeStatus := charge_success | charge_pending | charge_failed.
Inductive PlatformDebtType := debt_delivery_fee | debt_service_charge | debt_monetary.
Inductive RequestStatus := pending | rejected | approved.

#[export] Instance RequestStatus_eq_dec : EqDecision RequestStatus.
Proof. solve_decision. Defined.

Module Order.
Import Num.

Record OrderItem := {
  productId : string;
  name : string;
  quantity : number;
  price : number;
}.

(** [interface IncomingOrder] ([createdAt] and [updatedAt] in their
    numeric form). *)
Record IncomingOrder := {
  orderId : string;
  userId : string;
  vendorId : string;
  vendorCategory : string;
  items : list OrderItem;
  subtotal : number;
  deliveryFee : number;
  serviceFee : number;
  vendorCommission : number;
  vendorEarnings : number;
  totalAmountPaid : number;
  deliveryType : string;
  deliveryAddress : string;
  orderCutoffTime : string;
  vendorNote : option string;
  paymentReference : string;
  paymentStatus : PaymentStatus;
  orderStatus : OrderStatus;
  createdAt : Timestamp;
  updatedAt : Timestamp;
  appliedRewardType : option string;
  rewardDiscountAmount : option number;
  originalTotalBeforeReward : option number;
  platformDebtAmount : option number;
  platformDebtType : option PlatformDebtType;
  platformDebtSettled : option bool;
}.

(** The assignment [order.serviceFee = serverCalculatedServiceFee]. *)
Definition setServiceFee (o : IncomingOrder) (fee : number) : IncomingOrder :=
  {| orderId := orderId o; userId := userId o; vendorId := vendorId o;
     vendorCategory := vendorCategory o; items := items o;
     subtotal := subtotal o; deliveryFee := deliveryFee o;
     serviceFee := fee;
     vendorCommission := vendorCommission o; vendorEarnings := vendorEarnings o;
     totalAmountPaid := totalAmountPaid o;
     deliveryType := deliveryType o; deliveryAddress := deliveryAddress o;
     orderCutoffTime := orderCutoffTime o; vendorNote := vendorNote o;
     paymentReference := paymentReference o; paymentStatus := paymentStatus o;
     orderStatus := orderStatus o; createdAt := createdAt o; updatedAt := updatedAt o;
     appliedRewardType := appliedRewardType o;
     rewardDiscountAmount := rewardDiscountAmount o;
     originalTotalBeforeReward := originalTotalBeforeReward o;
     platformDebtAmount := platformDebtAmount o;
     platformDebtType := platformDebtType o;
     platformDebtSettled := platformDebtSettled o |}.

(** The assignment [order.totalAmountPaid = totalPaid]. *)
Definition setTotalAmountPaid (o : IncomingOrder) (total : number) : IncomingOrder :=
  {| orderId := orderId o; userId := userId o; vendorId := vendorId o;
     vendorCategory := vendorCategory o; items := items o;
     subtotal := subtotal o; deliveryFee := deliveryFee o;
     serviceFee := serviceFee o;
     vendorCommission := vendorCommission o; vendorEarnings := vendorEarnings o;
     totalAmountPaid := total;
     deliveryType := deliveryType o; deliveryAddress := deliveryAddress o;
     orderCutoffTime := orderCutoffTime o; vendorNote := vendorNote o;
     paymentReference := paymentReference o; paymentStatus := paymentStatus o;
     orderStatus := orderStatus o; createdAt := createdAt o; updatedAt := updatedAt o;
     appliedRewardType := appliedRewardType o;
     rewardDiscountAmount := rewardDiscountAmount o;
     originalTotalBeforeReward := originalTotalBeforeReward o;
     platformDebtAmount := platformDebtAmount o;
     platformDebtType := platformDebtType o;
     platformDebtSettled := platformDebtSettled o |}.

(** The assignments [order.vendorCommission = ...; order.vendorEarnings = ...]. *)
Definition setCommissionAndEarnings (o : IncomingOrder) (c e : number) : IncomingOrder :=
  {| orderId := orderId o; userId := userId o; vendorId := vendorId o;
     vendorCategory := vendorCategory o; items := items o;
     subtotal := subtotal o; deliveryFee := deliveryFee o;
     serviceFee := serviceFee o;
     vendorCommission := c; vendorEarnings := e;
     totalAmountPaid := totalAmountPaid o;
     deliveryType := deliveryType o; deliveryAddress := deliveryAddress o;
     orderCutoffTime := orderCutoffTime o; vendorNote := vendorNote o;
     paymentReference := paymentReference o; paymentStatus := paymentStatus o;
     orderStatus := orderStatus o; createdAt := createdAt o; updatedAt := updatedAt o;
     appliedRewardType := appliedRewardType o;
     rewardDiscountAmount := rewardDiscountAmount o;
     originalTotalBeforeReward := originalTotalBeforeReward o;
     platformDebtAmount := platformDebtAmount o;
     platformDebtType := platformDebtType o;
     platformDebtSettled := platformDebtSettled o |}.

(** The spread [...(order.appliedRewardType && {platformDebtSettled: false})]. *)
Definition settleFlagForReward (o : IncomingOrder) : IncomingOrder :=
  {| orderId := orderId o; userId := userId o; vendorId := vendorId o;
     vendorCategory := vendorCategory o; items := items o;
     subtotal := subtotal o; deliveryFee := deliveryFee o;
     serviceFee := serviceFee o;
     vendorCommission := vendorCommission o; vendorEarnings := vendorEarnings o;
     totalAmountPaid := totalAmountPaid o;
     deliveryType := deliveryType o; deliveryAddress := deliveryAddress o;
     orderCutoffTime := orderCutoffTime o; vendorNote := vendorNote o;
     paymentReference := paymentReference o; paymentStatus := paymentStatus o;
     orderStatus := orderStatus o; createdAt := createdAt o; updatedAt := updatedAt o;
     appliedRewardType := appliedRewardType o;
     rewardDiscountAmount := rewardDiscountAmount o;
     originalTotalBeforeReward := originalTotalBeforeReward o;
     platformDebtAmount := platformDebtAmount o;
     platformDebtType := platformDebtType o;
     platformDebtSettled :=
       if truthy (appliedRewardType o) then Some false else platformDebtSettled o |}.

(** The update [{orderStatus: "completed", updatedAt: serverTimestamp()}]. *)
Definition complete (o : IncomingOrder) (t : Timestamp) : IncomingOrder :=
  {| orderId := orderId o; userId := userId o; vendorId := vendorId o;
     vendorCategory := vendorCategory o; items := items o;
     subtotal := subtotal o; deliveryFee := deliveryFee o;
     serviceFee := serviceFee o;
     vendorCommission := vendorCommission o; vendorEarnings := vendorEarnings o;
     totalAmountPaid := totalAmountPaid o;
     deliveryType := deliveryType o; deliveryAddress := deliveryAddress o;
     orderCutoffTime := orderCutoffTime o; vendorNote := vendorNote o;
     paymentReference := paymentReference o; paymentStatus := paymentStatus o;
     orderStatus := order_completed; createdAt := createdAt o; updatedAt := t;
     appliedRewardType := appliedRewardType o;
     rewardDiscountAmount := rewardDiscountAmount o;
     originalTotalBeforeReward := originalTotalBeforeReward o;
     platformDebtAmount := platformDebtAmount o;
     platformDebtType := platformDebtType o;
     platformDebtSettled := platformDebtSettled o |}.

(** An entry of the order's [timeline]; [timestamp] is the instant the
    ISO string with the [+01:00] suffix is printed from. *)
Record TimelineEntry := {
  status : string;
  timestamp : Timestamp;
  actor : string;
}.

#[global] Instance TimelineEntry_eq_dec : EqDecision TimelineEntry.
Proof. solve_decision. Defined.

(** A document of the [orders] collection: the order as persisted and
    the delivery fields later handlers add. *)
Record Doc := {
  order : IncomingOrder;
  deliveryCode : option string;
  deliveryCodeExpiresAt : option Timestamp;
  deliveryConfirmed : option bool;
  reviewed : option bool;
  timeline : list TimelineEntry;
}.

End Order.

Module Ledger.
Import Num.

(** The reward fields a ledger entry carries when the order applied a
    reward. *)
Record RewardAudit := {
  appliedRewardType : string;
  rewardDiscountAmount : option number;
  originalTotalBeforeReward : option number;
  platformDebtAmount : option number;
  platformDebtType : option PlatformDebtType;
  platformDebtSettled : bool;
}.

(** [transactionEntry] of the settlement ([type: "credit"],
    [source: "order"]). *)
Record OrderCredit := {
  amount : number;
  totalPaid : number;
  reference : string;
  status : ChargeStatus;
  orderId : string;
  vendorId : string;
  userId : string;
  subtotal : number;
  deliveryFee : number;
  serviceFee : number;
  vendorCommission : number;
  vendorEarnings : number;
  commissionRate : number;
  createdAt : Timestamp;
  reward : option RewardAudit;
}.

(** An element of [wallet.transactions]: the settlement's credit, the
    refund's credit to the customer and debit to the vendor, and the
    withdrawal's debit (the last three with [status: "success"]). *)
Inductive Entry :=
| FromOrder (e : OrderCredit)
| RefundCredit (amount : number) (reference userId : string) (createdAt : Timestamp)
| RefundDebit (amount : number) (reference vendorId : string) (createdAt : Timestamp)
| WithdrawalDebit (amount : number) (reference vendorId : string) (createdAt : Timestamp).

(** Firestore's equality of values, which [arrayUnion] uses: numbers by
    value, everything else field by field. *)
Definition sameNum (a b : number) : bool := Qeq_bool a b.

Definition sameOpt {A} (eq : A -> A -> bool) (a b : option A) : bool :=
  match a, b with
  | Some x, Some y => eq x y
  | None, None => true
  | _, _ => false
  end.

Definition sameDebtType (a b : PlatformDebtType) : bool :=
  match a, b with
  | debt_delivery_fee, debt_delivery_fee
  | debt_service_charge, debt_service_charge
  | debt_monetary, debt_monetary => true
  | _, _ => false
  end.

Definition sameCharge (a b : ChargeStatus) : bool :=
  match a, b with
  | charge_success, charge_success
  | charge_pending, charge_pending
  | charge_failed, charge_failed => true
  | _, _ => false
  end.

Definition sameReward (a b : RewardAudit) : bool :=
  String.eqb (appliedRewardType a) (appliedRewardType b)
  && sameOpt sameNum (rewardDiscountAmount a) (rewardDiscountAmount b)
  && sameOpt sameNum (originalTotalBeforeReward a) (originalTotalBeforeReward b)
  && sameOpt sameNum (platformDebtAmount a) (platformDebtAmount b)
  && sameOpt sameDebtType (platformDebtType a) (platformDebtType b)
  && Bool.eqb (platformDebtSettled a) (platformDebtSettled b).

Definition sameOrderCredit (a b : OrderCredit) : bool :=
  sameNum (amount a) (amount b)
  && sameNum (totalPaid a) (totalPaid b)
  && String.eqb (reference a) (reference b)
  && sameCharge (status a) (status b)
  && String.eqb (orderId a) (orderId b)
  && String.eqb (vendorId a) (vendorId b)
  && String.eqb (userId a) (userId b)
  && sameNum (subtotal a) (subtotal b)
  && sameNum (deliveryFee a) (deliveryFee b)
  && sameNum (serviceFee a) (serviceFee b)
  && sameNum (vendorCommission a) (vendorCommission b)
  && sameNum (vendorEarnings a) (vendorEarnings b)
  && sameNum (commissionRate a) (commissionRate b)
  && Z.eqb (createdAt a) (createdAt b)
  && sameOpt sameReward (reward a) (reward b).

Definition sameEntry (a b : Entry) : bool :=
  match a, b with
  | FromOrder x, FromOrder y => sameOrderCredit x y
  | RefundCredit m r u t, RefundCredit m' r' u' t'
  | RefundDebit m r u t, RefundDebit m' r' u' t'
  | WithdrawalDebit m r u t, WithdrawalDebit m' r' u' t' =>
      sameNum m m' && String.eqb r r' && String.eqb u u' && Z.eqb t t'
  | _, _ => false
  end.

(** [FieldValue.arrayUnion(x)]: [x] is added at the end unless an equal
    element is already there. *)
Definition arrayUnion (x : Entry) (l : list Entry) : list Entry :=
  if existsb (sameEntry x) l then l else l ++ [x].

End Ledger.

Module User.
Import Num.

(** [paymentInfo]: the customer's payout bank details. *)
Record PaymentInfo := {
  accountNumber : option string;
  accountName : option string;
  bankCode : option string;
}.

(** [wallet]; a document without a wallet has every field absent. *)
Record Wallet := {
  balance : option number;
  pendingBalance : option number;
  eligibleBalance : option number;
  transactions : option (list Ledger.Entry);
}.

(** A document of the [users] collection (vendors included):
    [monthlySales] is [stats.monthlySales], keyed by year-month. *)
Record Doc := {
  wallet : Wallet;
  monthlySales : gmap string number;
  paymentInfo : option PaymentInfo;
  updatedAt : option Timestamp;
}.

End User.

Module Withdrawal.
Import Num.

(** A document of the [withdrawalRequest] collection. *)
Record Doc := {
  vendorId : string;
  amount : number;
  bankName : string;
  bankCode : string;
  accountNumber : string;
  accountName : string;
  status : RequestStatus;
  requestedAt : Timestamp;
  transferReference : option string;
  approvedAt : option Timestamp;
  rejectionReason : option string;
  reviewedAt : option Timestamp;
}.

End Withdrawal.

Module Refund.
Import Num.

(** A document of the [refundRequests] collection, keyed by order id. *)
Record Doc := {
  orderId : string;
  userId : string;
  vendorId : string;
  amount : number;
  subtotal : number;
  deliveryFee : number;
  serviceFee : option number;
  vendorEarnings : number;
  totalPaid : number;
  reason : string;
  status : RequestStatus;
  createdAt : Timestamp;
  transferReference : option string;
  approvedAt : option Timestamp;
  rejectionReason : option string;
  reviewedAt : option Timestamp;
}.

End Refund.

Module Referral.

(** [interface ReferralHistory], with the [orderId] a purchase adds. *)
Record History := {
  referredCustomerId : string;
  pointsEarned : Z;
  date : Timestamp;
  orderId : option string;
}.

(** [interface ReferralModel]: a document of the [referrals]
    collection, keyed by vendor id. *)
Record Doc := {
  vendorId : string;
  storeName : string;
  vendorLogoUrl : string;
  totalReferralPoints : Z;
  weeklyReferralPoints : Z;
  referralCode : string;
  referredCustomersCount : Z;
  successfulReferralsCount : Z;
  referralHistory : option (list History);
  lastReferralUpdate : Timestamp;
  isActive : bool;
  totalRewardsClaimed : Z;
  lastLeaderboardPosition : Z;
  totalFeaturedSpots : Z;
}.

End Referral.

Module Vendor.

(** The fields of a [vendors] document the referral handler reads. *)
Record Doc := {
  name : string;
  logoUrl : option string;
  referralCode : option string;
}.

End Vendor.

(** ** The database and the observable effects *)

(** The Firestore collections the handlers touch, by document id. *)
Record Database := {
  orders : gmap string Order.Doc;
  users : gmap string User.Doc;
  withdrawalRequest : gmap string Withdrawal.Doc;
  refundRequests : gmap string Refund.Doc;
  referrals : gmap string Referral.Doc;
  vendors : gmap string Vendor.Doc;
}.

Inductive Collection :=
| in_orders | in_users | in_withdrawalRequest | in_refundRequests
| in_referrals | in_vendors.

(** The two Paystack endpoints the handlers post to. *)
Inductive Endpoint := api_transferrecipient | api_transfer.

(** What a handler does that the outside can see, in order: the start
    and the end of a [db.runTransaction] callback, its reads and writes,
    the reads and writes made on a document reference directly, and the
    HTTP requests to the gateway. *)
Inductive Effect :=
| TxBegin
| TxGet (c : Collection) (id : string)
| TxSet (c : Collection) (id : string)
| TxUpdate (c : Collection) (id : string)
| TxCommit
| TxRollback
| DocGet (c : Collection) (id : string)
| DocSet (c : Collection) (id : string)
| DocUpdate (c : Collection) (id : string)
| HttpPost (e : Endpoint).

#[export] Instance Collection_eq_dec : EqDecision Collection.
Proof. solve_decision. Defined.
#[export] Instance Endpoint_eq_dec : EqDecision Endpoint.
Proof. solve_decision. Defined.
#[export] Instance Effect_eq_dec : EqDecision Effect.
Proof. solve_decision. Defined.

Record World := {
  db : Database;
  effects : list Effect;
}.

(** A collection as a part of the database. *)
Record Coll (D : Type) := {
  tag : Collection;
  docs : Database -> gmap string D;
  setDocs : gmap string D -> Database -> Database;
}.
Arguments tag {D}.
Arguments docs {D}.
Arguments setDocs {D}.

Definition ordersC : Coll Order.Doc :=
  {| tag := in_orders; docs := orders;
     setDocs := fun m d =>
       {| orders := m; users := users d; withdrawalRequest := withdrawalRequest d;
          refundRequests := refundRequests d; referrals := referrals d;
          vendors := vendors d |} |}.

Definition usersC : Coll User.Doc :=
  {| tag := in_users; docs := users;
     setDocs := fun m d =>
       {| orders := orders d; users := m; withdrawalRequest := withdrawalRequest d;
          refundRequests := refundRequests d; referrals := referrals d;
          vendors := vendors d |} |}.

Definition withdrawalRequestC : Coll Withdrawal.Doc :=
  {| tag := in_withdrawalRequest; docs := withdrawalRequest;
     setDocs := fun m d =>
       {| orders := orders d; users := users d; withdrawalRequest := m;
          refundRequests := refundRequests d; referrals := referrals d;
          vendors := vendors d |} |}.

Definition refundRequestsC : Coll Refund.Doc :=
  {| tag := in_refundRequests; docs := refundRequests;
     setDocs := fun m d =>
       {| orders := orders d; users := users d; withdrawalRequest := withdrawalRequest d;
          refundRequests := m; referrals := referrals d;
          vendors := vendors d |} |}.

Definition referralsC : Coll Referral.Doc :=
  {| tag := in_referrals; docs := referrals;
     setDocs := fun m d =>
       {| orders := orders d; users := users d; withdrawalRequest := withdrawalRequest d;
          refundRequests := refundRequests d; referrals := m;
          vendors := vendors d |} |}.

Definition vendorsC : Coll Vendor.Doc :=
  {| tag := in_vendors; docs := vendors;
     setDocs := fun m d =>
       {| orders := orders d; users := users d; withdrawalRequest := withdrawalRequest d;
          refundRequests := refundRequests d; referrals := referrals d;
          vendors := m |} |}.

(** ** The handler monad: the world threaded through, errors thrown *)

Definition M (A : Type) : Type := World -> (Thrown + A) * World.

Definition ret {A} (a : A) : M A := fun w => (inr a, w).

Definition bind {A B} (m : M A) (k : A -> M B) : M B :=
  fun w =>
    match m w with
    | (inl e, w') => (inl e, w')
    | (inr a, w') => k a w'
    end.

Definition throw {A} (e : Thrown) : M A := fun w => (inl e, w).

Notation "'let*' x ':=' c 'in' k" := (bind c (fun x => k))
  (at level 10, x name, c at level 100, k at level 200).

(** [try { body } catch (error) { handler }]. *)
Definition try_catch {A} (body : M A) (handler : Thrown -> M A) : M A :=
  fun w =>
    match body w with
    | (inl e, w') => handler e w'
    | (inr a, w') => (inr a, w')
    end.

Definition emit (e : Effect) (w : World) : World :=
  {| db := db w; effects := effects w ++ [e] |}.

(** [transaction.get(ref)]: the document, or nothing when it does not
    exist. *)
Definition tx_get {D} (c : Coll D) (id : string) : M (option D) :=
  fun w => (inr (docs c (db w) !! id), emit (TxGet (tag c) id) w).

(** [transaction.set(ref, doc)]: creates or replaces the document. *)
Definition tx_set {D} (c : Coll D) (id : string) (d : D) : M unit :=
  fun w =>
    (inr tt,
     {| db := setDocs c (<[id := d]> (docs c (db w))) (db w);
        effects := effects w ++ [TxSet (tag c) id] |}).

(** [transaction.update(ref, fields)]: [f] writes the fields into the
    document as it stands; a document that does not exist makes the
    transaction fail with [not-found]. *)
Definition tx_update {D} (c : Coll D) (id : string) (f : D -> D) : M unit :=
  fun w =>
    match docs c (db w) !! id with
    | Some d =>
        (inr tt,
         {| db := setDocs c (<[id := f d]> (docs c (db w))) (db w);
            effects := effects w ++ [TxUpdate (tag c) id] |})
    | None => (inl (FirestoreError not_found id), emit (TxUpdate (tag c) id) w)
    end.

(** [db.runTransaction(body)]: the writes of [body] take effect together
    when it returns, and not at all when it throws; what [body] did
    outside the database stays done. *)
Definition runTransaction {A} (body : M A) : M A :=
  fun w =>
    match body (emit TxBegin w) with
    | (inl e, w') => (inl e, {| db := db w; effects := effects w' ++ [TxRollback] |})
    | (inr a, w') => (inr a, emit TxCommit w')
    end.

(** [ref.get()] outside a transaction. *)
Definition doc_get {D} (c : Coll D) (id : string) : M (option D) :=
  fun w => (inr (docs c (db w) !! id), emit (DocGet (tag c) id) w).

(** [ref.set(doc)] outside a transaction. *)
Definition doc_set {D} (c : Coll D) (id : string) (d : D) : M unit :=
  fun w =>
    (inr tt,
     {| db := setDocs c (<[id := d]> (docs c (db w))) (db w);
        effects := effects w ++ [DocSet (tag c) id] |}).

(** [ref.update(fields)] outside a transaction. *)
Definition doc_update {D} (c : Coll D) (id : string) (f : D -> D) : M unit :=
  fun w =>
    match docs c (db w) !! id with
    | Some d =>
        (inr tt,
         {| db := setDocs c (<[id := f d]> (docs c (db w))) (db w);
            effects := effects w ++ [DocUpdate (tag c) id] |})
    | None => (inl (FirestoreError not_found id), emit (DocUpdate (tag c) id) w)
    end.

(** ** The environment of a call *)

Module Paystack.
Import Num.

Record RecipientPayload := {
  type : string;
  name : string;
  account_number : string;
  bank_code : string;
  currency : string;
}.

(** The [reason] strings, by their template. *)
Inductive Reason :=
| RefundForOrder (orderId : string)
| VendorWithdrawalFor (amount : number).

Record TransferPayload := {
  source : string;
  amount : number;
  recipient : string;
  reason : Reason;
}.

(** [calculateAmount]: naira to kobo. *)
Definition calculateAmount (amountInNaira : number) : number := (amountInNaira * 100)%Q.

End Paystack.

(** The clock ([new Date()], [Timestamp.now()], [serverTimestamp()]),
    [getCurrentMonthKey()], [Math.random()], the two secrets, the
    gateway's answers ([recipient_code] and [reference], or nothing when
    the request is rejected) and the id [collection.doc()] generates. *)
Record Env := {
  now : Timestamp;
  random : Num.number;
  currentMonthKey : string;
  PAYSTACK_LIVE_SECRET_KEY : option string;
  PAYSTACK_TEST_SECRET_KEY : option string;
  transferrecipient : string -> Paystack.RecipientPayload -> option string;
  transfer : string -> Paystack.TransferPayload -> option string;
  autoId : string;
}.

(** [getPaystackHeaders]: the bearer token, or [Error] when the secret
    is not set. *)
Definition getPaystackHeaders (env : Env) (isLive : bool) : M string :=
  let secretKey := if isLive then PAYSTACK_LIVE_SECRET_KEY env else PAYSTACK_TEST_SECRET_KEY env in
  if Num.truthy secretKey then ret (default "" secretKey)
  else throw (Error "Paystack secret key not set").

(** [axios.post("https://api.paystack.co/transferrecipient", ...)]. *)
Definition post_transferrecipient (env : Env) (headers : string)
    (payload : Paystack.RecipientPayload) : M string :=
  fun w =>
    match transferrecipient env headers payload with
    | Some code => (inr code, emit (HttpPost api_transferrecipient) w)
    | None => (inl (AxiosError "https://api.paystack.co/transferrecipient"),
               emit (HttpPost api_transferrecipient) w)
    end.

(** [axios.post("https://api.paystack.co/transfer", ...)]. *)
Definition post_transfer (env : Env) (headers : string)
    (payload : Paystack.TransferPayload) : M string :=
  fun w =>
    match transfer env headers payload with
    | Some ref => (inr ref, emit (HttpPost api_transfer) w)
    | None => (inl (AxiosError "https://api.paystack.co/transfer"),
               emit (HttpPost api_transfer) w)
    end.

(** ** orders/order.utils.ts *)

Module Orders.
Import Num.

(** [request.data] of [createOrderAndLogTransaction]. *)
Record CreateOrderData := {
  order : Order.IncomingOrder;
  userId : string;
  reference : string;
  status : ChargeStatus;
  totalPaid : number;
}.

(** [getCommissionRate]: the tier of the vendor's sales this month. *)
Definition getCommissionRate (monthlySales : number) : number :=
  if Qle_bool 150000%Q monthlySales then 0.03%Q
  else if Qle_bool 50000%Q monthlySales then 0.05%Q
  else 0.07%Q.

(** The reward fields spread into the ledger entry when
    [order.appliedRewardType] is truthy. *)
Definition rewardAudit (o : Order.IncomingOrder) : option Ledger.RewardAudit :=
  if truthy (Order.appliedRewardType o) then
    Some {| Ledger.appliedRewardType := default "" (Order.appliedRewardType o);
            Ledger.rewardDiscountAmount := Order.rewardDiscountAmount o;
            Ledger.originalTotalBeforeReward := Order.originalTotalBeforeReward o;
            Ledger.platformDebtAmount := Order.platformDebtAmount o;
            Ledger.platformDebtType := Order.platformDebtType o;
            Ledger.platformDebtSettled := false |}
  else None.

(** The callback of [db.runTransaction] in [createOrderAndLogTransaction];
    [order] already carries the server's fee and the paid total. *)
Definition settle (env : Env) (order : Order.IncomingOrder)
    (userId reference : string) (status : ChargeStatus) (totalPaid : number) : M unit :=
  let* orderDoc := tx_get ordersC (Order.orderId order) in
  let* userDoc := tx_get usersC (Order.vendorId order) in
  match orderDoc with
  | Some _ => throw (HttpsError already_exists "Order already exists.")
  | None =>
  match userDoc with
  | None => throw (HttpsError not_found "Vendor not found.")
  | Some userData =>
    let wallet := User.wallet userData in
    let currentBalance := orZero (User.balance wallet) in
    let currentPending := orZero (User.pendingBalance wallet) in
    let currentMonthSales := orZero (User.monthlySales userData !! currentMonthKey env) in
    let totalVendorRevenue := (Order.subtotal order + Order.deliveryFee order)%Q in
    let commissionRate := getCommissionRate currentMonthSales in
    let flatCommission := 0%Q in
    let vendorCommission := flatCommission in
    let vendorEarnings := (totalVendorRevenue - vendorCommission)%Q in
    let newMonthSales := (currentMonthSales + totalVendorRevenue)%Q in
    let order := Order.setCommissionAndEarnings order vendorCommission vendorEarnings in
    let newBalance := (currentBalance + vendorEarnings)%Q in
    let newPendingBalance := (currentPending + vendorEarnings)%Q in
    let transactionEntry :=
      Ledger.FromOrder
        {| Ledger.amount := vendorEarnings;
           Ledger.totalPaid := totalPaid;
           Ledger.reference := reference;
           Ledger.status := status;
           Ledger.orderId := Order.orderId order;
           Ledger.vendorId := Order.vendorId order;
           Ledger.userId := userId;
           Ledger.subtotal := Order.subtotal order;
           Ledger.deliveryFee := Order.deliveryFee order;
           Ledger.serviceFee := Order.serviceFee order;
           Ledger.vendorCommission := Order.vendorCommission order;
           Ledger.vendorEarnings := Order.vendorEarnings order;
           Ledger.commissionRate := commissionRate;
           Ledger.createdAt := now env;
           Ledger.reward := rewardAudit order |} in
    let* _ := tx_set ordersC (Order.orderId order)
      {| Order.order := Order.settleFlagForReward order;
         Order.deliveryCode := None;
         Order.deliveryCodeExpiresAt := None;
         Order.deliveryConfirmed := None;
         Order.reviewed := None;
         Order.timeline := [] |} in
    tx_update usersC (Order.vendorId order) (fun d =>
      {| User.wallet :=
           {| User.balance := Some newBalance;
              User.pendingBalance := Some newPendingBalance;
              User.eligibleBalance := User.eligibleBalance (User.wallet d);
              User.transactions :=
                Some (Ledger.arrayUnion transactionEntry
                        (default [] (User.transactions (User.wallet d)))) |};
         User.monthlySales := <[currentMonthKey env := newMonthSales]> (User.monthlySales d);
         User.paymentInfo := User.paymentInfo d;
         User.updatedAt := Some (now env) |})
  end
  end.

(** [expectedTotal]: the sum of the parts, or the total before the
    reward when one was applied. *)
Definition expectedTotal (order : Order.IncomingOrder) : number :=
  match Order.originalTotalBeforeReward order with
  | Some original =>
      if truthy (Order.appliedRewardType order) then original
      else Order.subtotal order + Order.deliveryFee order + Order.serviceFee order
  | None => Order.subtotal order + Order.deliveryFee order + Order.serviceFee order
  end.

(** [createOrderAndLogTransaction]. *)
Definition createOrderAndLogTransaction (env : Env) (data : CreateOrderData) : M unit :=
  let order := order data in
  let totalPaid := totalPaid data in
  if blank (Order.vendorId order) || blank (Order.orderId order) then
    throw (HttpsError invalid_argument "Missing order details.")
  else
  let serverCalculatedServiceFee := Fees.calculateServiceCharge (Order.subtotal order) in
  if num_gt (Math_abs (serverCalculatedServiceFee - Order.serviceFee order)) 1 then
    throw (HttpsError invalid_argument "Service fee mismatch.")
  else
  let order := Order.setServiceFee order serverCalculatedServiceFee in
  if num_gt (Math_abs (totalPaid - expectedTotal order)) 1 then
    throw (HttpsError invalid_argument "Total paid mismatch.")
  else
  let order := Order.setTotalAmountPaid order totalPaid in
  try_catch
    (runTransaction (settle env order (userId data) (reference data) (status data) totalPaid))
    (fun error => throw (HttpsErrorWith internal "Transaction failed" error)).

(** [generateDeliveryCode]: a four-digit code that expires 72 hours
    later, unless the delivery is already confirmed. *)
Definition generateDeliveryCode (env : Env) (orderId : string) : M string :=
  if blank orderId then throw (HttpsError invalid_argument "Missing order ID.")
  else
  try_catch
    (let* orderSnap := doc_get ordersC orderId in
     match orderSnap with
     | None => throw (HttpsError not_found "Order not found.")
     | Some existingData =>
       if bool_decide (Order.deliveryConfirmed existingData = Some true) then
         throw (HttpsError failed_precondition "Order already marked as delivered.")
       else
       let deliveryCode := pretty (Qfloor (1000 + random env * 9000)) in
       let expiration := (now env + 72 * 60 * 60 * 1000)%Z in
       let* _ := doc_update ordersC orderId (fun d =>
         {| Order.order := Order.order d;
            Order.deliveryCode := Some deliveryCode;
            Order.deliveryCodeExpiresAt := Some expiration;
            Order.deliveryConfirmed := Some false;
            Order.reviewed := Order.reviewed d;
            Order.timeline := Order.timeline d |}) in
       ret deliveryCode
     end)
    (fun error => throw (HttpsErrorWith internal "Failed to generate delivery code." error)).

(** [request.data] of [confirmOrderWithOTP]. *)
Record ConfirmData := {
  orderId : string;
  vendorId : string;
  enteredOtp : string;
}.

(** One hour in milliseconds (UTC+1). *)
Definition watOffsetMs : Z := 60 * 60 * 1000.

(** [FieldValue.arrayUnion] on the order's timeline. *)
Definition timelineUnion (x : Order.TimelineEntry) (l : list Order.TimelineEntry) :=
  if decide (x ∈ l) then l else l ++ [x].

(** [expiresAt && now > expiresAt]: the order has an expiry and it is
    past. *)
Definition expiredAt (now : Timestamp) (orderData : Order.Doc) : bool :=
  match Order.deliveryCodeExpiresAt orderData with
  | Some expiresAt => bool_decide (expiresAt < now)
  | None => false
  end.

(** The callback of [db.runTransaction] in [confirmOrderWithOTP]. *)
Definition release (env : Env) (data : ConfirmData) : M unit :=
  let* orderDoc := tx_get ordersC (orderId data) in
  let* vendorDoc := tx_get usersC (vendorId data) in
  match orderDoc with
  | None => throw (HttpsError not_found "Order not found.")
  | Some orderData =>
  match vendorDoc with
  | None => throw (HttpsError not_found "Vendor not found.")
  | Some vendorData =>
    let correctOtp := Order.deliveryCode orderData in
    let deliveryConfirmed := Order.deliveryConfirmed orderData in
    if expiredAt (now env) orderData then
      throw (HttpsError deadline_exceeded "OTP has expired.")
    else if bool_decide (deliveryConfirmed = Some true) then
      throw (HttpsError already_exists "Delivery already confirmed.")
    else if negb (bool_decide (Some (enteredOtp data) = correctOtp)) then
      throw (HttpsError permission_denied "Incorrect OTP.")
    else
    let pendingBalance := orZero (User.pendingBalance (User.wallet vendorData)) in
    let eligibleBalance := orZero (User.eligibleBalance (User.wallet vendorData)) in
    let commission := Order.vendorEarnings (Order.order orderData) in
    if num_gt commission pendingBalance then
      throw (HttpsError failed_precondition "Pending balance too low.")
    else
    let* _ := tx_update usersC (vendorId data) (fun d =>
      {| User.wallet :=
           {| User.balance := User.balance (User.wallet d);
              User.pendingBalance := Some (pendingBalance - commission)%Q;
              User.eligibleBalance := Some (eligibleBalance + commission)%Q;
              User.transactions := User.transactions (User.wallet d) |};
         User.monthlySales := User.monthlySales d;
         User.paymentInfo := User.paymentInfo d;
         User.updatedAt := Some (now env) |}) in
    let localWATTime := now env + watOffsetMs in
    tx_update ordersC (orderId data) (fun d =>
      {| Order.order := Order.complete (Order.order d) (now env);
         Order.deliveryCode := Order.deliveryCode d;
         Order.deliveryCodeExpiresAt := Order.deliveryCodeExpiresAt d;
         Order.deliveryConfirmed := Some true;
         Order.reviewed := Some false;
         Order.timeline :=
           timelineUnion
             {| Order.status := "Order completed";
                Order.timestamp := localWATTime;
                Order.actor := "vendor" |}
             (Order.timeline d) |})
  end
  end.

(** [confirmOrderWithOTP]. *)
Definition confirmOrderWithOTP (env : Env) (data : ConfirmData) : M unit :=
  if blank (orderId data) || blank (vendorId data) || blank (enteredOtp data) then
    throw (HttpsError invalid_argument "Missing orderId, vendorId, or OTP.")
  else
  try_catch
    (runTransaction (release env data))
    (fun error => throw (HttpsErrorWith internal "OTP confirmation failed" error)).

End Orders.

(** ** withdrawal/withdrawal.utils.ts *)

Module Withdrawals.
Import Num.

(** [request.data] of [requestVendorWithdrawal]. *)
Record RequestData := {
  vendorId : string;
  amount : number;
  bankName : string;
  bankCode : string;
  accountNumber : string;
  accountName : string;
}.

(** The [eligibleBalance] update both [request] and [reject] write. *)
Definition setEligible (v : number) (t : Timestamp) (d : User.Doc) : User.Doc :=
  {| User.wallet :=
       {| User.balance := User.balance (User.wallet d);
          User.pendingBalance := User.pendingBalance (User.wallet d);
          User.eligibleBalance := Some v;
          User.transactions := User.transactions (User.wallet d) |};
     User.monthlySales := User.monthlySales d;
     User.paymentInfo := User.paymentInfo d;
     User.updatedAt := Some t |}.

(** The callback of [db.runTransaction] in [requestVendorWithdrawal]. *)
Definition reserve (env : Env) (data : RequestData) : M unit :=
  let* vendorDoc := tx_get usersC (vendorId data) in
  match vendorDoc with
  | None => throw (HttpsError not_found "Vendor not found.")
  | Some vendorData =>
    let eligibleBalance := orZero (User.eligibleBalance (User.wallet vendorData)) in
    if num_lt eligibleBalance (amount data) then
      throw (HttpsError failed_precondition "Insufficient eligible balance.")
    else
    let* _ := tx_update usersC (vendorId data)
                (setEligible (eligibleBalance - amount data)%Q (now env)) in
    tx_set withdrawalRequestC (autoId env)
      {| Withdrawal.vendorId := vendorId data;
         Withdrawal.amount := amount data;
         Withdrawal.bankName := bankName data;
         Withdrawal.bankCode := bankCode data;
         Withdrawal.accountNumber := accountNumber data;
         Withdrawal.accountName := accountName data;
         Withdrawal.status := pending;
         Withdrawal.requestedAt := now env;
         Withdrawal.transferReference := None;
         Withdrawal.approvedAt := None;
         Withdrawal.rejectionReason := None;
         Withdrawal.reviewedAt := None |}
  end.

(** [requestVendorWithdrawal]. *)
Definition requestVendorWithdrawal (env : Env) (data : RequestData) : M unit :=
  if blank (vendorId data) || falsy (amount data) || blank (bankName data)
     || blank (accountNumber data) || blank (accountName data) then
    throw (HttpsError invalid_argument "Missing required fields.")
  else
  try_catch
    (runTransaction (reserve env data))
    (fun error => throw (HttpsError internal "Withdrawal request failed.")).

(** The callback of [db.runTransaction] in [rejectVendorWithdrawal]. *)
Definition restore (env : Env) (withdrawalId : string) (reason : string) : M unit :=
  let* withdrawalDoc := tx_get withdrawalRequestC withdrawalId in
  match withdrawalDoc with
  | None => throw (HttpsError not_found "Withdrawal request not found.")
  | Some withdrawalData =>
    if negb (bool_decide (Withdrawal.status withdrawalData = pending)) then
      throw (HttpsError failed_precondition "Only pending withdrawals can be rejected.")
    else
    let vendorId := Withdrawal.vendorId withdrawalData in
    let amount := Withdrawal.amount withdrawalData in
    let* vendorDoc := tx_get usersC vendorId in
    match vendorDoc with
    | None => throw (HttpsError not_found "Vendor not found.")
    | Some vendorData =>
      let eligibleBalance := orZero (User.eligibleBalance (User.wallet vendorData)) in
      let* _ := tx_update usersC vendorId
                  (setEligible (eligibleBalance + amount)%Q (now env)) in
      tx_update withdrawalRequestC withdrawalId (fun d =>
        {| Withdrawal.vendorId := Withdrawal.vendorId d;
           Withdrawal.amount := Withdrawal.amount d;
           Withdrawal.bankName := Withdrawal.bankName d;
           Withdrawal.bankCode := Withdrawal.bankCode d;
           Withdrawal.accountNumber := Withdrawal.accountNumber d;
           Withdrawal.accountName := Withdrawal.accountName d;
           Withdrawal.status := rejected;
           Withdrawal.requestedAt := Withdrawal.requestedAt d;
           Withdrawal.transferReference := Withdrawal.transferReference d;
           Withdrawal.approvedAt := Withdrawal.approvedAt d;
           Withdrawal.rejectionReason :=
             Some (if blank reason then "Rejected by admin" else reason);
           Withdrawal.reviewedAt := Some (now env) |})
    end
  end.

(** [rejectVendorWithdrawal]. *)
Definition rejectVendorWithdrawal (env : Env) (withdrawalId reason : string) : M unit :=
  if blank withdrawalId then
    throw (HttpsError invalid_argument "Missing withdrawalId.")
  else
  try_catch
    (runTransaction (restore env withdrawalId reason))
    (fun error => throw (HttpsErrorWith internal "Withdrawal rejection failed." error)).

(** [payload.recipient] of [approveVendorWithdrawal]. *)
Definition payloadRecipient (withdrawalData : Withdrawal.Doc) : Paystack.RecipientPayload :=
  {| Paystack.type := "nuban";
     Paystack.name := Withdrawal.accountName withdrawalData;
     Paystack.account_number := Withdrawal.accountNumber withdrawalData;
     Paystack.bank_code := Withdrawal.bankCode withdrawalData;
     Paystack.currency := "NGN" |}.

(** The body of the transfer request, from [payload] and the recipient
    code. *)
Definition transferBody (withdrawalData : Withdrawal.Doc) (recipientCode : string)
    : Paystack.TransferPayload :=
  {| Paystack.source := "balance";
     Paystack.amount := Paystack.calculateAmount (Withdrawal.amount withdrawalData);
     Paystack.recipient := recipientCode;
     Paystack.reason := Paystack.VendorWithdrawalFor (Withdrawal.amount withdrawalData) |}.

(** The callback of [db.runTransaction] in [approveVendorWithdrawal]:
    the reads, then the two Paystack requests, then the writes. *)
Definition payout (env : Env) (withdrawalId : string) (isLive : bool) : M unit :=
  let* withdrawalDoc := tx_get withdrawalRequestC withdrawalId in
  match withdrawalDoc with
  | None => throw (HttpsError not_found "Withdrawal request not found.")
  | Some withdrawalData =>
    if negb (bool_decide (Withdrawal.status withdrawalData = pending)) then
      throw (HttpsError failed_precondition "Withdrawal already processed.")
    else
    let* vendorDoc := tx_get usersC (Withdrawal.vendorId withdrawalData) in
    match vendorDoc with
    | None => throw (HttpsError not_found "Vendor not found.")
    | Some vendorData =>
      let transactions := default [] (User.transactions (User.wallet vendorData)) in
      let* headers := getPaystackHeaders env isLive in
      let* recipientCode :=
        post_transferrecipient env headers (payloadRecipient withdrawalData) in
      let* transferReference :=
        post_transfer env headers (transferBody withdrawalData recipientCode) in
      let* _ := tx_update withdrawalRequestC withdrawalId (fun d =>
        {| Withdrawal.vendorId := Withdrawal.vendorId d;
           Withdrawal.amount := Withdrawal.amount d;
           Withdrawal.bankName := Withdrawal.bankName d;
           Withdrawal.bankCode := Withdrawal.bankCode d;
           Withdrawal.accountNumber := Withdrawal.accountNumber d;
           Withdrawal.accountName := Withdrawal.accountName d;
           Withdrawal.status := approved;
           Withdrawal.requestedAt := Withdrawal.requestedAt d;
           Withdrawal.transferReference := Some transferReference;
           Withdrawal.approvedAt := Some (now env);
           Withdrawal.rejectionReason := Withdrawal.rejectionReason d;
           Withdrawal.reviewedAt := Withdrawal.reviewedAt d |}) in
      tx_update usersC (Withdrawal.vendorId withdrawalData) (fun d =>
        {| User.wallet :=
             {| User.balance :=
                  Some (orZero (User.balance (User.wallet d))
                        + - Withdrawal.amount withdrawalData)%Q;
                User.pendingBalance := User.pendingBalance (User.wallet d);
                User.eligibleBalance := User.eligibleBalance (User.wallet d);
                User.transactions :=
                  Some (transactions ++
                        [Ledger.WithdrawalDebit (Withdrawal.amount withdrawalData)
                           transferReference (Withdrawal.vendorId withdrawalData)
                           (now env)]) |};
           User.monthlySales := User.monthlySales d;
           User.paymentInfo := User.paymentInfo d;
           User.updatedAt := Some (now env) |})
    end
  end.

(** [approveVendorWithdrawal]. *)
Definition approveVendorWithdrawal (env : Env) (withdrawalId : string) (isLive : bool) : M unit :=
  if blank withdrawalId then
    throw (HttpsError invalid_argument "Missing withdrawal ID.")
  else
  try_catch
    (runTransaction (payout env withdrawalId isLive))
    (fun error => throw (HttpsError internal "Approval failed.")).

End Withdrawals.

(** ** refund/refund.utils.ts *)

Module Refunds.
Import Num.

(** [request.data] of [requestRefund]; a field is [None] when the
    payload has [null] or nothing for it. *)
Record RequestData := {
  req_orderId : option string;
  req_userId : option string;
  req_vendorId : option string;
  req_amount : option number;
  req_subtotal : option number;
  req_deliveryFee : option number;
  req_serviceFee : option number;
  req_vendorEarnings : option number;
  req_totalPaid : option number;
  req_reason : option string;
}.

(** [requestRefund]: one pending refund request per order id, holding
    the amounts the caller submitted. *)
Definition requestRefund (env : Env) (data : RequestData) : M unit :=
  match req_orderId data, req_userId data, req_vendorId data, req_amount data,
        req_subtotal data, req_deliveryFee data, req_vendorEarnings data,
        req_totalPaid data, req_reason data with
  | Some orderId, Some userId, Some vendorId, Some amount, Some subtotal,
    Some deliveryFee, Some vendorEarnings, Some totalPaid, Some reason =>
    try_catch
      (let* existing := doc_get refundRequestsC orderId in
       match existing with
       | Some _ => throw (HttpsError already_exists "Refund request already exists.")
       | None =>
         doc_set refundRequestsC orderId
           {| Refund.orderId := orderId;
              Refund.userId := userId;
              Refund.vendorId := vendorId;
              Refund.amount := amount;
              Refund.subtotal := subtotal;
              Refund.deliveryFee := deliveryFee;
              Refund.serviceFee := req_serviceFee data;
              Refund.vendorEarnings := vendorEarnings;
              Refund.totalPaid := totalPaid;
              Refund.reason := reason;
              Refund.status := pending;
              Refund.createdAt := now env;
              Refund.transferReference := None;
              Refund.approvedAt := None;
              Refund.rejectionReason := None;
              Refund.reviewedAt := None |}
       end)
      (fun error => throw (HttpsError internal "Refund request failed."))
  | _, _, _, _, _, _, _, _, _ =>
    throw (HttpsError invalid_argument "Missing required fields.")
  end.

(** [rejectRefundRequest]. *)
Definition rejectRefundRequest (env : Env) (orderId reason : string) : M unit :=
  if blank orderId then throw (HttpsError invalid_argument "Missing order ID.")
  else
  try_catch
    (runTransaction
       (let* refundDoc := tx_get refundRequestsC orderId in
        match refundDoc with
        | None => throw (HttpsError not_found "Refund request not found.")
        | Some refundData =>
          if negb (bool_decide (Refund.status refundData = pending)) then
            throw (HttpsError failed_precondition "Only pending refunds can be rejected.")
          else
          tx_update refundRequestsC orderId (fun d =>
            {| Refund.orderId := Refund.orderId d;
               Refund.userId := Refund.userId d;
               Refund.vendorId := Refund.vendorId d;
               Refund.amount := Refund.amount d;
               Refund.subtotal := Refund.subtotal d;
               Refund.deliveryFee := Refund.deliveryFee d;
               Refund.serviceFee := Refund.serviceFee d;
               Refund.vendorEarnings := Refund.vendorEarnings d;
               Refund.totalPaid := Refund.totalPaid d;
               Refund.reason := Refund.reason d;
               Refund.status := rejected;
               Refund.createdAt := Refund.createdAt d;
               Refund.transferReference := Refund.transferReference d;
               Refund.approvedAt := Refund.approvedAt d;
               Refund.rejectionReason :=
                 Some (if blank reason then "Refund rejected" else reason);
               Refund.reviewedAt := Some (now env) |})
        end))
    (fun error => throw (HttpsError internal "Reject refund failed.")).

(** [request.data] of [approveRefundRequest]. *)
Record ApproveData := {
  orderId : string;
  userId : string;
  amount : number;
  isLive : bool;
}.

(** [!bank?.accountNumber || !bank?.accountName || !bank?.bankCode]. *)
Definition bankDetailsMissing (bank : option User.PaymentInfo) : bool :=
  match bank with
  | None => true
  | Some b =>
      negb (truthy (User.accountNumber b)) || negb (truthy (User.accountName b))
      || negb (truthy (User.bankCode b))
  end.

(** The callback of [db.runTransaction] in [approveRefundRequest]. *)
Definition reverse (env : Env) (data : ApproveData) : M unit :=
  let* refundDoc := tx_get refundRequestsC (orderId data) in
  match refundDoc with
  | None => throw (HttpsError not_found "Refund request not found.")
  | Some refundData =>
    if negb (bool_decide (Refund.status refundData = pending)) then
      throw (HttpsError failed_precondition "Refund already processed.")
    else
    let vendorId := Refund.vendorId refundData in
    let* userDoc := tx_get usersC (userId data) in
    let* vendorDoc := tx_get usersC vendorId in
    let bank := userDoc ≫= User.paymentInfo in
    if bankDetailsMissing bank then
      throw (HttpsError failed_precondition "User bank details missing.")
    else
    let* headers := getPaystackHeaders env (isLive data) in
    let recipientPayload :=
      {| Paystack.type := "nuban";
         Paystack.name := default "" (bank ≫= User.accountName);
         Paystack.account_number := default "" (bank ≫= User.accountNumber);
         Paystack.bank_code := default "" (bank ≫= User.bankCode);
         Paystack.currency := "NGN" |} in
    let* recipientCode := post_transferrecipient env headers recipientPayload in
    let* transferReference :=
      post_transfer env headers
        {| Paystack.source := "balance";
           Paystack.amount := Paystack.calculateAmount (Refund.amount refundData);
           Paystack.recipient := recipientCode;
           Paystack.reason := Paystack.RefundForOrder (orderId data) |} in
    let* _ := tx_update refundRequestsC (orderId data) (fun d =>
      {| Refund.orderId := Refund.orderId d;
         Refund.userId := Refund.userId d;
         Refund.vendorId := Refund.vendorId d;
         Refund.amount := Refund.amount d;
         Refund.subtotal := Refund.subtotal d;
         Refund.deliveryFee := Refund.deliveryFee d;
         Refund.serviceFee := Refund.serviceFee d;
         Refund.vendorEarnings := Refund.vendorEarnings d;
         Refund.totalPaid := Refund.totalPaid d;
         Refund.reason := Refund.reason d;
         Refund.status := approved;
         Refund.createdAt := Refund.createdAt d;
         Refund.transferReference := Some transferReference;
         Refund.approvedAt := Some (now env);
         Refund.rejectionReason := Refund.rejectionReason d;
         Refund.reviewedAt := Refund.reviewedAt d |}) in
    let transactions := default [] (userDoc ≫= (User.transactions ∘ User.wallet)) in
    let* _ := tx_update usersC (userId data) (fun d =>
      {| User.wallet :=
           {| User.balance := User.balance (User.wallet d);
              User.pendingBalance := User.pendingBalance (User.wallet d);
              User.eligibleBalance := User.eligibleBalance (User.wallet d);
              User.transactions :=
                Some (transactions ++
                      [Ledger.RefundCredit (amount data) transferReference
                         (userId data) (now env)]) |};
         User.monthlySales := User.monthlySales d;
         User.paymentInfo := User.paymentInfo d;
         User.updatedAt := Some (now env) |}) in
    let vendorEarnings := Refund.vendorEarnings refundData in
    let vendorTransactions := default [] (vendorDoc ≫= (User.transactions ∘ User.wallet)) in
    let updatedVendorBalance :=
      (orZero (vendorDoc ≫= (User.balance ∘ User.wallet)) - vendorEarnings)%Q in
    let updatedVendorPendingBalance :=
      (orZero (vendorDoc ≫= (User.pendingBalance ∘ User.wallet)) - vendorEarnings)%Q in
    let refundMonth := currentMonthKey env in
    let prevMonthSales :=
      orZero (vendorDoc ≫= (fun v => User.monthlySales v !! refundMonth)) in
    let refundSalesTotal := (Refund.subtotal refundData + Refund.deliveryFee refundData)%Q in
    let newMonthSales := Math_max (prevMonthSales - refundSalesTotal)%Q 0%Q in
    tx_update usersC vendorId (fun d =>
      {| User.wallet :=
           {| User.balance := Some updatedVendorBalance;
              User.pendingBalance := Some updatedVendorPendingBalance;
              User.eligibleBalance := User.eligibleBalance (User.wallet d);
              User.transactions :=
                Some (vendorTransactions ++
                      [Ledger.RefundDebit vendorEarnings transferReference
                         vendorId (now env)]) |};
         User.monthlySales := <[refundMonth := newMonthSales]> (User.monthlySales d);
         User.paymentInfo := User.paymentInfo d;
         User.updatedAt := Some (now env) |})
  end.

(** [approveRefundRequest]. *)
Definition approveRefundRequest (env : Env) (data : ApproveData) : M unit :=
  if blank (orderId data) || blank (userId data) || falsy (amount data) then
    throw (HttpsError invalid_argument "Missing refund approval data.")
  else
  try_catch
    (runTransaction (reverse env data))
    (fun error => throw (HttpsError internal "Refund approval failed.")).

End Refunds.

(** ** referrals/referrals.utils.ts *)

Module Referrals.

(** The callback of [db.runTransaction] in [addReferralForVendor]. *)
Definition signup (env : Env) (vendorId referredCustomerId : string) : M unit :=
  let* vendorDoc := tx_get vendorsC vendorId in
  match vendorDoc with
  | None => throw (HttpsError not_found "Vendor not found")
  | Some vendorData =>
    let* referralDoc := tx_get referralsC vendorId in
    let nowIso := now env in
    let entry :=
      {| Referral.referredCustomerId := referredCustomerId;
         Referral.pointsEarned := 10;
         Referral.date := nowIso;
         Referral.orderId := None |} in
    match referralDoc with
    | Some data =>
      let updatedReferralHistory := default [] (Referral.referralHistory data) ++ [entry] in
      tx_update referralsC vendorId (fun d =>
        {| Referral.vendorId := Referral.vendorId d;
           Referral.storeName := Referral.storeName d;
           Referral.vendorLogoUrl := Referral.vendorLogoUrl d;
           Referral.totalReferralPoints := Referral.totalReferralPoints d + 10;
           Referral.weeklyReferralPoints := Referral.weeklyReferralPoints d + 10;
           Referral.referralCode := Referral.referralCode d;
           Referral.referredCustomersCount := Referral.referredCustomersCount d + 1;
           Referral.successfulReferralsCount := Referral.successfulReferralsCount d;
           Referral.referralHistory := Some updatedReferralHistory;
           Referral.lastReferralUpdate := nowIso;
           Referral.isActive := true;
           Referral.totalRewardsClaimed := Referral.totalRewardsClaimed d;
           Referral.lastLeaderboardPosition := Referral.lastLeaderboardPosition d;
           Referral.totalFeaturedSpots := Referral.totalFeaturedSpots d |})
    | None =>
      let referralModel :=
        {| Referral.vendorId := vendorId;
           Referral.storeName := Vendor.name vendorData;
           Referral.vendorLogoUrl := default "" (Vendor.logoUrl vendorData);
           Referral.totalReferralPoints := 10;
           Referral.weeklyReferralPoints := 10;
           Referral.referralCode := default "" (Vendor.referralCode vendorData);
           Referral.referredCustomersCount := 1;
           Referral.successfulReferralsCount := 0;
           Referral.referralHistory := Some [entry];
           Referral.lastReferralUpdate := nowIso;
           Referral.isActive := true;
           Referral.totalRewardsClaimed := 0;
           Referral.lastLeaderboardPosition := 0;
           Referral.totalFeaturedSpots := 0 |} in
      tx_set referralsC vendorId referralModel
    end
  end.

(** [addReferralForVendor]. *)
Definition addReferralForVendor (env : Env) (vendorId referredCustomerId : string) : M unit :=
  if Num.blank vendorId || Num.blank referredCustomerId then
    throw (HttpsError invalid_argument "Missing vendorId or referredCustomerId")
  else
  try_catch
    (runTransaction (signup env vendorId referredCustomerId))
    (fun error => throw (HttpsErrorWith internal "Failed to add referral" error)).

(** [referralHistory.some(h => h.referredCustomerId === referredCustomerId)]. *)
Definition hasReferralIn (referredCustomerId : string) (history : list Referral.History) : bool :=
  existsb (fun h => String.eqb (Referral.referredCustomerId h) referredCustomerId) history.

(** The callback of [db.runTransaction] in
    [updateReferralPointsOnPurchase]. *)
Definition purchase (env : Env) (vendorId referredCustomerId orderId : string) : M unit :=
  let* referralDoc := tx_get referralsC vendorId in
  match referralDoc with
  | None => throw (HttpsError not_found "Referral record not found")
  | Some referralData =>
    match Referral.referralHistory referralData with
    | None => throw (TypeError "Cannot read properties of undefined (reading 'some')")
    | Some history =>
      let hasReferral := hasReferralIn referredCustomerId history in
      if negb hasReferral then
        throw (HttpsError failed_precondition "Customer was not referred by this vendor")
      else
      let nowIso := now env in
      let updatedReferralHistory :=
        history ++
        [{| Referral.referredCustomerId := referredCustomerId;
            Referral.pointsEarned := 40;
            Referral.date := nowIso;
            Referral.orderId := Some orderId |}] in
      tx_update referralsC vendorId (fun d =>
        {| Referral.vendorId := Referral.vendorId d;
           Referral.storeName := Referral.storeName d;
           Referral.vendorLogoUrl := Referral.vendorLogoUrl d;
           Referral.totalReferralPoints := Referral.totalReferralPoints d + 40;
           Referral.weeklyReferralPoints := Referral.weeklyReferralPoints d + 40;
           Referral.referralCode := Referral.referralCode d;
           Referral.referredCustomersCount := Referral.referredCustomersCount d;
           Referral.successfulReferralsCount := Referral.successfulReferralsCount d + 1;
           Referral.referralHistory := Some updatedReferralHistory;
           Referral.lastReferralUpdate := nowIso;
           Referral.isActive := Referral.isActive d;
           Referral.totalRewardsClaimed := Referral.totalRewardsClaimed d;
           Referral.lastLeaderboardPosition := Referral.lastLeaderboardPosition d;
           Referral.totalFeaturedSpots := Referral.totalFeaturedSpots d |})
    end
  end.

(** [updateReferralPointsOnPurchase]. *)
Definition updateReferralPointsOnPurchase (env : Env)
    (vendorId referredCustomerId orderId : string) : M unit :=
  if Num.blank vendorId || Num.blank referredCustomerId || Num.blank orderId then
    throw (HttpsError invalid_argument
             "Missing required fields: vendorId, referredCustomerId, or orderId")
  else
  try_catch
    (runTransaction (purchase env vendorId referredCustomerId orderId))
    (fun error => throw (HttpsErrorWith internal "Failed to update referral points" error)).

End Referrals.

(** ** Vocabulary of the statements *)

(** The validations [createOrderAndLogTransaction] runs before it opens
    the transaction: both ids present, the submitted fee within 1 of the
    server's, the paid total within 1 of the expected one. *)
Definition accepted (data : Orders.CreateOrderData) : Prop :=
  let o := Orders.order data in
  let fee := Fees.calculateServiceCharge (Order.subtotal o) in
  Order.vendorId o <> "" /\ Order.orderId o <> ""
  /\ (- (1) <= fee - Order.serviceFee o <= 1)%Q
  /\ (- (1) <= Orders.totalPaid data
               - Orders.expectedTotal (Order.setServiceFee o fee) <= 1)%Q.


(** The request of [confirmOrderWithOTP] names an order, a vendor and a
    code. *)
Definition wellFormed (data : Orders.ConfirmData) : Prop :=
  Orders.orderId data <> "" /\ Orders.vendorId data <> ""
  /\ Orders.enteredOtp data <> "".

(** No gateway request is made while a transaction is open, as a check
    on a log of effects ([open]: a transaction is open at the head of
    the log). *)
Fixpoint postsOutsideTransactions (open : bool) (log : list Effect) : bool :=
  match log with
  | [] => true
  | TxBegin :: rest => postsOutsideTransactions true rest
  | TxCommit :: rest | TxRollback :: rest => postsOutsideTransactions false rest
  | HttpPost _ :: rest => negb open && postsOutsideTransactions open rest
  | _ :: rest => postsOutsideTransactions open rest
  end.

(** Every gateway request is made while a transaction is open. *)
Fixpoint postsInsideTransactions (open : bool) (log : list Effect) : bool :=
  match log with
  | [] => true
  | TxBegin :: rest => postsInsideTransactions true rest
  | TxCommit :: rest | TxRollback :: rest => postsInsideTransactions false rest
  | HttpPost _ :: rest => open && postsInsideTransactions open rest
  | _ :: rest => postsInsideTransactions open rest
  end.

(** The three phases of a transaction callback. *)
Inductive Phase := reading | calling | writing.

(** In each transaction of the log the reads come first, the gateway
    requests next and the writes last. *)
Fixpoint phased (p : Phase) (log : list Effect) : bool :=
  match log with
  | [] => true
  | TxBegin :: rest => phased reading rest
  | TxGet _ _ :: rest =>
      match p with reading => phased reading rest | _ => false end
  | HttpPost _ :: rest =>
      match p with writing => false | _ => phased calling rest end
  | TxSet _ _ :: rest | TxUpdate _ _ :: rest => phased writing rest
  | _ :: rest => phased p rest
  end.

(** The secret [getPaystackHeaders] reads for the mode of the call. *)
Definition secretFor (env : Env) (isLive : bool) : option string :=
  if isLive then PAYSTACK_LIVE_SECRET_KEY env else PAYSTACK_TEST_SECRET_KEY env.

(** The gateway call of a withdrawal's approval fails: the gateway
    rejects the request to create the recipient, or takes it and rejects
    the transfer. *)
Definition payoutRejected (env : Env) (key : string) (wd : Withdrawal.Doc) : Prop :=
  transferrecipient env key (Withdrawals.payloadRecipient wd) = None
  \/ exists code,
       transferrecipient env key (Withdrawals.payloadRecipient wd) = Some code
       /\ transfer env key (Withdrawals.transferBody wd code) = None.

(** The invariant of the wallet: neither the pending nor the eligible
    balance is negative. *)
Definition solvent (v : User.Doc) : Prop :=
  (0 <= Num.orZero (User.pendingBalance (User.wallet v)))%Q
  /\ (0 <= Num.orZero (User.eligibleBalance (User.wallet v)))%Q.

(** ** otp/otp.utils.ts *)

Module Otp.
Import Num.

(** A document of the [otp_codes] collection, which is keyed by e-mail
    address. *)
Record Doc := {
  code : string;
  expiresAt : Timestamp;
  createdAt : Timestamp;
}.

Definition OTP_EXPIRY_MINUTES : Z := 5.

(** [generateOtp]: [Math.floor(100000 + Math.random() * 900000).toString()]. *)
Definition generateOtp (random : number) : string :=
  pretty (Qfloor (100000 + random * 900000)).

(** [sendOtpToEmail]: the code is stored under the address, then mailed;
    [brevo to otp] tells whether Brevo accepts the mail. An empty
    address is refused by [doc(email)]. *)
Definition sendOtpToEmail (env : Env) (brevo : string -> string -> bool) (email : string)
    (codes : gmap string Doc) : (Thrown + unit) * gmap string Doc :=
  let otp := generateOtp (random env) in
  let expiresAt := now env + OTP_EXPIRY_MINUTES * 60 * 1000 in
  if blank email then
    (inl (Error "Value for argument documentPath is not a valid resource path."), codes)
  else
  let codes :=
    <[email := {| code := otp; expiresAt := expiresAt; createdAt := now env |}]> codes in
  if brevo email otp then (inr tt, codes)
  else (inl (HttpsError internal "Failed to send email"), codes).

(** [verifyOtp]: the code is compared first, the expiry next; the
    document is deleted when the code is right, expired or not. *)
Definition verifyOtp (env : Env) (email otp : string) (codes : gmap string Doc)
    : (Thrown + unit) * gmap string Doc :=
  if blank email || blank otp then
    (inl (HttpsError invalid_argument "Email and OTP are required."), codes)
  else
  match codes !! email with
  | None => (inl (HttpsError not_found "OTP not found."), codes)
  | Some doc =>
    if negb (String.eqb (code doc) otp) then
      (inl (HttpsError permission_denied "Invalid OTP."), codes)
    else if bool_decide (expiresAt doc < now env) then
      (inl (HttpsError deadline_exceeded "OTP has expired."), delete email codes)
    else (inr tt, delete email codes)
  end.

(** [cleanExpiredOtps]: the documents with [expiresAt < now] are
    deleted in one batch. *)
Definition cleanExpiredOtps (env : Env) (codes : gmap string Doc) : gmap string Doc :=
  let expired := filter (fun kv => expiresAt kv.2 < now env) codes in
  codes ∖ expired.

End Otp.

(** ** rewards/rewards.utils.ts *)

Module Rewards.
Import Num.

(** A document of the [rewards] collection, and the [request.data] of
    [addReward], which is stored as it comes: every field may be
    absent. *)
Record Doc := {
  userId : option string;
  rewardType : option string;
  referrerVendorId : option string;
  createdAt : option Timestamp;
  expiresAt : option Timestamp;
  isUsed : option bool;
  isActive : option bool;
  usedAt : option Timestamp;
  appliedToOrderId : option string;
  rewardValue : option number;
  channel : option string;
  lastNotificationTime : option Timestamp;
  notificationsSent : option Z;
}.

(** [{...rewardData, createdAt: Timestamp.now(), isUsed: false, isActive: true}]. *)
Definition stamped (rewardData : Doc) (t : Timestamp) : Doc :=
  {| userId := userId rewardData;
     rewardType := rewardType rewardData;
     referrerVendorId := referrerVendorId rewardData;
     createdAt := Some t;
     expiresAt := expiresAt rewardData;
     isUsed := Some false;
     isActive := Some true;
     usedAt := usedAt rewardData;
     appliedToOrderId := appliedToOrderId rewardData;
     rewardValue := rewardValue rewardData;
     channel := channel rewardData;
     lastNotificationTime := lastNotificationTime rewardData;
     notificationsSent := notificationsSent rewardData |}.

(** [addReward]: the reward is added under the id the store generates,
    which is returned. *)
Definition addReward (env : Env) (rewardData : option Doc) (rewards : gmap string Doc)
    : (Thrown + string) * gmap string Doc :=
  match rewardData with
  | None => (inl (HttpsError invalid_argument "Missing reward data"), rewards)
  | Some rewardData =>
      let reward := stamped rewardData (now env) in
      (inr (autoId env), <[autoId env := reward]> rewards)
  end.

(** The update [{isUsed: true, usedAt: serverTimestamp(), appliedToOrderId: orderId}]. *)
Definition used (d : Doc) (t : Timestamp) (orderId : string) : Doc :=
  {| userId := userId d;
     rewardType := rewardType d;
     referrerVendorId := referrerVendorId d;
     createdAt := createdAt d;
     expiresAt := expiresAt d;
     isUsed := Some true;
     isActive := isActive d;
     usedAt := Some t;
     appliedToOrderId := Some orderId;
     rewardValue := rewardValue d;
     channel := channel d;
     lastNotificationTime := lastNotificationTime d;
     notificationsSent := notificationsSent d |}.

(** [markRewardAsUsed]: every error thrown after the validation is
    rethrown as [internal], with the caught error as details. *)
Definition markRewardAsUsed (env : Env) (rewardId orderId : string) (rewards : gmap string Doc)
    : (Thrown + unit) * gmap string Doc :=
  if blank rewardId || blank orderId then
    (inl (HttpsError invalid_argument "Missing required fields: rewardId and orderId"),
     rewards)
  else
  let rethrown error := HttpsErrorWith internal "Failed to mark reward as used" error in
  match rewards !! rewardId with
  | None => (inl (rethrown (HttpsError not_found "Reward not found")), rewards)
  | Some rewardData =>
    if bool_decide (isUsed rewardData = Some true) then
      (inl (rethrown (HttpsError failed_precondition "Reward has already been used")),
       rewards)
    else (inr tt, <[rewardId := used rewardData (now env) orderId]> rewards)
  end.

(** The four notices of [checkExpiringRewards], by their headings:
    "Only 3 Days Left! Claim Your Reward!", "Last Chance! 24 Hours to Use
    Your Reward", "Hurry! Reward Expires in 2 Hours", "Reward Expired". *)
Inductive Notice := three_days_left | last_chance_24_hours | expires_in_2_hours | reward_expired.

(** A notification to the customers' app: the notice, the reward type
    named in its text, and [include_external_user_ids]. *)
Record Notification := {
  notice : Notice;
  about : option string;
  include_external_user_ids : list (option string);
}.

(** One hour, in milliseconds. *)
Definition hour : number := 1000 * 60 * 60.

(** The query [where("isUsed", "==", false).where("expiresAt", ">", now)]. *)
Definition selected (t : Timestamp) (reward : Doc) : bool :=
  bool_decide (isUsed reward = Some false)
  && match expiresAt reward with
     | Some expiresAt => bool_decide (t < expiresAt)
     | None => false
     end.

(** The notice the callback of [forEach] chooses for a selected reward,
    if any. *)
Definition due (t : Timestamp) (reward : Doc) : option Notice :=
  let expiresAt := default 0 (expiresAt reward) in
  let timeUntilExpiry := inject_Z (expiresAt - t) in
  let hoursUntilExpiry := (timeUntilExpiry / hour)%Q in
  let lastNotificationTime := default 0 (lastNotificationTime reward) in
  let timeSinceLastNotification := inject_Z (t - lastNotificationTime) in
  let hoursSinceLastNotification := (timeSinceLastNotification / hour)%Q in
  if num_lt hoursSinceLastNotification 12 then None
  else if Qle_bool hoursUntilExpiry 73 && num_gt hoursUntilExpiry 71 then
    Some three_days_left
  else if Qle_bool hoursUntilExpiry 25 && num_gt hoursUntilExpiry 23 then
    Some last_chance_24_hours
  else if Qle_bool hoursUntilExpiry 3.5 && num_gt hoursUntilExpiry 2.5 then
    Some expires_in_2_hours
  else if Qle_bool hoursUntilExpiry 0 && num_gt hoursUntilExpiry (-1) then
    Some reward_expired
  else None.

(** The update [{lastNotificationTime: now, notificationsSent: increment(1)}]. *)
Definition notified (d : Doc) (t : Timestamp) : Doc :=
  {| userId := userId d;
     rewardType := rewardType d;
     referrerVendorId := referrerVendorId d;
     createdAt := createdAt d;
     expiresAt := expiresAt d;
     isUsed := isUsed d;
     isActive := isActive d;
     usedAt := usedAt d;
     appliedToOrderId := appliedToOrderId d;
     rewardValue := rewardValue d;
     channel := channel d;
     lastNotificationTime := Some t;
     notificationsSent := Some (default 0 (notificationsSent d) + 1) |}.

(** What a run of [checkExpiringRewards] does to one reward: the notice
    sent, if any, and the document after. *)
Definition checked (t : Timestamp) (reward : Doc) : option Notification * Doc :=
  if selected t reward then
    match due t reward with
    | Some n =>
        (Some {| notice := n; about := rewardType reward;
                 include_external_user_ids := [userId reward] |},
         notified reward t)
    | None => (None, reward)
    end
  else (None, reward).

(** [checkExpiringRewards], in a run in which OneSignal accepts every
    request: the notifications sent and the collection after. (When a
    request is rejected the function returns while updates are still in
    flight; that run has no determined outcome.) *)
Definition checkExpiringRewards (env : Env) (rewards : gmap string Doc)
    : list Notification * gmap string Doc :=
  (omap (fun kv => (checked (now env) kv.2).1) (map_to_list rewards),
   (fun reward => (checked (now env) reward).2) <$> rewards).

(** What happens to the [rewards] collection: a call of [addReward] or
    [markRewardAsUsed], or a run of [checkExpiringRewards]. *)
Inductive Call :=
| AddReward (rewardData : option Doc)
| MarkRewardAsUsed (rewardId orderId : string)
| CheckExpiringRewards.

Definition invoke (env : Env) (c : Call) (rewards : gmap string Doc) : gmap string Doc :=
  match c with
  | AddReward rewardData => (addReward env rewardData rewards).2
  | MarkRewardAsUsed rewardId orderId => (markRewardAsUsed env rewardId orderId rewards).2
  | CheckExpiringRewards => (checkExpiringRewards env rewards).2
  end.

(** The collection after a sequence of calls and runs. *)
Definition replay (calls : list (Env * Call)) (rewards : gmap string Doc)
    : gmap string Doc :=
  foldl (fun rewards ec => invoke ec.1 ec.2 rewards) rewards calls.

End Rewards.

(** ** referrals/referrals.utils.ts: the weekly reset *)

Module Leaderboard.

(** The document [global/leaderboardSettings]. *)
Record Settings := {
  currentResetStart : option Timestamp;
  nextResetTime : option Timestamp;
}.

(** The update [{weeklyReferralPoints: 0}]. *)
Definition zeroWeekly (d : Referral.Doc) : Referral.Doc :=
  {| Referral.vendorId := Referral.vendorId d;
     Referral.storeName := Referral.storeName d;
     Referral.vendorLogoUrl := Referral.vendorLogoUrl d;
     Referral.totalReferralPoints := Referral.totalReferralPoints d;
     Referral.weeklyReferralPoints := 0;
     Referral.referralCode := Referral.referralCode d;
     Referral.referredCustomersCount := Referral.referredCustomersCount d;
     Referral.successfulReferralsCount := Referral.successfulReferralsCount d;
     Referral.referralHistory := Referral.referralHistory d;
     Referral.lastReferralUpdate := Referral.lastReferralUpdate d;
     Referral.isActive := Referral.isActive d;
     Referral.totalRewardsClaimed := Referral.totalRewardsClaimed d;
     Referral.lastLeaderboardPosition := Referral.lastLeaderboardPosition d;
     Referral.totalFeaturedSpots := Referral.totalFeaturedSpots d |}.

(** One week, in milliseconds. *)
Definition week : Z := 7 * 24 * 60 * 60 * 1000.

(** [resetWeeklyLeaderboard], up to the commit of the batch: without the
    settings document nothing is done; a settings document without
    [nextResetTime] makes [nextResetTime.toDate()] throw before the
    commit. (The notifications that follow the commit are sent in a
    [try] whose [catch] only logs.) *)
Definition resetWeeklyLeaderboard (config : option Settings) (d : Database)
    : option Thrown * (option Settings * Database) :=
  match config with
  | None => (None, (config, d))
  | Some settings =>
    match nextResetTime settings with
    | None =>
        (Some (TypeError "Cannot read properties of undefined (reading 'toDate')"),
         (config, d))
    | Some t =>
        (None,
         (Some {| currentResetStart := Some t; nextResetTime := Some (t + week) |},
          setDocs referralsC (zeroWeekly <$> referrals d) d))
    end
  end.

End Leaderboard.

(** ** delete/delete.utils.ts *)

Module Accounts.
Import Num.

(** [error.message || "Deletion failed"]. *)
Definition messageOf (message : string) : string :=
  if blank message then "Deletion failed" else message.

(** [deleteVendorAccount], as far as the [users] and [vendors]
    collections go. [cleanup] is the message of the error with which the
    deletions made before the batch is committed fail, if they do (the
    vendor's products, packaging, options, categories, carts, wishlists,
    reviews, security documents), [deleteUser] the one of
    [auth.deleteUser]; the deletion of stored files never fails the
    call. An [HttpsError] is rethrown as it is, any other error as
    [internal]. *)
Definition deleteVendorAccount (cleanup deleteUser : option string)
    (vendorId userId : string) (d : Database) : option Thrown * Database :=
  if blank vendorId || blank userId then
    (Some (HttpsError invalid_argument "Vendor ID and User ID required"), d)
  else
  match users d !! vendorId with
  | None => (Some (HttpsError not_found "Vendor not found"), d)
  | Some vendorData =>
    let wallet := User.wallet vendorData in
    let eligibleBalance := orZero (User.eligibleBalance wallet) in
    let pendingBalance := orZero (User.pendingBalance wallet) in
    if num_gt eligibleBalance 0 || num_gt pendingBalance 0 then
      (Some (HttpsError failed_precondition
               "Withdraw your funds before deleting your account"), d)
    else
    match cleanup with
    | Some message => (Some (HttpsError internal (messageOf message)), d)
    | None =>
      let d := setDocs usersC (delete userId (users d))
                 (setDocs vendorsC (delete vendorId (vendors d)) d) in
      match deleteUser with
      | Some message => (Some (HttpsError internal (messageOf message)), d)
      | None => (None, d)
      end
    end
  end.

End Accounts.

(** ** Everything that happens to the referral records *)

Module Events.

(** A call of [addReferralForVendor] or [updateReferralPointsOnPurchase],
    or a run of the weekly reset. *)
Inductive Event :=
| Signup (env : Env) (vendorId referredCustomerId : string)
| Purchase (env : Env) (vendorId referredCustomerId orderId : string)
| WeeklyReset.

(** Whether an event is a run of the reset. *)
Definition isReset (e : Event) : bool :=
  match e with WeeklyReset => true | _ => false end.

(** The settings document and the world after an event. *)
Definition after (e : Event) (s : option Leaderboard.Settings * World)
    : option Leaderboard.Settings * World :=
  match e with
  | Signup env vendorId referredCustomerId =>
      (s.1, (Referrals.addReferralForVendor env vendorId referredCustomerId s.2).2)
  | Purchase env vendorId referredCustomerId orderId =>
      (s.1, (Referrals.updateReferralPointsOnPurchase env vendorId referredCustomerId
               orderId s.2).2)
  | WeeklyReset =>
      let r := (Leaderboard.resetWeeklyLeaderboard s.1 (db s.2)).2 in
      (r.1, {| db := r.2; effects := effects s.2 |})
  end.

Definition afterAll (events : list Event) (s : option Leaderboard.Settings * World)
    : option Leaderboard.Settings * World :=
  foldl (fun s e => after e s) s events.

End Events.

(** The points of the entries of [referralHistory || []]. *)
Definition historyPoints (r : Referral.Doc) : Z :=
  foldr (fun h acc => Referral.pointsEarned h + acc) 0
    (default [] (Referral.referralHistory r)).

(** A referral record adds up: the total is the sum of the points of the
    history, 10 for every customer referred and 40 for every purchase,
    and the points of the week are part of it. *)
Definition tallied (r : Referral.Doc) : Prop :=
  Referral.totalReferralPoints r = historyPoints r
  /\ Referral.totalReferralPoints r
     = 10 * Referral.referredCustomersCount r + 40 * Referral.successfulReferralsCount r
  /\ 0 <= Referral.referredCustomersCount r
  /\ 0 <= Referral.successfulReferralsCount r
  /\ 0 <= Referral.weeklyReferralPoints r <= Referral.totalReferralPoints r.

(** The runs of the weekly reset among the events. *)
Definition resets (events : list Events.Event) : Z :=
  Z.of_nat (length (List.filter Events.isReset events)).

(** ** index.ts: the callable functions, one after the other *)

Module Index.

(** A call of one of the exported order, withdrawal, refund and
    referral functions, with its [request.data]. *)
Inductive Call :=
| CreateOrderAndLogTransaction (data : Orders.CreateOrderData)
| GenerateDeliveryCode (orderId : string)
| ConfirmOrderWithOTP (data : Orders.ConfirmData)
| RequestVendorWithdrawal (data : Withdrawals.RequestData)
| RejectVendorWithdrawal (withdrawalId reason : string)
| ApproveVendorWithdrawal (withdrawalId : string) (isLive : bool)
| RequestRefund (data : Refunds.RequestData)
| RejectRefundRequest (orderId reason : string)
| ApproveRefundRequest (data : Refunds.ApproveData)
| AddReferralForVendor (vendorId referredCustomerId : string)
| UpdateReferralPointsOnPurchase (vendorId referredCustomerId orderId : string).

(** What the caller sees of a call: the error, if one was thrown. *)
Definition outcome {A} (r : (Thrown + A) * World) : option Thrown * World :=
  (match r.1 with inl e => Some e | inr _ => None end, r.2).

(** The call is served by its handler, in the environment of the
    moment. *)
Definition invoke (env : Env) (c : Call) (w : World) : option Thrown * World :=
  match c with
  | CreateOrderAndLogTransaction data =>
      outcome (Orders.createOrderAndLogTransaction env data w)
  | GenerateDeliveryCode orderId => outcome (Orders.generateDeliveryCode env orderId w)
  | ConfirmOrderWithOTP data => outcome (Orders.confirmOrderWithOTP env data w)
  | RequestVendorWithdrawal data => outcome (Withdrawals.requestVendorWithdrawal env data w)
  | RejectVendorWithdrawal withdrawalId reason =>
      outcome (Withdrawals.rejectVendorWithdrawal env withdrawalId reason w)
  | ApproveVendorWithdrawal withdrawalId isLive =>
      outcome (Withdrawals.approveVendorWithdrawal env withdrawalId isLive w)
  | RequestRefund data => outcome (Refunds.requestRefund env data w)
  | RejectRefundRequest orderId reason =>
      outcome (Refunds.rejectRefundRequest env orderId reason w)
  | ApproveRefundRequest data => outcome (Refunds.approveRefundRequest env data w)
  | AddReferralForVendor vendorId referredCustomerId =>
      outcome (Referrals.addReferralForVendor env vendorId referredCustomerId w)
  | UpdateReferralPointsOnPurchase vendorId referredCustomerId orderId =>
      outcome (Referrals.updateReferralPointsOnPurchase env vendorId referredCustomerId
                 orderId w)
  end.

(** The world after a sequence of calls, failed ones included. *)
Fixpoint replay (calls : list (Env * Call)) (w : World) : World :=
  match calls with
  | [] => w
  | (env, c) :: rest => replay rest (invoke env c w).2
  end.

End Index.



(** The identity and the amounts of an order. *)
Definition sameAmounts (a b : Order.IncomingOrder) : Prop :=
  Order.orderId a = Order.orderId b
  /\ Order.userId a = Order.userId b
  /\ Order.vendorId a = Order.vendorId b
  /\ Order.items a = Order.items b
  /\ Order.subtotal a = Order.subtotal b
  /\ Order.deliveryFee a = Order.deliveryFee b
  /\ Order.serviceFee a = Order.serviceFee b
  /\ Order.vendorCommission a = Order.vendorCommission b
  /\ Order.vendorEarnings a = Order.vendorEarnings b
  /\ Order.totalAmountPaid a = Order.totalAmountPaid b
  /\ Order.paymentReference a = Order.paymentReference b
  /\ Order.createdAt a = Order.createdAt b.

(** [wallet.transactions || []]. *)
Definition ledgerOf (v : User.Doc) : list Ledger.Entry :=
  default [] (User.transactions (User.wallet v)).





(** ** A concrete marketplace *)

Module Scenario.
Import Num.

(** The environment at time [t], the gateway accepting requests or
    rejecting transfers. *)
Definition envAt (t : Timestamp) (gatewayUp : bool) : Env :=
  {| now := t;
     random := 0.4269;
     currentMonthKey := "2025-06";
     PAYSTACK_LIVE_SECRET_KEY := None;
     PAYSTACK_TEST_SECRET_KEY := Some "sk_test";
     transferrecipient := fun _ _ => Some "RCP_1";
     transfer := fun _ _ => if gatewayUp then Some "TRF_1" else None;
     autoId := "withdrawal-1" |}.

Definition env0 : Env := envAt 1750000000000 true.
(** One hour later. *)
Definition env1 : Env := envAt 1750003600000 true.
(** Four days later: a delivery code generated at [env0] has expired. *)
Definition envLate : Env := envAt 1750345600000 true.
(** The gateway rejecting transfers. *)
Definition envDown : Env := envAt 1750003600000 false.

(** A vendor who has not sold anything yet. *)
Definition newVendor : User.Doc :=
  {| User.wallet :=
       {| User.balance := None; User.pendingBalance := None;
          User.eligibleBalance := None; User.transactions := None |};
     User.monthlySales := ∅;
     User.paymentInfo := None;
     User.updatedAt := None |}.

(** A customer with payout bank details. *)
Definition customer : User.Doc :=
  {| User.wallet :=
       {| User.balance := None; User.pendingBalance := None;
          User.eligibleBalance := None; User.transactions := None |};
     User.monthlySales := ∅;
     User.paymentInfo :=
       Some {| User.accountNumber := Some "0123456789";
               User.accountName := Some "Ada Obi";
               User.bankCode := Some "058" |};
     User.updatedAt := None |}.

(** The order of the end-to-end scenario: subtotal 10000, delivery fee
    500, service fee 650; the client claims earnings of its own. *)
Definition orderWith (commission earnings : number) : Order.IncomingOrder :=
  {| Order.orderId := "order-1"; Order.userId := "customer-1";
     Order.vendorId := "vendor-1"; Order.vendorCategory := "food";
     Order.items :=
       [{| Order.productId := "p1"; Order.name := "Jollof rice";
           Order.quantity := 4; Order.price := 2500 |}];
     Order.subtotal := 10000; Order.deliveryFee := 500; Order.serviceFee := 650;
     Order.vendorCommission := commission; Order.vendorEarnings := earnings;
     Order.totalAmountPaid := 11150;
     Order.deliveryType := "delivery"; Order.deliveryAddress := "12 Marina";
     Order.orderCutoffTime := "18:00"; Order.vendorNote := None;
     Order.paymentReference := "ref-1"; Order.paymentStatus := payment_paid;
     Order.orderStatus := order_pending;
     Order.createdAt := 1749999000000; Order.updatedAt := 1749999000000;
     Order.appliedRewardType := None; Order.rewardDiscountAmount := None;
     Order.originalTotalBeforeReward := None; Order.platformDebtAmount := None;
     Order.platformDebtType := None; Order.platformDebtSettled := None |}.

Definition requestWith (commission earnings : number) : Orders.CreateOrderData :=
  {| Orders.order := orderWith commission earnings;
     Orders.userId := "customer-1";
     Orders.reference := "ref-1";
     Orders.status := charge_success;
     Orders.totalPaid := 11150 |}.

(** The vendor and the customer are registered; nothing else exists. *)
Definition world0 : World :=
  {| db :=
       {| orders := ∅;
          users := {[ "vendor-1" := newVendor; "customer-1" := customer ]};
          withdrawalRequest := ∅; refundRequests := ∅; referrals := ∅;
          vendors :=
            {[ "vendor-1" :=
                 {| Vendor.name := "Mama Put"; Vendor.logoUrl := None;
                    Vendor.referralCode := Some "MAMA10" |} ]} |};
     effects := [] |}.

(** The world after the scenario's order is settled. *)
Definition world1 : World :=
  (Orders.createOrderAndLogTransaction env0 (requestWith 0 0) world0).2.

(** The world after a delivery code is generated for the order. *)
Definition world2 : World :=
  (Orders.generateDeliveryCode env0 "order-1" world1).2.

Definition confirmWith (otp : string) : Orders.ConfirmData :=
  {| Orders.orderId := "order-1"; Orders.vendorId := "vendor-1";
     Orders.enteredOtp := otp |}.

(** The world after the vendor confirms the delivery with the code, an
    hour after it was generated. *)
Definition world3 : World :=
  (Orders.confirmOrderWithOTP env1 (confirmWith "4842") world2).2.

(** The vendor asks to withdraw 4000 of the 10500 released. *)
Definition withdraw4000 : Withdrawals.RequestData :=
  {| Withdrawals.vendorId := "vendor-1"; Withdrawals.amount := 4000;
     Withdrawals.bankName := "GTBank"; Withdrawals.bankCode := "058";
     Withdrawals.accountNumber := "0001112223";
     Withdrawals.accountName := "Mama Put Ltd" |}.

(** The world after that request, the log starting afresh. *)
Definition world4 : World :=
  {| db := db (Withdrawals.requestVendorWithdrawal env1 withdraw4000 world3).2;
     effects := [] |}.

(** The customer asks for a refund of the delivered order, with the
    amounts of the order. *)
Definition refundOrder1 : Refunds.RequestData :=
  {| Refunds.req_orderId := Some "order-1";
     Refunds.req_userId := Some "customer-1";
     Refunds.req_vendorId := Some "vendor-1";
     Refunds.req_amount := Some 11150%Q;
     Refunds.req_subtotal := Some 10000%Q;
     Refunds.req_deliveryFee := Some 500%Q;
     Refunds.req_serviceFee := Some 650%Q;
     Refunds.req_vendorEarnings := Some 10500%Q;
     Refunds.req_totalPaid := Some 11150%Q;
     Refunds.req_reason := Some "Food arrived cold" |}.

(** The world after the refund is requested for the delivered order
    (from [world3]: nothing withdrawn), the log starting afresh. *)
Definition world5 : World :=
  {| db := db (Refunds.requestRefund env1 refundOrder1 world3).2;
     effects := [] |}.

Definition approveOrder1 : Refunds.ApproveData :=
  {| Refunds.orderId := "order-1"; Refunds.userId := "customer-1";
     Refunds.amount := 11150; Refunds.isLive := false |}.

(** A vendor with 8000 earned and pending, 3000 of it sold this month,
    and a pending refund request for an order of subtotal 5000,
    delivery fee 500 and earnings 5500. *)
Definition world6 : World :=
  {| db :=
       {| orders := ∅;
          users :=
            {[ "vendor-2" :=
                 {| User.wallet :=
                      {| User.balance := Some 8000%Q; User.pendingBalance := Some 8000%Q;
                         User.eligibleBalance := Some 1200%Q;
                         User.transactions := Some [] |};
                    User.monthlySales := {[ "2025-06" := 3000%Q ]};
                    User.paymentInfo := None;
                    User.updatedAt := None |};
               "customer-1" := customer ]};
          withdrawalRequest := ∅;
          refundRequests :=
            {[ "order-2" :=
                 {| Refund.orderId := "order-2"; Refund.userId := "customer-1";
                    Refund.vendorId := "vendor-2"; Refund.amount := 5875;
                    Refund.subtotal := 5000; Refund.deliveryFee := 500;
                    Refund.serviceFee := Some 375%Q; Refund.vendorEarnings := 5500;
                    Refund.totalPaid := 5875; Refund.reason := "Wrong item";
                    Refund.status := pending; Refund.createdAt := 1749990000000;
                    Refund.transferReference := None; Refund.approvedAt := None;
                    Refund.rejectionReason := None; Refund.reviewedAt := None |} ]};
          referrals := ∅; vendors := ∅ |};
     effects := [] |}.

Definition approveOrder2 : Refunds.ApproveData :=
  {| Refunds.orderId := "order-2"; Refunds.userId := "customer-1";
     Refunds.amount := 5875; Refunds.isLive := false |}.

End Scenario.

(** ** Sequences of calls in the marketplace *)

Module Flows.
Import Index.


(** The order is refunded before it is delivered. *)
Definition refundBeforeDelivery : list (Env * Call) :=
  [ (Scenario.env1, RequestRefund Scenario.refundOrder1);
    (Scenario.env1, ApproveRefundRequest Scenario.approveOrder1) ].

(** The world after the refund of the undelivered order. *)
Definition world7 : World := replay refundBeforeDelivery Scenario.world2.

(** What can follow the settlement of the order. *)
Definition afterSettlement : list (Env * Call) :=
  [ (Scenario.env0, CreateOrderAndLogTransaction (Scenario.requestWith 0 0));
    (Scenario.env0, GenerateDeliveryCode "order-1");
    (Scenario.env1, ConfirmOrderWithOTP (Scenario.confirmWith "4842"));
    (Scenario.env1, RequestRefund Scenario.refundOrder1);
    (Scenario.env1, ApproveRefundRequest Scenario.approveOrder1) ].

(** The world after the refund of [world6] is approved. *)
Definition world8 : World :=
  replay [(Scenario.env1, ApproveRefundRequest Scenario.approveOrder2)] Scenario.world6.

(** Attempts to reopen the decided refund. *)
Definition reopenRefund : list (Env * Call) :=
  [ (Scenario.env1, RejectRefundRequest "order-2" "changed my mind");
    (Scenario.env1, ApproveRefundRequest Scenario.approveOrder2);
    (Scenario.env1,
     RequestRefund
       {| Refunds.req_orderId := Some "order-2";
          Refunds.req_userId := Some "customer-1";
          Refunds.req_vendorId := Some "vendor-2";
          Refunds.req_amount := Some 5875%Q;
          Refunds.req_subtotal := Some 5000%Q;
          Refunds.req_deliveryFee := Some 500%Q;
          Refunds.req_serviceFee := Some 375%Q;
          Refunds.req_vendorEarnings := Some 5500%Q;
          Refunds.req_totalPaid := Some 5875%Q;
          Refunds.req_reason := Some "Wrong item" |}) ].

(** The world after the withdrawal of [world4] is paid out. *)
Definition world9 : World :=
  replay [(Scenario.env1, ApproveVendorWithdrawal "withdrawal-1" false)] Scenario.world4.

(** A later moment, at which the store generates the id
    [withdrawal-2]. *)
Definition env2 : Env :=
  {| now := 1750007200000;
     random := random Scenario.env1;
     currentMonthKey := currentMonthKey Scenario.env1;
     PAYSTACK_LIVE_SECRET_KEY := PAYSTACK_LIVE_SECRET_KEY Scenario.env1;
     PAYSTACK_TEST_SECRET_KEY := PAYSTACK_TEST_SECRET_KEY Scenario.env1;
     transferrecipient := transferrecipient Scenario.env1;
     transfer := transfer Scenario.env1;
     autoId := "withdrawal-2" |}.

(** Attempts to reopen the paid withdrawal, and a new request. *)
Definition reopenWithdrawal : list (Env * Call) :=
  [ (env2, RejectVendorWithdrawal "withdrawal-1" "");
    (env2, ApproveVendorWithdrawal "withdrawal-1" false);
    (env2, RequestVendorWithdrawal Scenario.withdraw4000) ].

(** The settings of the leaderboard, the next reset being due. *)
Definition settings0 : Leaderboard.Settings :=
  {| Leaderboard.currentResetStart := Some 1749395200000;
     Leaderboard.nextResetTime := Some 1750000000000 |}.

(** The vendor refers the customer, who buys; the week ends; the vendor
    refers a second customer. *)
Definition referralWeeks : list Events.Event :=
  [ Events.Signup Scenario.env0 "vendor-1" "customer-1";
    Events.Purchase Scenario.env1 "vendor-1" "customer-1" "order-1";
    Events.WeeklyReset;
    Events.Signup Scenario.envLate "vendor-1" "customer-2" ].

(** The world after the first signup. *)
Definition world10 : World :=
  (Referrals.addReferralForVendor Scenario.env0 "vendor-1" "customer-1" Scenario.world0).2.

(** A reward that was applied to the scenario's order. *)
Definition usedReward : Rewards.Doc :=
  {| Rewards.userId := Some "customer-1";
     Rewards.rewardType := Some "free_delivery_350";
     Rewards.referrerVendorId := Some "vendor-1";
     Rewards.createdAt := Some 1749000000000;
     Rewards.expiresAt := Some 1750259200000;
     Rewards.isUsed := Some true;
     Rewards.isActive := Some true;
     Rewards.usedAt := Some 1749999000000;
     Rewards.appliedToOrderId := Some "order-1";
     Rewards.rewardValue := Some 350%Q;
     Rewards.channel := Some "referral_signup_spin";
     Rewards.lastNotificationTime := None;
     Rewards.notificationsSent := None |}.

(** Attempts to use the reward again, a run of the expiry check and a
    new reward. *)
Definition reuseReward : list (Env * Rewards.Call) :=
  [ (Scenario.env0, Rewards.MarkRewardAsUsed "reward-1" "order-2");
    (Scenario.env0, Rewards.CheckExpiringRewards);
    (Scenario.env1, Rewards.AddReward (Some usedReward));
    (Scenario.env1, Rewards.MarkRewardAsUsed "reward-1" "order-3") ].

End Flows.

(** ** Proof automation *)

(** Unfolds the monad and the transaction primitives. *)
Ltac unfold_monad :=
  unfold try_catch, runTransaction, bind, ret, throw, tx_get, tx_set, tx_update,
    post_transferrecipient, post_transfer, getPaystackHeaders, emit in *.

(** * Properties *)

(** ** Comparisons and [Math] functions on numbers *)

Section NumFacts.
Import Num.

Lemma num_gt_true (a b : number) : num_gt a b = true <-> (b < a)%Q.
Proof.
  unfold num_gt. rewrite negb_true_iff. split; intros H.
  - apply Qnot_le_lt. intros Hle. apply Qle_bool_iff in Hle. congruence.
  - destruct (Qle_bool a b) eqn:E; [|reflexivity].
    apply Qle_bool_iff in E. exfalso. eapply Qlt_not_le; eauto.
Qed.

Lemma num_gt_false (a b : number) : num_gt a b = false <-> (a <= b)%Q.
Proof. unfold num_gt. rewrite negb_false_iff. apply Qle_bool_iff. Qed.

Lemma num_lt_true (a b : number) : num_lt a b = true <-> (a < b)%Q.
Proof. apply (num_gt_true b a). Qed.

Lemma num_lt_false (a b : number) : num_lt a b = false <-> (b <= a)%Q.
Proof. apply (num_gt_false b a). Qed.

Lemma Qle_bool_false (a b : Q) : Qle_bool a b = false <-> (b < a)%Q.
Proof.
  rewrite <- (num_gt_true a b). unfold num_gt.
  destruct (Qle_bool a b); simpl; split; congruence.
Qed.

Lemma Math_min_Qmin (a b : number) : (Math_min a b == Qmin a b)%Q.
Proof.
  unfold Math_min. destruct (Qle_bool a b) eqn:E.
  - apply Qle_bool_iff in E. symmetry. apply Q.min_l. exact E.
  - apply Qle_bool_false in E. symmetry. apply Q.min_r. lra.
Qed.

Lemma Math_max_Qmax (a b : number) : (Math_max a b == Qmax a b)%Q.
Proof.
  unfold Math_max. destruct (Qle_bool a b) eqn:E.
  - apply Qle_bool_iff in E. symmetry. apply Q.max_r. exact E.
  - apply Qle_bool_false in E. symmetry. apply Q.max_l. lra.
Qed.

Lemma Math_max_0_nonneg (a : number) : (0 <= Math_max a 0)%Q.
Proof.
  unfold Math_max. destruct (Qle_bool a 0) eqn:E; [lra|].
  apply Qle_bool_false in E. lra.
Qed.


Lemma Math_abs_le (a b : number) :
  num_gt (Math_abs a) b = false <-> (- b <= a /\ a <= b)%Q.
Proof.
  rewrite num_gt_false. unfold Math_abs.
  destruct (Qle_bool 0 a) eqn:E.
  - apply Qle_bool_iff in E. split; intros; [split|]; lra.
  - apply Qle_bool_false in E. split; intros; [split|]; lra.
Qed.

Lemma blank_false (s : string) : blank s = false <-> s <> "".
Proof. unfold blank. destruct (decide (s = "")); split; congruence. Qed.

End NumFacts.

(** ** The service charge *)

Section FeesFacts.
Import Num Fees.

(** Below the cap threshold the charge is the raw 5.5% plus 100, from it
    on the cap. *)
Lemma calculateServiceCharge_cases (subtotal : number) :
  ((subtotal * 0.055 + 100 <= 2000 ->
     calculateServiceCharge subtotal == subtotal * 0.055 + 100)
   /\ (2000 <= subtotal * 0.055 + 100 -> calculateServiceCharge subtotal == 2000))%Q.
Proof.
  unfold calculateServiceCharge, Math_min.
  destruct (Qle_bool (subtotal * 0.055 + 100) 2000) eqn:E.
  - apply Qle_bool_iff in E. split; intros; lra.
  - apply Qle_bool_false in E. split; intros; lra.
Qed.

(** The version before the update fails the first case of the test
    suite (100 expected for a subtotal of 0) and caps at 500. *)
Remark calculateServiceCharge_before_update_differs :
  (calculateServiceCharge_before_update 0 == 0)%Q
  /\ (calculateServiceCharge_before_update 35000 == 500)%Q.
Proof. split; reflexivity. Qed.

(** X3. On doubles: every calculation case of the test suite passes, the
    charge at 0 is exactly 100, and at 34545.46 (the double nearest to
    it) and above the cases of the suite it is exactly 2000. *)
Lemma calculateServiceCharge64_testCases : forallb isPass testCases = true.
Proof. vm_compute. reflexivity. Qed.

Lemma calculateServiceCharge64_zero : calculateServiceCharge64 0%float = 100%float.
Proof. vm_compute. reflexivity. Qed.

Lemma calculateServiceCharge64_above_cap :
  calculateServiceCharge64 0x1.0de2eb851eb85p+15 = 2000%float
  /\ calculateServiceCharge64 35000%float = 2000%float
  /\ calculateServiceCharge64 100000%float = 2000%float.
Proof. vm_compute. repeat split. Qed.

(** C1. For every subtotal >= 0, [calculateServiceCharge subtotal] is
    min(subtotal * 0.055 + 100, 2000) and is not negative; at 0 it is
    100, and from 34545.46 on it is exactly 2000. *)
Theorem calculateServiceCharge_spec (subtotal : number) :
  (0 <= subtotal)%Q ->
  (calculateServiceCharge subtotal == Qmin (subtotal * 0.055 + 100) 2000)%Q
  /\ (0 <= calculateServiceCharge subtotal)%Q
  /\ (calculateServiceCharge 0 == 100)%Q
  /\ ((34545.46 <= subtotal)%Q -> (calculateServiceCharge subtotal == 2000)%Q).
Proof.
  intros Hpos. split; [|split; [|split]].
  - apply Math_min_Qmin.
  - unfold calculateServiceCharge, Math_min.
    destruct (Qle_bool _ _); lra.
  - reflexivity.
  - intros Hbig. apply calculateServiceCharge_cases. lra.
Qed.

(** The theorem at a subtotal above the cap threshold. *)
Lemma calculateServiceCharge_spec_witness :
  (calculateServiceCharge 40000 == 2000)%Q /\ (0 <= calculateServiceCharge 40000)%Q.
Proof.
  assert (H : (0 <= 40000)%Q) by (unfold Qle; simpl; lia).
  destruct (calculateServiceCharge_spec 40000%Q H) as (_ & Hnn & _ & Hcap).
  split; [apply Hcap; unfold Qle; simpl; lia | exact Hnn].
Defined.

End FeesFacts.

(** ** Settlement: [createOrderAndLogTransaction] *)

Section SettlementFacts.
Import Num Orders.

Lemma accepted_checks (data : CreateOrderData) :
  accepted data <->
  blank (Order.vendorId (order data)) || blank (Order.orderId (order data)) = false
  /\ num_gt (Math_abs (Fees.calculateServiceCharge (Order.subtotal (order data))
                       - Order.serviceFee (order data))) 1 = false
  /\ num_gt (Math_abs (totalPaid data -
        expectedTotal (Order.setServiceFee (order data)
          (Fees.calculateServiceCharge (Order.subtotal (order data)))))) 1 = false.
Proof.
  unfold accepted. cbv zeta.
  rewrite orb_false_iff, !blank_false, !Math_abs_le. tauto.
Qed.

(** What a successful settlement did, read off the code. *)
Lemma createOrder_inr env data w w' :
  createOrderAndLogTransaction env data w = (inr tt, w') ->
  accepted data
  /\ orders (db w) !! Order.orderId (order data) = None
  /\ exists v v' od,
       users (db w) !! Order.vendorId (order data) = Some v
       /\ users (db w') !! Order.vendorId (order data) = Some v'
       /\ orders (db w') !! Order.orderId (order data) = Some od
       /\ User.balance (User.wallet v') =
            Some (orZero (User.balance (User.wallet v))
                  + (Order.subtotal (order data) + Order.deliveryFee (order data) - 0))%Q
       /\ User.pendingBalance (User.wallet v') =
            Some (orZero (User.pendingBalance (User.wallet v))
                  + (Order.subtotal (order data) + Order.deliveryFee (order data) - 0))%Q
       /\ User.eligibleBalance (User.wallet v') = User.eligibleBalance (User.wallet v)
       /\ User.monthlySales v' =
            <[currentMonthKey env :=
                (orZero (User.monthlySales v !! currentMonthKey env)
                 + (Order.subtotal (order data) + Order.deliveryFee (order data)))%Q]>
              (User.monthlySales v)
       /\ Order.vendorCommission (Order.order od) = 0%Q
       /\ Order.vendorEarnings (Order.order od) =
            (Order.subtotal (order data) + Order.deliveryFee (order data) - 0)%Q.
Proof.
  intros H. unfold createOrderAndLogTransaction in H. cbv zeta in H.
  destruct (blank _ || blank _) eqn:Hids; [discriminate|].
  destruct (num_gt _ _) eqn:Hfee; [discriminate|].
  destruct (num_gt (Math_abs (totalPaid data - _)) _) eqn:Htot; [discriminate|].
  split; [apply accepted_checks; auto|].
  unfold settle in H. unfold_monad. cbn in H.
  destruct (orders (db w) !! _) eqn:Ho; cbn in H; [discriminate|].
  split; [reflexivity|].
  destruct (users (db w) !! _) eqn:Hu; cbn in H; [|discriminate].
  rewrite Hu in H. cbn in H. injection H as <-. cbn.
  eexists _, _, _. split; [reflexivity|].
  split; [apply lookup_insert_eq|].
  split; [apply lookup_insert_eq|].
  cbn. repeat split; reflexivity.
Qed.

(** A request that passes the validations, for an order id not yet
    persisted and a registered vendor, is settled. *)
Lemma createOrder_succeeds env data w v :
  accepted data ->
  orders (db w) !! Order.orderId (order data) = None ->
  users (db w) !! Order.vendorId (order data) = Some v ->
  exists w', createOrderAndLogTransaction env data w = (inr tt, w').
Proof.
  intros Hacc Ho Hu. apply accepted_checks in Hacc as (H1 & H2 & H3).
  unfold createOrderAndLogTransaction. cbv zeta. rewrite H1, H2, H3.
  unfold settle. unfold_monad. cbn. rewrite Ho. cbn. rewrite Hu. cbn. rewrite Hu.
  eexists. reflexivity.
Qed.

(** A request for an order id that is already persisted: the
    transaction throws [already-exists], the handler's [catch] rethrows
    it as [internal] with the caught error as details, and the database
    is as before. *)
Lemma createOrder_duplicate env data w od :
  accepted data ->
  orders (db w) !! Order.orderId (order data) = Some od ->
  exists w',
    createOrderAndLogTransaction env data w =
      (inl (HttpsErrorWith internal "Transaction failed"
              (HttpsError already_exists "Order already exists.")), w')
    /\ db w' = db w.
Proof.
  intros Hacc Ho. apply accepted_checks in Hacc as (H1 & H2 & H3).
  unfold createOrderAndLogTransaction. cbv zeta. rewrite H1, H2, H3.
  unfold settle. unfold_monad. cbn. rewrite Ho. cbn.
  eexists. split; reflexivity.
Qed.

(** Whatever the request, a handler that fails leaves the database as
    it was. *)
Lemma createOrder_inl env data w e w' :
  createOrderAndLogTransaction env data w = (inl e, w') -> db w' = db w.
Proof.
  intros H. unfold createOrderAndLogTransaction in H. cbv zeta in H.
  destruct (blank _ || blank _); [injection H as _ <-; reflexivity|].
  destruct (num_gt _ _); [injection H as _ <-; reflexivity|].
  destruct (num_gt _ _); [injection H as _ <-; reflexivity|].
  unfold try_catch, runTransaction, throw in H.
  destruct (settle _ _ _ _ _ _ _) as [[e0|[]] w0]; [|discriminate].
  injection H as _ <-. reflexivity.
Qed.

(** The scenario's request is settled in the scenario's world. *)
Lemma scenario_settles :
  createOrderAndLogTransaction Scenario.env0 (Scenario.requestWith 0 0) Scenario.world0
  = (inr tt, Scenario.world1).
Proof. vm_compute. reflexivity. Qed.

Lemma scenario_accepted (c e : number) : accepted (Scenario.requestWith c e).
Proof.
  unfold accepted. cbn. repeat split; try discriminate;
    vm_compute; discriminate.
Qed.

(** C3. A second call of [createOrderAndLogTransaction] with the order
    id of a settled order leaves the database (so the vendor's balance,
    pending balance, transactions and monthly sales) as it was; the
    error it raises has code [internal], the [already-exists] error
    thrown in the transaction being its details. *)
Theorem second_settlement_is_rejected env env' data data' w0 w1 :
  createOrderAndLogTransaction env data w0 = (inr tt, w1) ->
  Order.orderId (order data') = Order.orderId (order data) ->
  accepted data' ->
  exists e w2,
    createOrderAndLogTransaction env' data' w1 = (inl e, w2)
    /\ db w2 = db w1
    /\ codeOf e = internal
    /\ detailsOf e = Some (HttpsError already_exists "Order already exists.").
Proof.
  intros Hfirst Hid Hacc.
  apply createOrder_inr in Hfirst as (_ & _ & v & v' & od & _ & _ & Hod & _).
  rewrite <- Hid in Hod.
  destruct (createOrder_duplicate env' data' w1 od Hacc Hod) as (w2 & Hrun & Hdb).
  exists (HttpsErrorWith internal "Transaction failed"
            (HttpsError already_exists "Order already exists.")), w2.
  repeat split; assumption || reflexivity.
Qed.

(** The theorem at the scenario: the same request sent twice. *)
Lemma second_settlement_is_rejected_witness :
  exists e w2,
    createOrderAndLogTransaction Scenario.env1 (Scenario.requestWith 0 0) Scenario.world1
      = (inl e, w2)
    /\ db w2 = db Scenario.world1
    /\ codeOf e = internal
    /\ detailsOf e = Some (HttpsError already_exists "Order already exists.").
Proof.
  apply (second_settlement_is_rejected Scenario.env0 Scenario.env1
           (Scenario.requestWith 0 0) (Scenario.requestWith 0 0)
           Scenario.world0 Scenario.world1).
  - apply scenario_settles.
  - reflexivity.
  - apply scenario_accepted.
Defined.





End SettlementFacts.

(** ** Delivery release: [confirmOrderWithOTP] *)

Section ReleaseFacts.
Import Num Orders.

Lemma scenario_code :
  generateDeliveryCode Scenario.env0 "order-1" Scenario.world1 = (inr "4842", Scenario.world2).
Proof. vm_compute. reflexivity. Qed.

Lemma scenario_releases :
  confirmOrderWithOTP Scenario.env1 (Scenario.confirmWith "4842") Scenario.world2
  = (inr tt, Scenario.world3).
Proof. vm_compute. reflexivity. Qed.

Lemma wellFormed_checks (data : ConfirmData) :
  wellFormed data <->
  blank (orderId data) || blank (vendorId data) || blank (enteredOtp data) = false.
Proof. unfold wellFormed. rewrite !orb_false_iff, !blank_false. tauto. Qed.

(** What a successful confirmation found and did, read off the code. *)
Lemma confirm_inr env data w w' :
  confirmOrderWithOTP env data w = (inr tt, w') ->
  wellFormed data
  /\ exists od v v' od',
       orders (db w) !! orderId data = Some od
       /\ users (db w) !! vendorId data = Some v
       /\ Order.deliveryCode od = Some (enteredOtp data)
       /\ expiredAt (now env) od = false
       /\ Order.deliveryConfirmed od <> Some true
       /\ (Order.vendorEarnings (Order.order od)
           <= orZero (User.pendingBalance (User.wallet v)))%Q
       /\ users (db w') !! vendorId data = Some v'
       /\ User.pendingBalance (User.wallet v') =
            Some (orZero (User.pendingBalance (User.wallet v))
                  - Order.vendorEarnings (Order.order od))%Q
       /\ User.eligibleBalance (User.wallet v') =
            Some (orZero (User.eligibleBalance (User.wallet v))
                  + Order.vendorEarnings (Order.order od))%Q
       /\ User.balance (User.wallet v') = User.balance (User.wallet v)
       /\ orders (db w') !! orderId data = Some od'
       /\ Order.deliveryConfirmed od' = Some true
       /\ Order.deliveryCodeExpiresAt od' = Order.deliveryCodeExpiresAt od
       /\ Order.orderStatus (Order.order od') = order_completed.
Proof.
  intros H. unfold confirmOrderWithOTP in H.
  destruct (blank _ || blank _ || blank _) eqn:Hwf; [discriminate|].
  split; [apply wellFormed_checks; exact Hwf|].
  unfold release in H. unfold_monad. cbn in H.
  destruct (orders (db w) !! _) as [od|] eqn:Ho; cbn in H; [|discriminate].
  destruct (users (db w) !! _) as [v|] eqn:Hv; cbn in H; [|discriminate].
  destruct (expiredAt (now env) od) eqn:Hexp; cbn in H; [discriminate|].
  destruct (bool_decide (Order.deliveryConfirmed od = Some true)) eqn:Hconf;
    cbn in H; [discriminate|].
  destruct (bool_decide (Some (enteredOtp data) = Order.deliveryCode od)) eqn:Hotp;
    cbn in H; [|discriminate].
  destruct (num_gt _ _) eqn:Hlow; cbn in H; [discriminate|].
  rewrite Hv in H. cbn in H. rewrite Ho in H. cbn in H. injection H as <-. cbn.
  apply bool_decide_eq_false in Hconf. apply bool_decide_eq_true in Hotp.
  apply num_gt_false in Hlow.
  eexists od, v, _, _. rewrite !lookup_insert_eq. cbn.
  repeat split; auto.
Qed.



(** The correct, unexpired code of an unconfirmed order is accepted as
    long as the vendor's pending balance covers the order's earnings. *)
Lemma confirm_succeeds env data w od v :
  wellFormed data ->
  orders (db w) !! orderId data = Some od ->
  users (db w) !! vendorId data = Some v ->
  Order.deliveryCode od = Some (enteredOtp data) ->
  expiredAt (now env) od = false ->
  Order.deliveryConfirmed od <> Some true ->
  (Order.vendorEarnings (Order.order od)
   <= orZero (User.pendingBalance (User.wallet v)))%Q ->
  exists w', confirmOrderWithOTP env data w = (inr tt, w').
Proof.
  intros Hwf Ho Hv Hcode He Hc Hp. apply wellFormed_checks in Hwf.
  unfold confirmOrderWithOTP. rewrite Hwf.
  unfold release. unfold_monad. cbn. rewrite Ho. cbn. rewrite Hv. cbn.
  rewrite He. cbn.
  rewrite bool_decide_eq_false_2 by exact Hc. cbn.
  rewrite bool_decide_eq_true_2 by (symmetry; exact Hcode). cbn.
  apply num_gt_false in Hp. rewrite Hp. cbn. rewrite Hv. cbn. rewrite Ho. cbn.
  eexists. reflexivity.
Qed.



End ReleaseFacts.

(** ** Withdrawals *)

Section WithdrawalFacts.
Import Num Withdrawals.

(** What a successful withdrawal request did: it reserved the amount
    out of the eligible balance, which covered it. *)
Lemma requestWithdrawal_inr env data w w' :
  requestVendorWithdrawal env data w = (inr tt, w') ->
  exists v v' wd,
    users (db w) !! vendorId data = Some v
    /\ (amount data <= orZero (User.eligibleBalance (User.wallet v)))%Q
    /\ users (db w') !! vendorId data = Some v'
    /\ User.eligibleBalance (User.wallet v') =
         Some (orZero (User.eligibleBalance (User.wallet v)) - amount data)%Q
    /\ User.pendingBalance (User.wallet v') = User.pendingBalance (User.wallet v)
    /\ User.balance (User.wallet v') = User.balance (User.wallet v)
    /\ withdrawalRequest (db w') !! autoId env = Some wd
    /\ Withdrawal.status wd = pending
    /\ Withdrawal.amount wd = amount data
    /\ Withdrawal.vendorId wd = vendorId data.
Proof.
  intros H. unfold requestVendorWithdrawal in H.
  destruct (blank _ || _ || _ || _ || _); [discriminate|].
  unfold reserve in H. unfold_monad. cbn in H.
  destruct (users (db w) !! _) as [v|] eqn:Hv; cbn in H; [|discriminate].
  destruct (num_lt _ _) eqn:Hlt; cbn in H; [discriminate|].
  rewrite Hv in H. cbn in H. injection H as <-. cbn.
  apply num_lt_false in Hlt.
  eexists v, _, _. rewrite !lookup_insert_eq. cbn. repeat split; auto.
Qed.

(** What a successful rejection did: it gave the reserved amount back
    to the eligible balance. *)
Lemma rejectWithdrawal_inr env id reason w w' :
  rejectVendorWithdrawal env id reason w = (inr tt, w') ->
  exists wd v v' wd',
    withdrawalRequest (db w) !! id = Some wd
    /\ Withdrawal.status wd = pending
    /\ users (db w) !! Withdrawal.vendorId wd = Some v
    /\ users (db w') !! Withdrawal.vendorId wd = Some v'
    /\ User.eligibleBalance (User.wallet v') =
         Some (orZero (User.eligibleBalance (User.wallet v)) + Withdrawal.amount wd)%Q
    /\ User.pendingBalance (User.wallet v') = User.pendingBalance (User.wallet v)
    /\ User.balance (User.wallet v') = User.balance (User.wallet v)
    /\ withdrawalRequest (db w') !! id = Some wd'
    /\ Withdrawal.status wd' = rejected.
Proof.
  intros H. unfold rejectVendorWithdrawal in H.
  destruct (blank id); [discriminate|].
  unfold restore in H. unfold_monad. cbn in H.
  destruct (withdrawalRequest (db w) !! id) as [wd|] eqn:Hwd; cbn in H; [|discriminate].
  destruct (bool_decide (Withdrawal.status wd = pending)) eqn:Hst; cbn in H; [|discriminate].
  destruct (users (db w) !! _) as [v|] eqn:Hv; cbn in H; [|discriminate].
  rewrite Hv in H. cbn in H. rewrite Hwd in H. cbn in H. injection H as <-. cbn.
  apply bool_decide_eq_true in Hst.
  eexists wd, v, _, _. rewrite !lookup_insert_eq. cbn. repeat split; auto.
Qed.

(** What a successful approval did: it debited the balance, and left
    the pending and eligible balances alone. *)
Lemma approveWithdrawal_inr env id isLive w w' :
  approveVendorWithdrawal env id isLive w = (inr tt, w') ->
  exists wd v v' wd',
    withdrawalRequest (db w) !! id = Some wd
    /\ Withdrawal.status wd = pending
    /\ users (db w) !! Withdrawal.vendorId wd = Some v
    /\ users (db w') !! Withdrawal.vendorId wd = Some v'
    /\ User.balance (User.wallet v') =
         Some (orZero (User.balance (User.wallet v)) + - Withdrawal.amount wd)%Q
    /\ User.pendingBalance (User.wallet v') = User.pendingBalance (User.wallet v)
    /\ User.eligibleBalance (User.wallet v') = User.eligibleBalance (User.wallet v)
    /\ withdrawalRequest (db w') !! id = Some wd'
    /\ Withdrawal.status wd' = approved.
Proof.
  intros H. unfold approveVendorWithdrawal in H.
  destruct (blank id); [discriminate|].
  unfold payout in H. unfold_monad. cbn in H.
  destruct (withdrawalRequest (db w) !! id) as [wd|] eqn:Hwd; cbn in H; [|discriminate].
  destruct (bool_decide (Withdrawal.status wd = pending)) eqn:Hst; cbn in H; [|discriminate].
  destruct (users (db w) !! _) as [v|] eqn:Hv; cbn in H; [|discriminate].
  destruct (truthy _); cbn in H; [|discriminate].
  destruct (transferrecipient env _ _) as [code|]; cbn in H; [|discriminate].
  destruct (transfer env _ _) as [ref|]; cbn in H; [|discriminate].
  rewrite Hwd in H. cbn in H. rewrite Hv in H. cbn in H. injection H as <-. cbn.
  apply bool_decide_eq_true in Hst.
  eexists wd, v, _, _. rewrite !lookup_insert_eq. cbn. repeat split; auto.
Qed.

(** Whatever goes wrong in an approval, the handler raises [internal]
    with the message ["Approval failed."], or [invalid-argument] for a
    missing id, and the database is as before. *)
Lemma approveWithdrawal_inl env id isLive w e w' :
  approveVendorWithdrawal env id isLive w = (inl e, w') ->
  db w' = db w
  /\ (e = HttpsError internal "Approval failed."
      \/ e = HttpsError invalid_argument "Missing withdrawal ID.").
Proof.
  unfold approveVendorWithdrawal.
  destruct (blank id); [intros [= <- <-]; auto|].
  unfold try_catch, runTransaction, throw.
  destruct (payout _ _ _ _) as [[e0|[]] w0]; [|discriminate].
  intros [= <- <-]. auto.
Qed.

(** C7. For a pending withdrawal request, when the gateway call of the
    approval fails (the creation of the recipient or the transfer is
    rejected) the whole operation fails and nothing changes: the
    callback of the transaction throws the gateway's error, the handler
    raises [internal] (["Approval failed."]), and the database is as
    before, so the request is still pending, the vendor's wallet is
    untouched and the eligible balance reserved by the request is not
    given back. *)
Theorem failed_payout_changes_nothing env id isLive w wd v key :
  id <> "" ->
  withdrawalRequest (db w) !! id = Some wd ->
  Withdrawal.status wd = pending ->
  users (db w) !! Withdrawal.vendorId wd = Some v ->
  secretFor env isLive = Some key -> key <> "" ->
  payoutRejected env key wd ->
  exists url w0 w',
    runTransaction (payout env id isLive) w = (inl (AxiosError url), w0)
    /\ approveVendorWithdrawal env id isLive w
       = (inl (HttpsError internal "Approval failed."), w')
    /\ db w' = db w
    /\ withdrawalRequest (db w') !! id = Some wd
    /\ users (db w') !! Withdrawal.vendorId wd = Some v.
Proof.
  intros Hid Hwd Hst Hv Hkey Hk Hrej.
  apply blank_false in Hid, Hk. unfold secretFor in Hkey.
  unfold approveVendorWithdrawal. rewrite Hid.
  unfold payout. unfold_monad. cbn. rewrite Hwd. cbn.
  rewrite bool_decide_eq_true_2 by exact Hst. cbn. rewrite Hv. cbn.
  rewrite Hkey. cbn. rewrite Hk. cbn.
  destruct Hrej as [Hrc|(code & Hrc & Htr)]; rewrite Hrc; cbn.
  - eexists _, _, _. repeat split; eauto.
  - rewrite Htr. cbn. eexists _, _, _. repeat split; eauto.
Qed.

(** The theorem at the scenario: the vendor reserved 4000 of 10500; the
    gateway takes the recipient and rejects the transfer; the request
    stays pending and the eligible balance stays at 6500. *)
Lemma failed_payout_changes_nothing_witness :
  exists w',
    approveVendorWithdrawal Scenario.envDown "withdrawal-1" false Scenario.world4
      = (inl (HttpsError internal "Approval failed."), w')
    /\ db w' = db Scenario.world4
    /\ (exists wd, withdrawalRequest (db w') !! "withdrawal-1" = Some wd
                   /\ Withdrawal.status wd = pending)
    /\ (exists v, users (db w') !! "vendor-1" = Some v
                  /\ (orZero (User.eligibleBalance (User.wallet v)) == 6500)%Q)
    /\ effects w' =
         [TxBegin; TxGet in_withdrawalRequest "withdrawal-1"; TxGet in_users "vendor-1";
          HttpPost api_transferrecipient; HttpPost api_transfer; TxRollback].
Proof.
  destruct (withdrawalRequest (db Scenario.world4) !! "withdrawal-1") as [wd|] eqn:Hwd;
    [|vm_compute in Hwd; discriminate].
  assert (Hst : Withdrawal.status wd = pending
                /\ Withdrawal.vendorId wd = "vendor-1").
  { vm_compute in Hwd. injection Hwd as <-. split; reflexivity. }
  destruct Hst as (Hst & Hvid).
  destruct (users (db Scenario.world4) !! "vendor-1") as [v|] eqn:Hv;
    [|vm_compute in Hv; discriminate].
  assert (He : (orZero (User.eligibleBalance (User.wallet v)) == 6500)%Q).
  { vm_compute in Hv. injection Hv as <-. reflexivity. }
  rewrite <- Hvid in Hv.
  assert (Hrej : payoutRejected Scenario.envDown "sk_test" wd).
  { right. exists "RCP_1". split; reflexivity. }
  destruct (failed_payout_changes_nothing Scenario.envDown "withdrawal-1" false
              Scenario.world4 wd v "sk_test"
              ltac:(discriminate) Hwd Hst Hv ltac:(reflexivity) ltac:(discriminate) Hrej)
    as (url & w0 & w' & _ & Hrun & Hdb & Hwd' & Hv').
  exists w'. split; [exact Hrun|]. split; [exact Hdb|].
  split; [exists wd; auto|].
  split; [exists v; rewrite <- Hvid; auto|].
  vm_compute in Hrun. injection Hrun as <-. reflexivity.
Defined.

End WithdrawalFacts.

(** ** Refunds *)

Section RefundFacts.
Import Num Refunds.

(** What a successful refund approval did to the vendor, read off the
    code. *)
Lemma approveRefund_inr env data w w' :
  approveRefundRequest env data w = (inr tt, w') ->
  exists rd v v',
    refundRequests (db w) !! orderId data = Some rd
    /\ Refund.status rd = pending
    /\ users (db w) !! Refund.vendorId rd = Some v
    /\ users (db w') !! Refund.vendorId rd = Some v'
    /\ User.balance (User.wallet v') =
         Some (orZero (User.balance (User.wallet v)) - Refund.vendorEarnings rd)%Q
    /\ User.pendingBalance (User.wallet v') =
         Some (orZero (User.pendingBalance (User.wallet v)) - Refund.vendorEarnings rd)%Q
    /\ User.eligibleBalance (User.wallet v') = User.eligibleBalance (User.wallet v)
    /\ User.monthlySales v' =
         <[currentMonthKey env :=
             Math_max (orZero (User.monthlySales v !! currentMonthKey env)
                       - (Refund.subtotal rd + Refund.deliveryFee rd)) 0]>
           (User.monthlySales v).
Proof.
  intros H. unfold approveRefundRequest in H.
  destruct (blank _ || blank _ || falsy _); [discriminate|].
  unfold reverse in H. unfold_monad. cbn in H.
  destruct (refundRequests (db w) !! _) as [rd|] eqn:Hrd; cbn in H; [|discriminate].
  destruct (bool_decide (Refund.status rd = pending)) eqn:Hst; cbn in H; [|discriminate].
  apply bool_decide_eq_true in Hst.
  destruct (users (db w) !! userId data) as [u|] eqn:Hu; cbn in H; [|discriminate].
  destruct (bankDetailsMissing _); cbn in H; [discriminate|].
  destruct (truthy _); cbn in H; [|discriminate].
  destruct (transferrecipient env _ _) as [code|]; cbn in H; [|discriminate].
  destruct (transfer env _ _) as [ref|]; cbn in H; [|discriminate].
  rewrite Hrd in H. cbn in H. rewrite Hu in H. cbn in H.
  rewrite lookup_insert in H.
  destruct (decide (userId data = Refund.vendorId rd)) as [Heq|Hne]; cbn in H.
  - rewrite Heq in H, Hu. injection H as <-. cbn. rewrite Hu. cbn.
    eexists rd, u, _. rewrite lookup_insert_eq. cbn. repeat split; auto.
  - destruct (users (db w) !! Refund.vendorId rd) as [v|] eqn:Hv; cbn in H; [|discriminate].
    injection H as <-. cbn.
    eexists rd, v, _. rewrite lookup_insert_eq. cbn. repeat split; auto.
Qed.

(** A pending refund request is approved when the customer's bank
    details are complete, the secret is set, the gateway accepts both
    requests and the vendor's document exists. *)
Lemma approveRefund_succeeds env data w rd u v key code ref :
  orderId data <> "" -> userId data <> "" -> ~ (amount data == 0)%Q ->
  refundRequests (db w) !! orderId data = Some rd ->
  Refund.status rd = pending ->
  users (db w) !! userId data = Some u ->
  users (db w) !! Refund.vendorId rd = Some v ->
  bankDetailsMissing (User.paymentInfo u) = false ->
  (if isLive data then PAYSTACK_LIVE_SECRET_KEY env else PAYSTACK_TEST_SECRET_KEY env)
    = Some key ->
  key <> "" ->
  (forall p, transferrecipient env key p = Some code) ->
  (forall p, transfer env key p = Some ref) ->
  exists w', approveRefundRequest env data w = (inr tt, w').
Proof.
  intros Ho Hu0 Ha Hrd Hst Hu Hv Hbank Hkey Hk Hrc Htr.
  unfold approveRefundRequest.
  apply blank_false in Ho, Hu0. rewrite Ho, Hu0.
  assert (Hf : falsy (amount data) = false).
  { unfold falsy. destruct (Qeq_bool _ _) eqn:E; [|reflexivity].
    apply Qeq_bool_iff in E. contradiction. }
  rewrite Hf. cbn.
  unfold reverse. unfold_monad. cbn. rewrite Hrd. cbn.
  rewrite bool_decide_eq_true_2 by exact Hst. cbn.
  rewrite Hu. cbn. rewrite Hbank. cbn. rewrite Hkey. cbn.
  apply blank_false in Hk. rewrite Hk. cbn.
  rewrite Hrc. cbn. rewrite Htr. cbn. rewrite Hrd. cbn. rewrite Hu. cbn.
  rewrite lookup_insert.
  destruct (decide (userId data = Refund.vendorId rd)); cbn.
  - eexists. reflexivity.
  - rewrite Hv. cbn. eexists. reflexivity.
Qed.



(** Approving a refund keeps the vendor solvent when the pending
    balance covers the refunded earnings; the handler does not check
    that it does. *)
Lemma refund_approval_solvent env data w w' :
  approveRefundRequest env data w = (inr tt, w') ->
  exists rd v v',
    refundRequests (db w) !! orderId data = Some rd
    /\ users (db w) !! Refund.vendorId rd = Some v
    /\ users (db w') !! Refund.vendorId rd = Some v'
    /\ (solvent v ->
        (Refund.vendorEarnings rd <= orZero (User.pendingBalance (User.wallet v)))%Q ->
        solvent v').
Proof.
  intros H.
  apply approveRefund_inr in H as (rd & v & v' & Hrd & _ & Hv & Hv' & _ & Hp & He & _).
  exists rd, v, v'. split; [exact Hrd|]. split; [exact Hv|]. split; [exact Hv'|].
  intros [Hp0 He0] Hcover. split.
  - rewrite Hp. cbn. unfold orZero in *. lra.
  - rewrite He. exact He0.
Qed.

(** C2. The refund of an order whose delivery was already confirmed:
    the vendor's pending balance (0) and eligible balance (10500) are
    not negative before the approval, the approval succeeds, and the
    pending balance is -10500 after it. *)
Theorem refund_after_release_overdraws_pending :
  exists v w' v',
    users (db Scenario.world5) !! "vendor-1" = Some v
    /\ solvent v
    /\ approveRefundRequest Scenario.env1 Scenario.approveOrder1 Scenario.world5
       = (inr tt, w')
    /\ users (db w') !! "vendor-1" = Some v'
    /\ (orZero (User.pendingBalance (User.wallet v')) == - (10500))%Q
    /\ (orZero (User.pendingBalance (User.wallet v')) < 0)%Q.
Proof.
  destruct (users (db Scenario.world5) !! "vendor-1") as [v|] eqn:Hv;
    [|vm_compute in Hv; discriminate].
  destruct (approveRefundRequest Scenario.env1 Scenario.approveOrder1 Scenario.world5)
    as [[e|[]] w'] eqn:Hrun; [vm_compute in Hrun; discriminate|].
  destruct (users (db w') !! "vendor-1") as [v'|] eqn:Hv';
    [|vm_compute in Hrun; injection Hrun as <-; vm_compute in Hv'; discriminate].
  exists v, w', v'.
  assert (Hs : solvent v).
  { vm_compute in Hv. injection Hv as <-. split; vm_compute; discriminate. }
  assert (Hp : (orZero (User.pendingBalance (User.wallet v')) == - (10500))%Q).
  { vm_compute in Hrun. injection Hrun as <-. vm_compute in Hv'. injection Hv' as <-.
    reflexivity. }
  repeat split; try assumption; try reflexivity; try apply Hs.
  rewrite Hp. reflexivity.
Qed.

End RefundFacts.

(** ** Where the gateway is called *)

Section GatewayFacts.
Import Num.

(** Closes a branch of a handler: the effects it added, which pass the
    two checks. *)
Ltac log_done :=
  intros [= <- <-]; cbn; rewrite <- ?app_assoc; cbn;
  eexists; split; [reflexivity | split; reflexivity].

Lemma approveWithdrawal_log env id isLive w r w' :
  Withdrawals.approveVendorWithdrawal env id isLive w = (r, w') ->
  exists log,
    effects w' = effects w ++ log
    /\ phased reading log = true
    /\ postsInsideTransactions false log = true.
Proof.
  unfold Withdrawals.approveVendorWithdrawal.
  destruct (blank id).
  { intros [= <- <-]. exists []. rewrite app_nil_r. auto. }
  unfold Withdrawals.payout. unfold_monad. cbn.
  destruct (withdrawalRequest (db w) !! id) as [wd|] eqn:Hwd; cbn; [|log_done].
  destruct (bool_decide (Withdrawal.status wd = pending)); cbn; [|log_done].
  destruct (users (db w) !! Withdrawal.vendorId wd) as [v|] eqn:Hv; cbn; [|log_done].
  destruct (truthy _); cbn; [|log_done].
  destruct (transferrecipient env _ _) as [code|]; cbn; [|log_done].
  destruct (transfer env _ _) as [ref|]; cbn; [|log_done].
  rewrite Hwd. cbn. rewrite Hv. cbn. log_done.
Qed.

Lemma approveRefund_log env data w r w' :
  Refunds.approveRefundRequest env data w = (r, w') ->
  exists log,
    effects w' = effects w ++ log
    /\ phased reading log = true
    /\ postsInsideTransactions false log = true.
Proof.
  unfold Refunds.approveRefundRequest.
  destruct (blank _ || blank _ || falsy _).
  { intros [= <- <-]. exists []. rewrite app_nil_r. auto. }
  unfold Refunds.reverse. unfold_monad. cbn.
  destruct (refundRequests (db w) !! _) as [rd|] eqn:Hrd; cbn; [|log_done].
  destruct (bool_decide (Refund.status rd = pending)); cbn; [|log_done].
  destruct (users (db w) !! Refunds.userId data) as [u|] eqn:Hu; cbn; [|log_done].
  destruct (Refunds.bankDetailsMissing _); cbn; [log_done|].
  destruct (truthy _); cbn; [|log_done].
  destruct (transferrecipient env _ _) as [code|]; cbn; [|log_done].
  destruct (transfer env _ _) as [ref|]; cbn; [|log_done].
  rewrite Hrd. cbn. rewrite Hu. cbn.
  destruct (_ !! Refund.vendorId rd); cbn; log_done.
Qed.

(** C6. In [approveVendorWithdrawal] and [approveRefundRequest] the
    requests to the gateway come after all the reads of the transaction
    and before its writes, and they are made inside the
    [db.runTransaction] callback: the transaction is open across them. *)
Theorem gateway_calls_between_reads_and_writes env w :
  (forall id isLive, exists log,
     effects (Withdrawals.approveVendorWithdrawal env id isLive w).2 = effects w ++ log
     /\ phased reading log = true
     /\ postsInsideTransactions false log = true)
  /\ (forall data, exists log,
        effects (Refunds.approveRefundRequest env data w).2 = effects w ++ log
        /\ phased reading log = true
        /\ postsInsideTransactions false log = true).
Proof.
  split.
  - intros id isLive.
    destruct (Withdrawals.approveVendorWithdrawal env id isLive w) as [r w'] eqn:H.
    exact (approveWithdrawal_log _ _ _ _ _ _ H).
  - intros data.
    destruct (Refunds.approveRefundRequest env data w) as [r w'] eqn:H.
    exact (approveRefund_log _ _ _ _ _ H).
Qed.

(** The approval of the scenario's withdrawal: both requests to the
    gateway are logged between [TxBegin] and [TxCommit], so the check
    that no request is made while a transaction is open fails; and so
    it does for the approval of the refund. *)
Lemma gateway_called_inside_open_transaction :
  effects (Withdrawals.approveVendorWithdrawal Scenario.env1 "withdrawal-1" false
             Scenario.world4).2
  = [TxBegin; TxGet in_withdrawalRequest "withdrawal-1"; TxGet in_users "vendor-1";
     HttpPost api_transferrecipient; HttpPost api_transfer;
     TxUpdate in_withdrawalRequest "withdrawal-1"; TxUpdate in_users "vendor-1";
     TxCommit]
  /\ postsOutsideTransactions false
       (effects (Withdrawals.approveVendorWithdrawal Scenario.env1 "withdrawal-1" false
                   Scenario.world4).2) = false
  /\ effects (Refunds.approveRefundRequest Scenario.env0 Scenario.approveOrder2
                Scenario.world6).2
     = [TxBegin; TxGet in_refundRequests "order-2"; TxGet in_users "customer-1";
        TxGet in_users "vendor-2";
        HttpPost api_transferrecipient; HttpPost api_transfer;
        TxUpdate in_refundRequests "order-2"; TxUpdate in_users "customer-1";
        TxUpdate in_users "vendor-2"; TxCommit]
  /\ postsOutsideTransactions false
       (effects (Refunds.approveRefundRequest Scenario.env0 Scenario.approveOrder2
                   Scenario.world6).2) = false.
Proof. vm_compute. repeat split. Qed.

End GatewayFacts.

(** ** Referrals *)

Section ReferralFacts.
Import Num Referrals.

(** The first signup under a vendor without a referral record creates
    the record with 10 points, total and weekly. *)
Lemma first_signup env vendorId referredCustomerId w vd :
  vendorId <> "" -> referredCustomerId <> "" ->
  vendors (db w) !! vendorId = Some vd ->
  referrals (db w) !! vendorId = None ->
  exists w' r,
    addReferralForVendor env vendorId referredCustomerId w = (inr tt, w')
    /\ referrals (db w') !! vendorId = Some r
    /\ Referral.totalReferralPoints r = 10
    /\ Referral.weeklyReferralPoints r = 10
    /\ Referral.referredCustomersCount r = 1
    /\ Referral.referralHistory r =
         Some [{| Referral.referredCustomerId := referredCustomerId;
                  Referral.pointsEarned := 10;
                  Referral.date := now env;
                  Referral.orderId := None |}].
Proof.
  intros Hv Hc Hvd Hr. apply blank_false in Hv, Hc.
  unfold addReferralForVendor. rewrite Hv, Hc. cbn.
  unfold signup. unfold_monad. cbn. rewrite Hvd. cbn. rewrite Hr. cbn.
  eexists _, _. split; [reflexivity|]. cbn. rewrite lookup_insert_eq.
  repeat split.
Qed.

(** What a successful purchase update found and did: the customer was
    in the referral history, and 40 points were added. *)
Lemma purchase_inr env vendorId referredCustomerId orderId w w' :
  updateReferralPointsOnPurchase env vendorId referredCustomerId orderId w = (inr tt, w') ->
  exists r history r',
    referrals (db w) !! vendorId = Some r
    /\ Referral.referralHistory r = Some history
    /\ hasReferralIn referredCustomerId history = true
    /\ referrals (db w') !! vendorId = Some r'
    /\ Referral.totalReferralPoints r' = Referral.totalReferralPoints r + 40
    /\ Referral.weeklyReferralPoints r' = Referral.weeklyReferralPoints r + 40
    /\ Referral.successfulReferralsCount r' = Referral.successfulReferralsCount r + 1.
Proof.
  intros H. unfold updateReferralPointsOnPurchase in H.
  destruct (blank _ || blank _ || blank _); [discriminate|].
  unfold purchase in H. unfold_monad. cbn in H.
  destruct (referrals (db w) !! vendorId) as [r|] eqn:Hr; cbn in H; [|discriminate].
  destruct (Referral.referralHistory r) as [history|] eqn:Hh; cbn in H; [|discriminate].
  destruct (hasReferralIn _ _) eqn:Hhas; cbn in H; [|discriminate].
  rewrite Hr in H. cbn in H. injection H as <-. cbn.
  eexists r, history, _. rewrite lookup_insert_eq. repeat split; auto.
Qed.

(** A purchase by a customer who is in the referral history adds 40
    points. *)
Lemma purchase_succeeds env vendorId referredCustomerId orderId w r history :
  vendorId <> "" -> referredCustomerId <> "" -> orderId <> "" ->
  referrals (db w) !! vendorId = Some r ->
  Referral.referralHistory r = Some history ->
  hasReferralIn referredCustomerId history = true ->
  exists w', updateReferralPointsOnPurchase env vendorId referredCustomerId orderId w
             = (inr tt, w').
Proof.
  intros Hv Hc Ho Hr Hh Hhas. apply blank_false in Hv, Hc, Ho.
  unfold updateReferralPointsOnPurchase. rewrite Hv, Hc, Ho. cbn.
  unfold purchase. unfold_monad. cbn. rewrite Hr. cbn. rewrite Hh. cbn.
  rewrite Hhas. cbn. rewrite Hr. cbn. eexists. reflexivity.
Qed.

(** A purchase by a customer who is not in the referral history: the
    transaction throws [failed-precondition], the handler raises
    [internal] with it as details, and the database is as before. *)
Lemma purchase_not_referred env vendorId referredCustomerId orderId w r history :
  vendorId <> "" -> referredCustomerId <> "" -> orderId <> "" ->
  referrals (db w) !! vendorId = Some r ->
  Referral.referralHistory r = Some history ->
  hasReferralIn referredCustomerId history = false ->
  exists w',
    updateReferralPointsOnPurchase env vendorId referredCustomerId orderId w
      = (inl (HttpsErrorWith internal "Failed to update referral points"
                (HttpsError failed_precondition
                   "Customer was not referred by this vendor")), w')
    /\ db w' = db w.
Proof.
  intros Hv Hc Ho Hr Hh Hhas. apply blank_false in Hv, Hc, Ho.
  unfold updateReferralPointsOnPurchase. rewrite Hv, Hc, Ho. cbn.
  unfold purchase. unfold_monad. cbn. rewrite Hr. cbn. rewrite Hh. cbn.
  rewrite Hhas. cbn. eexists. split; reflexivity.
Qed.

(** C9. Under a vendor without a referral record, the first signup of a
    customer creates the record with 10 total and 10 weekly points; a
    purchase by that customer then brings both to 50; a purchase by a
    customer without a signup entry fails and changes nothing, the
    error the handler raises having code [internal] with
    [failed-precondition] as its details. *)
Theorem referral_accrual env env' vendorId referredCustomerId orderId w vd :
  vendorId <> "" -> referredCustomerId <> "" -> orderId <> "" ->
  vendors (db w) !! vendorId = Some vd ->
  referrals (db w) !! vendorId = None ->
  exists w1 r1,
    addReferralForVendor env vendorId referredCustomerId w = (inr tt, w1)
    /\ referrals (db w1) !! vendorId = Some r1
    /\ Referral.totalReferralPoints r1 = 10
    /\ Referral.weeklyReferralPoints r1 = 10
    /\ (exists w2 r2,
          updateReferralPointsOnPurchase env' vendorId referredCustomerId orderId w1
            = (inr tt, w2)
          /\ referrals (db w2) !! vendorId = Some r2
          /\ Referral.totalReferralPoints r2 = 50
          /\ Referral.weeklyReferralPoints r2 = 50)
    /\ (forall other, other <> "" -> other <> referredCustomerId ->
        exists e w3,
          updateReferralPointsOnPurchase env' vendorId other orderId w1 = (inl e, w3)
          /\ db w3 = db w1
          /\ codeOf e = internal
          /\ detailsOf e =
               Some (HttpsError failed_precondition
                       "Customer was not referred by this vendor")).
Proof.
  intros Hv Hc Ho Hvd Hr.
  destruct (first_signup env vendorId referredCustomerId w vd Hv Hc Hvd Hr)
    as (w1 & r1 & Hrun & Hr1 & Ht & Hw & _ & Hh).
  exists w1, r1. repeat split; auto.
  - assert (Hhas : hasReferralIn referredCustomerId
                     [{| Referral.referredCustomerId := referredCustomerId;
                         Referral.pointsEarned := 10;
                         Referral.date := now env;
                         Referral.orderId := None |}] = true).
    { unfold hasReferralIn. cbn. rewrite String.eqb_refl. reflexivity. }
    destruct (purchase_succeeds env' vendorId referredCustomerId orderId w1 r1 _
                Hv Hc Ho Hr1 Hh Hhas) as (w2 & Hrun2).
    apply purchase_inr in Hrun2 as Hinv.
    destruct Hinv as (r & h & r2 & Hr' & _ & _ & Hr2 & Ht2 & Hw2 & _).
    rewrite Hr1 in Hr'. injection Hr' as <-.
    exists w2, r2. rewrite Ht2, Hw2, Ht, Hw. repeat split; auto.
  - intros other Hother Hne.
    assert (Hhas : hasReferralIn other
                     [{| Referral.referredCustomerId := referredCustomerId;
                         Referral.pointsEarned := 10;
                         Referral.date := now env;
                         Referral.orderId := None |}] = false).
    { unfold hasReferralIn. cbn. apply orb_false_iff. split; [|reflexivity].
      apply String.eqb_neq. congruence. }
    destruct (purchase_not_referred env' vendorId other orderId w1 r1 _
                Hv Hother Ho Hr1 Hh Hhas) as (w3 & Hrun3 & Hdb).
    eexists _, w3. split; [exact Hrun3|]. repeat split; auto.
Qed.

(** The theorem at the scenario's vendor, for the customers
    ["customer-1"] (signed up) and ["customer-9"] (not). *)
Lemma referral_accrual_witness :
  exists w1 r1,
    addReferralForVendor Scenario.env0 "vendor-1" "customer-1" Scenario.world0 = (inr tt, w1)
    /\ Referral.totalReferralPoints r1 = 10
    /\ Referral.weeklyReferralPoints r1 = 10
    /\ (exists w2 r2,
          updateReferralPointsOnPurchase Scenario.env1 "vendor-1" "customer-1" "order-1" w1
            = (inr tt, w2)
          /\ referrals (db w2) !! "vendor-1" = Some r2
          /\ Referral.totalReferralPoints r2 = 50
          /\ Referral.weeklyReferralPoints r2 = 50)
    /\ (exists e w3,
          updateReferralPointsOnPurchase Scenario.env1 "vendor-1" "customer-9" "order-1" w1
            = (inl e, w3)
          /\ db w3 = db w1
          /\ codeOf e = internal).
Proof.
  destruct (vendors (db Scenario.world0) !! "vendor-1") as [vd|] eqn:Hvd;
    [|vm_compute in Hvd; discriminate].
  destruct (referral_accrual Scenario.env0 Scenario.env1 "vendor-1" "customer-1" "order-1"
              Scenario.world0 vd
              ltac:(discriminate) ltac:(discriminate) ltac:(discriminate) Hvd
              ltac:(reflexivity))
    as (w1 & r1 & Hrun & _ & Ht & Hw & Hbuy & Hother).
  exists w1, r1. repeat split; auto.
  destruct (Hother "customer-9" ltac:(discriminate) ltac:(discriminate))
    as (e & w3 & Hrun3 & Hdb & Hcode & _).
  exists e, w3. auto.
Defined.

End ReferralFacts.

(** ** The wallet invariant, operation by operation

    Every operation but the refund approval keeps the vendor solvent;
    settlement, release and rejection for amounts that are not negative
    (the handlers do not check the sign of what they are sent). The
    refund approval is covered by [refund_approval_solvent]. *)

Section WalletInvariant.
Import Num.

Lemma settlement_solvent env data w w' :
  Orders.createOrderAndLogTransaction env data w = (inr tt, w') ->
  exists v v',
    users (db w) !! Order.vendorId (Orders.order data) = Some v
    /\ users (db w') !! Order.vendorId (Orders.order data) = Some v'
    /\ ((0 <= Order.subtotal (Orders.order data)
              + Order.deliveryFee (Orders.order data))%Q ->
        solvent v -> solvent v').
Proof.
  intros H.
  apply createOrder_inr in H as (_ & _ & v & v' & od & Hv & Hv' & _ & _ & Hp & He & _).
  exists v, v'. split; [exact Hv|]. split; [exact Hv'|].
  intros Hpos [Hp0 He0]. split.
  - rewrite Hp. cbn. unfold orZero in *. lra.
  - rewrite He. exact He0.
Qed.

Lemma release_solvent env data w w' :
  Orders.confirmOrderWithOTP env data w = (inr tt, w') ->
  exists od v v',
    orders (db w) !! Orders.orderId data = Some od
    /\ users (db w) !! Orders.vendorId data = Some v
    /\ users (db w') !! Orders.vendorId data = Some v'
    /\ ((0 <= Order.vendorEarnings (Order.order od))%Q -> solvent v -> solvent v').
Proof.
  intros H.
  apply confirm_inr in H
    as (_ & od & v & v' & od' & Ho & Hv & _ & _ & _ & Hle & Hv' & Hp & He & _).
  exists od, v, v'. split; [exact Ho|]. split; [exact Hv|]. split; [exact Hv'|].
  intros Hpos [Hp0 He0]. split.
  - rewrite Hp. cbn. unfold orZero in *. lra.
  - rewrite He. cbn. unfold orZero in *. lra.
Qed.

Lemma withdrawal_request_solvent env data w w' :
  Withdrawals.requestVendorWithdrawal env data w = (inr tt, w') ->
  exists v v',
    users (db w) !! Withdrawals.vendorId data = Some v
    /\ users (db w') !! Withdrawals.vendorId data = Some v'
    /\ (solvent v -> solvent v').
Proof.
  intros H.
  apply requestWithdrawal_inr in H as (v & v' & wd & Hv & Hle & Hv' & He & Hp & _).
  exists v, v'. split; [exact Hv|]. split; [exact Hv'|].
  intros [Hp0 He0]. split.
  - rewrite Hp. exact Hp0.
  - rewrite He. cbn. unfold orZero in *. lra.
Qed.

Lemma withdrawal_reject_solvent env id reason w w' :
  Withdrawals.rejectVendorWithdrawal env id reason w = (inr tt, w') ->
  exists wd v v',
    withdrawalRequest (db w) !! id = Some wd
    /\ users (db w) !! Withdrawal.vendorId wd = Some v
    /\ users (db w') !! Withdrawal.vendorId wd = Some v'
    /\ ((0 <= Withdrawal.amount wd)%Q -> solvent v -> solvent v').
Proof.
  intros H.
  apply rejectWithdrawal_inr in H as (wd & v & v' & wd' & Hwd & _ & Hv & Hv' & He & Hp & _).
  exists wd, v, v'. split; [exact Hwd|]. split; [exact Hv|]. split; [exact Hv'|].
  intros Hpos [Hp0 He0]. split.
  - rewrite Hp. exact Hp0.
  - rewrite He. cbn. unfold orZero in *. lra.
Qed.

Lemma withdrawal_approve_solvent env id isLive w w' :
  Withdrawals.approveVendorWithdrawal env id isLive w = (inr tt, w') ->
  exists wd v v',
    withdrawalRequest (db w) !! id = Some wd
    /\ users (db w) !! Withdrawal.vendorId wd = Some v
    /\ users (db w') !! Withdrawal.vendorId wd = Some v'
    /\ (solvent v -> solvent v').
Proof.
  intros H.
  apply approveWithdrawal_inr in H
    as (wd & v & v' & wd' & Hwd & _ & Hv & Hv' & _ & Hp & He & _).
  exists wd, v, v'. split; [exact Hwd|]. split; [exact Hv|]. split; [exact Hv'|].
  intros [Hp0 He0]. split.
  - rewrite Hp. exact Hp0.
  - rewrite He. exact He0.
Qed.





End WalletInvariant.

(** ** The delivery code *)

Section DeliveryCodeFacts.
Import Num Orders.

(** X4. A generated code is the decimal form of a number between 1000 and
    9999, stored with an expiry 72 hours later and the delivery marked
    unconfirmed. *)
Lemma generateDeliveryCode_range env orderId w code w' :
  (0 <= random env < 1)%Q ->
  generateDeliveryCode env orderId w = (inr code, w') ->
  exists n od',
    code = pretty n /\ 1000 <= n <= 9999
    /\ orders (db w') !! orderId = Some od'
    /\ Order.deliveryCode od' = Some code
    /\ Order.deliveryCodeExpiresAt od' = Some (now env + 259200000)
    /\ Order.deliveryConfirmed od' = Some false.
Proof.
  intros [Hlo Hhi] H. unfold generateDeliveryCode in H.
  destruct (blank orderId); [discriminate|].
  unfold try_catch, bind, doc_get, doc_update, ret, throw, emit in H. cbn in H.
  destruct (orders (db w) !! orderId) as [od|] eqn:Ho; cbn in H; [|discriminate].
  destruct (bool_decide _); cbn in H; [discriminate|].
  rewrite Ho in H. cbn in H. injection H as <- <-. cbn.
  eexists (Qfloor (1000 + random env * 9000)), _.
  split; [reflexivity|]. split.
  - split.
    + assert (Hge : (1000 <= 1000 + random env * 9000)%Q) by lra.
      apply Qfloor_resp_le in Hge. exact Hge.
    + assert (Hlt : (inject_Z (Qfloor (1000 + random env * 9000)) < inject_Z 10000)%Q).
      { eapply Qle_lt_trans; [apply Qfloor_le|].
        change (inject_Z 10000) with 10000%Q. lra. }
      rewrite <- Zlt_Qlt in Hlt. lia.
  - rewrite lookup_insert_eq. repeat split.
Qed.

(** The scenario's code: 4842, for a random draw of 0.4269. *)
Lemma generateDeliveryCode_range_witness :
  exists od',
    generateDeliveryCode Scenario.env0 "order-1" Scenario.world1 = (inr "4842", Scenario.world2)
    /\ orders (db Scenario.world2) !! "order-1" = Some od'
    /\ Order.deliveryCode od' = Some "4842"
    /\ Order.deliveryCodeExpiresAt od' = Some 1750259200000.
Proof.
  assert (Hr : (0 <= random Scenario.env0 < 1)%Q)
    by (split; vm_compute; [discriminate|reflexivity]).
  destruct (generateDeliveryCode_range _ _ _ _ _ Hr scenario_code)
    as (n & od' & _ & _ & Ho & Hc & He & _).
  exists od'. split; [exact scenario_code|]. auto.
Defined.

End DeliveryCodeFacts.

(** ** Settlement: validation, persistence, ledger *)

Section SettlementEdges.
Import Num Orders.

(** A request that fails a validation is refused with
    [invalid-argument], thrown before the [try]: the code reaches the
    caller as it is, and the world is untouched (no read, no write). *)
Theorem settlement_refuses_before_any_access env data w :
  ~ accepted data ->
  exists message,
    createOrderAndLogTransaction env data w
    = (inl (HttpsError invalid_argument message), w).
Proof.
  intros Hno. rewrite accepted_checks in Hno.
  unfold createOrderAndLogTransaction. cbv zeta.
  destruct (blank _ || blank _); [eexists; reflexivity|].
  destruct (num_gt _ _); [eexists; reflexivity|].
  destruct (num_gt _ _); [eexists; reflexivity|].
  exfalso. apply Hno. auto.
Qed.

(** The scenario's order with a submitted fee of 640 where the server
    computes 650. *)
Lemma settlement_refuses_before_any_access_witness :
  createOrderAndLogTransaction Scenario.env0
    {| order := Order.setServiceFee (Scenario.orderWith 0 0) 640;
       userId := "customer-1"; reference := "ref-1"; status := charge_success;
       totalPaid := 11150 |} Scenario.world0
  = (inl (HttpsError invalid_argument "Service fee mismatch."), Scenario.world0).
Proof.
  destruct (settlement_refuses_before_any_access Scenario.env0
              {| order := Order.setServiceFee (Scenario.orderWith 0 0) 640;
                 userId := "customer-1"; reference := "ref-1"; status := charge_success;
                 totalPaid := 11150 |} Scenario.world0) as (message & Hrun).
  - intros (_ & _ & Hfee & _). vm_compute in Hfee. destruct Hfee as [_ Hfee].
    apply Hfee. reflexivity.
  - rewrite Hrun. vm_compute in Hrun. injection Hrun as <-. reflexivity.
Defined.

(** The document and the wallet a successful settlement wrote, in
    full. *)
Lemma createOrder_written env data w w' :
  createOrderAndLogTransaction env data w = (inr tt, w') ->
  exists v,
    users (db w) !! Order.vendorId (order data) = Some v
    /\ orders (db w') !! Order.orderId (order data) =
         Some {| Order.order :=
                   Order.settleFlagForReward
                     (Order.setCommissionAndEarnings
                        (Order.setTotalAmountPaid
                           (Order.setServiceFee (order data)
                              (Fees.calculateServiceCharge (Order.subtotal (order data))))
                           (totalPaid data))
                        0 (Order.subtotal (order data) + Order.deliveryFee (order data) - 0));
                 Order.deliveryCode := None;
                 Order.deliveryCodeExpiresAt := None;
                 Order.deliveryConfirmed := None;
                 Order.reviewed := None;
                 Order.timeline := [] |}
    /\ (exists v',
          users (db w') !! Order.vendorId (order data) = Some v'
          /\ User.transactions (User.wallet v') =
               Some (Ledger.arrayUnion
                       (Ledger.FromOrder
                          {| Ledger.amount :=
                               Order.subtotal (order data) + Order.deliveryFee (order data) - 0;
                             Ledger.totalPaid := totalPaid data;
                             Ledger.reference := reference data;
                             Ledger.status := status data;
                             Ledger.orderId := Order.orderId (order data);
                             Ledger.vendorId := Order.vendorId (order data);
                             Ledger.userId := userId data;
                             Ledger.subtotal := Order.subtotal (order data);
                             Ledger.deliveryFee := Order.deliveryFee (order data);
                             Ledger.serviceFee :=
                               Fees.calculateServiceCharge (Order.subtotal (order data));
                             Ledger.vendorCommission := 0;
                             Ledger.vendorEarnings :=
                               Order.subtotal (order data) + Order.deliveryFee (order data) - 0;
                             Ledger.commissionRate :=
                               getCommissionRate
                                 (orZero (User.monthlySales v !! currentMonthKey env));
                             Ledger.createdAt := now env;
                             Ledger.reward :=
                               rewardAudit
                                 (Order.setCommissionAndEarnings
                                    (Order.setTotalAmountPaid
                                       (Order.setServiceFee (order data)
                                          (Fees.calculateServiceCharge
                                             (Order.subtotal (order data))))
                                       (totalPaid data))
                                    0
                                    (Order.subtotal (order data)
                                     + Order.deliveryFee (order data) - 0)) |})
                       (default [] (User.transactions (User.wallet v)))))
    /\ (forall id, id <> Order.orderId (order data) ->
                   orders (db w') !! id = orders (db w) !! id)
    /\ (forall id, id <> Order.vendorId (order data) ->
                   users (db w') !! id = users (db w) !! id)
    /\ withdrawalRequest (db w') = withdrawalRequest (db w)
    /\ refundRequests (db w') = refundRequests (db w)
    /\ referrals (db w') = referrals (db w)
    /\ vendors (db w') = vendors (db w).
Proof.
  intros H. unfold createOrderAndLogTransaction in H. cbv zeta in H.
  destruct (blank _ || blank _); [discriminate|].
  destruct (num_gt _ _); [discriminate|].
  destruct (num_gt _ _); [discriminate|].
  unfold settle in H. unfold_monad. cbn in H.
  destruct (orders (db w) !! _) eqn:Ho; cbn in H; [discriminate|].
  destruct (users (db w) !! _) as [v|] eqn:Hu; cbn in H; [|discriminate].
  rewrite Hu in H. cbn in H. injection H as <-. cbn.
  exists v. split; [reflexivity|].
  split; [apply lookup_insert_eq|].
  split; [eexists; split; [apply lookup_insert_eq|reflexivity]|].
  split; [intros id Hid; apply lookup_insert_ne; congruence|].
  split; [intros id Hid; apply lookup_insert_ne; congruence|].
  repeat split.
Qed.



(** A settlement writes the order's document and the vendor's user
    document, and nothing else: every other order and user, and the
    withdrawal requests, refund requests, referrals and vendors are as
    before. *)
Theorem settlement_frame env data w w' :
  createOrderAndLogTransaction env data w = (inr tt, w') ->
  (forall id, id <> Order.orderId (order data) ->
              orders (db w') !! id = orders (db w) !! id)
  /\ (forall id, id <> Order.vendorId (order data) ->
                 users (db w') !! id = users (db w) !! id)
  /\ withdrawalRequest (db w') = withdrawalRequest (db w)
  /\ refundRequests (db w') = refundRequests (db w)
  /\ referrals (db w') = referrals (db w)
  /\ vendors (db w') = vendors (db w).
Proof.
  intros H. apply createOrder_written in H as (v & _ & _ & _ & Hrest). exact Hrest.
Qed.

(** In the scenario the customer's document is as before. *)
Lemma settlement_frame_witness :
  users (db Scenario.world1) !! "customer-1" = Some Scenario.customer
  /\ vendors (db Scenario.world1) = vendors (db Scenario.world0).
Proof.
  destruct (settlement_frame _ _ _ _ scenario_settles) as (_ & Hu & _ & _ & _ & Hv).
  split; [rewrite Hu by discriminate; reflexivity | exact Hv].
Defined.

(** With the vendor's user document missing nothing is written: the
    order is not persisted, the database is as before, and the error has
    code [internal] with [not-found] as details. *)
Theorem settlement_needs_vendor env data w :
  accepted data ->
  orders (db w) !! Order.orderId (order data) = None ->
  users (db w) !! Order.vendorId (order data) = None ->
  exists w',
    createOrderAndLogTransaction env data w
    = (inl (HttpsErrorWith internal "Transaction failed"
              (HttpsError not_found "Vendor not found.")), w')
    /\ db w' = db w
    /\ orders (db w') !! Order.orderId (order data) = None.
Proof.
  intros Hacc Ho Hu. apply accepted_checks in Hacc as (H1 & H2 & H3).
  unfold createOrderAndLogTransaction. cbv zeta. rewrite H1, H2, H3.
  unfold settle. unfold_monad. cbn. rewrite Ho. cbn. rewrite Hu. cbn.
  eexists. repeat split. exact Ho.
Qed.

(** The scenario's order in an empty database. *)
Lemma settlement_needs_vendor_witness :
  exists w',
    createOrderAndLogTransaction Scenario.env0 (Scenario.requestWith 0 0)
      {| db := {| orders := ∅; users := ∅; withdrawalRequest := ∅;
                  refundRequests := ∅; referrals := ∅; vendors := ∅ |};
         effects := [] |}
    = (inl (HttpsErrorWith internal "Transaction failed"
              (HttpsError not_found "Vendor not found.")), w')
    /\ orders (db w') !! "order-1" = None.
Proof.
  destruct (settlement_needs_vendor Scenario.env0 (Scenario.requestWith 0 0)
              {| db := {| orders := ∅; users := ∅; withdrawalRequest := ∅;
                          refundRequests := ∅; referrals := ∅; vendors := ∅ |};
                 effects := [] |} (scenario_accepted 0 0)
              ltac:(apply lookup_empty) ltac:(apply lookup_empty))
    as (w' & Hrun & _ & Ho).
  exists w'. split; [exact Hrun | exact Ho].
Defined.

End SettlementEdges.

(** ** The ledger entry of a settlement *)

Section LedgerFacts.
Import Num Orders.

Lemma sameNum_refl (a : number) : Ledger.sameNum a a = true.
Proof. apply Qeq_bool_iff. reflexivity. Qed.

Lemma sameOpt_refl {A} (eq : A -> A -> bool) (a : option A) :
  (forall x, eq x x = true) -> Ledger.sameOpt eq a a = true.
Proof. intros H. destruct a; cbn; auto. Qed.

Lemma sameReward_refl (r : Ledger.RewardAudit) : Ledger.sameReward r r = true.
Proof.
  unfold Ledger.sameReward.
  rewrite String.eqb_refl, !(sameOpt_refl _ _ sameNum_refl), Bool.eqb_reflx.
  rewrite sameOpt_refl; [reflexivity|]. intros []; reflexivity.
Qed.

Lemma sameEntry_refl (e : Ledger.Entry) : Ledger.sameEntry e e = true.
Proof.
  destruct e as [c| | |]; cbn;
    rewrite ?sameNum_refl, ?String.eqb_refl, ?Z.eqb_refl; try reflexivity.
  unfold Ledger.sameOrderCredit.
  rewrite !sameNum_refl, !String.eqb_refl, Z.eqb_refl, (sameOpt_refl _ _ sameReward_refl).
  destruct (Ledger.status c); reflexivity.
Qed.

(** [arrayUnion] keeps what is there, in order, and adds at most one
    element at the end. *)
Lemma arrayUnion_prefix (x : Ledger.Entry) (l : list Ledger.Entry) :
  l `prefix_of` Ledger.arrayUnion x l
  /\ (length (Ledger.arrayUnion x l) <= S (length l))%nat.
Proof.
  unfold Ledger.arrayUnion. destruct (existsb _ _).
  - split; [reflexivity | lia].
  - split; [apply prefix_app_r; reflexivity | rewrite length_app; cbn; lia].
Qed.

Lemma arrayUnion_has (x : Ledger.Entry) (l : list Ledger.Entry) :
  existsb (Ledger.sameEntry x) (Ledger.arrayUnion x l) = true.
Proof.
  unfold Ledger.arrayUnion. destruct (existsb _ l) eqn:E; [exact E|].
  rewrite existsb_app. cbn. rewrite sameEntry_refl. apply orb_true_iff. right. reflexivity.
Qed.

(** [getCommissionRate] has three values and never grows with the
    sales. *)
Theorem commission_rate_tiers (a b : number) :
  (a <= b)%Q ->
  (getCommissionRate b <= getCommissionRate a)%Q
  /\ ((a < 50000)%Q -> getCommissionRate a = 0.07%Q)
  /\ ((50000 <= a)%Q -> (a < 150000)%Q -> getCommissionRate a = 0.05%Q)
  /\ ((150000 <= a)%Q -> getCommissionRate a = 0.03%Q).
Proof.
  intros Hab. unfold getCommissionRate.
  destruct (Qle_bool 150000 a) eqn:Ea1, (Qle_bool 50000 a) eqn:Ea2,
           (Qle_bool 150000 b) eqn:Eb1, (Qle_bool 50000 b) eqn:Eb2;
    try apply Qle_bool_iff in Ea1; try apply Qle_bool_iff in Ea2;
    try apply Qle_bool_iff in Eb1; try apply Qle_bool_iff in Eb2;
    try apply Qle_bool_false in Ea1; try apply Qle_bool_false in Ea2;
    try apply Qle_bool_false in Eb1; try apply Qle_bool_false in Eb2;
    (split; [|split; [|split]]); intros; try reflexivity; try lra.
Qed.

(** At the boundaries of the tiers. *)
Lemma commission_rate_tiers_witness :
  getCommissionRate 49999.99 = 0.07%Q /\ getCommissionRate 50000 = 0.05%Q
  /\ getCommissionRate 150000 = 0.03%Q
  /\ (getCommissionRate 150000 <= getCommissionRate 50000)%Q.
Proof.
  assert (H : (50000 <= 150000)%Q) by (vm_compute; discriminate).
  destruct (commission_rate_tiers 50000 150000 H) as (Hmono & _ & _ & _).
  repeat split; try reflexivity. exact Hmono.
Defined.

(** X6. A settlement extends the vendor's ledger by one credit entry and
    keeps what was there: the entry is for the order, its amount is the
    revenue S + D with a commission of 0, and the commission rate it
    records is the tier of the month's sales before this order. *)
Theorem settlement_appends_to_ledger env data w w' :
  createOrderAndLogTransaction env data w = (inr tt, w') ->
  exists v v' new e,
    users (db w) !! Order.vendorId (order data) = Some v
    /\ users (db w') !! Order.vendorId (order data) = Some v'
    /\ User.transactions (User.wallet v') = Some new
    /\ default [] (User.transactions (User.wallet v)) `prefix_of` new
    /\ (length new <= S (length (default [] (User.transactions (User.wallet v)))))%nat
    /\ existsb (Ledger.sameEntry (Ledger.FromOrder e)) new = true
    /\ Ledger.orderId e = Order.orderId (order data)
    /\ Ledger.userId e = userId data
    /\ (Ledger.amount e == Order.subtotal (order data) + Order.deliveryFee (order data))%Q
    /\ Ledger.vendorCommission e = 0%Q
    /\ Ledger.commissionRate e
       = getCommissionRate (orZero (User.monthlySales v !! currentMonthKey env))
    /\ Ledger.createdAt e = now env.
Proof.
  intros H. apply createOrder_written in H as (v & Hv & _ & (v' & Hv' & Ht) & _).
  eexists v, v', _, _. split; [exact Hv|]. split; [exact Hv'|]. split; [exact Ht|].
  split; [apply arrayUnion_prefix|]. split; [apply arrayUnion_prefix|].
  split; [apply arrayUnion_has|]. cbn.
  repeat split; try reflexivity. unfold Qminus. lra.
Qed.

(** The scenario: the new vendor's ledger holds one entry, for
    ["order-1"], of 10500 at the rate 0.07. *)
Lemma settlement_appends_to_ledger_witness :
  exists v' new e,
    users (db Scenario.world1) !! "vendor-1" = Some v'
    /\ User.transactions (User.wallet v') = Some new
    /\ length new = 1%nat
    /\ existsb (Ledger.sameEntry (Ledger.FromOrder e)) new = true
    /\ Ledger.orderId e = "order-1"
    /\ (Ledger.amount e == 10500)%Q
    /\ Ledger.commissionRate e = 0.07%Q.
Proof.
  destruct (settlement_appends_to_ledger _ _ _ _ scenario_settles)
    as (v & v' & new & e & Hv & Hv' & Ht & _ & Hlen & Hin & Hid & _ & Ham & _ & Hrate & _).
  assert (v = Scenario.newVendor) as ->.
  { vm_compute in Hv. injection Hv as <-. reflexivity. }
  exists v', new, e. split; [exact Hv'|]. split; [exact Ht|].
  split.
  - destruct new as [|x [|y new]]; [discriminate Hin|reflexivity|].
    cbn in Hlen. lia.
  - split; [exact Hin|]. split; [exact Hid|]. split.
    + rewrite Ham. reflexivity.
    + rewrite Hrate. reflexivity.
Defined.

End LedgerFacts.

(** ** The service charge as a function of the subtotal *)

Section FeeShape.
Import Num Fees.

(** X7. The charge never falls as the subtotal grows, and for a subtotal
    that is not negative it lies between the base fee of 100 and the
    cap of 2000. *)
Theorem calculateServiceCharge_monotone (a b : number) :
  (a <= b)%Q ->
  (calculateServiceCharge a <= calculateServiceCharge b)%Q
  /\ ((0 <= a)%Q -> (100 <= calculateServiceCharge a <= 2000)%Q)
  /\ (calculateServiceCharge b <= 2000)%Q.
Proof.
  intros Hab. unfold calculateServiceCharge, Math_min.
  destruct (Qle_bool (a * 0.055 + 100) 2000) eqn:Ea,
           (Qle_bool (b * 0.055 + 100) 2000) eqn:Eb;
    try apply Qle_bool_iff in Ea; try apply Qle_bool_iff in Eb;
    try apply Qle_bool_false in Ea; try apply Qle_bool_false in Eb;
    (split; [|split]); intros; lra.
Qed.

(** Between the test suite's subtotals 5000 and 35000. *)
Lemma calculateServiceCharge_monotone_witness :
  (calculateServiceCharge 5000 <= calculateServiceCharge 35000)%Q
  /\ (100 <= calculateServiceCharge 5000 <= 2000)%Q.
Proof.
  assert (H : (5000 <= 35000)%Q) by (vm_compute; discriminate).
  destruct (calculateServiceCharge_monotone 5000 35000 H) as (Hm & Hr & _).
  split; [exact Hm|]. apply Hr. vm_compute; discriminate.
Defined.

(** The fee validation of the settlement accepts a submitted fee
    exactly when it is within 1 of the server's charge. *)
Theorem fee_tolerance (subtotal clientFee : number) :
  num_gt (Math_abs (calculateServiceCharge subtotal - clientFee)) 1 = false
  <-> (calculateServiceCharge subtotal - 1 <= clientFee
       <= calculateServiceCharge subtotal + 1)%Q.
Proof. rewrite Math_abs_le. split; intros [H1 H2]; split; lra. Qed.

End FeeShape.

(** ** Delivery code and release: refusals and the round trip *)

Section ReleaseEdges.
Import Num Orders.

(** X8. A wrong code for an unconfirmed order whose code has not expired is
    refused and changes nothing, so the right code can still be entered:
    the transaction throws [permission-denied], which the handler
    reports as [internal]. *)
Theorem wrong_code_changes_nothing env data w od v :
  wellFormed data ->
  orders (db w) !! orderId data = Some od ->
  users (db w) !! vendorId data = Some v ->
  expiredAt (now env) od = false ->
  Order.deliveryConfirmed od <> Some true ->
  Order.deliveryCode od <> Some (enteredOtp data) ->
  exists w',
    confirmOrderWithOTP env data w
    = (inl (HttpsErrorWith internal "OTP confirmation failed"
              (HttpsError permission_denied "Incorrect OTP.")), w')
    /\ db w' = db w.
Proof.
  intros Hwf Ho Hv He Hc Hcode. apply wellFormed_checks in Hwf.
  unfold confirmOrderWithOTP. rewrite Hwf.
  unfold release. unfold_monad. cbn. rewrite Ho. cbn. rewrite Hv. cbn.
  rewrite He. cbn. rewrite bool_decide_eq_false_2 by exact Hc. cbn.
  rewrite bool_decide_eq_false_2 by congruence. cbn.
  eexists. split; reflexivity.
Qed.

(** The scenario's order, code 4842, with 0000 entered. *)
Lemma wrong_code_changes_nothing_witness :
  exists w',
    confirmOrderWithOTP Scenario.env1 (Scenario.confirmWith "0000") Scenario.world2
    = (inl (HttpsErrorWith internal "OTP confirmation failed"
              (HttpsError permission_denied "Incorrect OTP.")), w')
    /\ db w' = db Scenario.world2.
Proof.
  destruct (orders (db Scenario.world2) !! "order-1") as [od|] eqn:Ho;
    [|vm_compute in Ho; discriminate].
  destruct (users (db Scenario.world2) !! "vendor-1") as [v|] eqn:Hv;
    [|vm_compute in Hv; discriminate].
  apply (wrong_code_changes_nothing Scenario.env1 (Scenario.confirmWith "0000")
           Scenario.world2 od v); try assumption.
  - repeat split; discriminate.
  - vm_compute in Ho. injection Ho as <-. reflexivity.
  - vm_compute in Ho. injection Ho as <-. discriminate.
  - vm_compute in Ho. injection Ho as <-. discriminate.
Defined.

(** X9. The right code is refused when the vendor's pending balance does
    not cover the order's earnings, and nothing changes. *)
Theorem release_needs_pending_balance env data w od v :
  wellFormed data ->
  orders (db w) !! orderId data = Some od ->
  users (db w) !! vendorId data = Some v ->
  expiredAt (now env) od = false ->
  Order.deliveryConfirmed od <> Some true ->
  Order.deliveryCode od = Some (enteredOtp data) ->
  (orZero (User.pendingBalance (User.wallet v))
   < Order.vendorEarnings (Order.order od))%Q ->
  exists w',
    confirmOrderWithOTP env data w
    = (inl (HttpsErrorWith internal "OTP confirmation failed"
              (HttpsError failed_precondition "Pending balance too low.")), w')
    /\ db w' = db w.
Proof.
  intros Hwf Ho Hv He Hc Hcode Hlow. apply wellFormed_checks in Hwf.
  unfold confirmOrderWithOTP. rewrite Hwf.
  unfold release. unfold_monad. cbn. rewrite Ho. cbn. rewrite Hv. cbn.
  rewrite He. cbn. rewrite bool_decide_eq_false_2 by exact Hc. cbn.
  rewrite bool_decide_eq_true_2 by (symmetry; exact Hcode). cbn.
  apply num_gt_true in Hlow. rewrite Hlow. cbn.
  eexists. split; reflexivity.
Qed.

(** The database a successful confirmation leaves: the vendor's and the
    order's documents rewritten, everything else as before. *)
Lemma confirm_db env data w w' :
  confirmOrderWithOTP env data w = (inr tt, w') ->
  exists od v,
    orders (db w) !! orderId data = Some od
    /\ users (db w) !! vendorId data = Some v
    /\ (Order.vendorEarnings (Order.order od)
        <= orZero (User.pendingBalance (User.wallet v)))%Q
    /\ db w' =
       {| orders :=
            <[orderId data :=
                {| Order.order := Order.complete (Order.order od) (now env);
                   Order.deliveryCode := Order.deliveryCode od;
                   Order.deliveryCodeExpiresAt := Order.deliveryCodeExpiresAt od;
                   Order.deliveryConfirmed := Some true;
                   Order.reviewed := Some false;
                   Order.timeline :=
                     timelineUnion
                       {| Order.status := "Order completed";
                          Order.timestamp := now env + watOffsetMs;
                          Order.actor := "vendor" |}
                       (Order.timeline od) |}]> (orders (db w));
          users :=
            <[vendorId data :=
                {| User.wallet :=
                     {| User.balance := User.balance (User.wallet v);
                        User.pendingBalance :=
                          Some (orZero (User.pendingBalance (User.wallet v))
                                - Order.vendorEarnings (Order.order od))%Q;
                        User.eligibleBalance :=
                          Some (orZero (User.eligibleBalance (User.wallet v))
                                + Order.vendorEarnings (Order.order od))%Q;
                        User.transactions := User.transactions (User.wallet v) |};
                   User.monthlySales := User.monthlySales v;
                   User.paymentInfo := User.paymentInfo v;
                   User.updatedAt := Some (now env) |}]> (users (db w));
          withdrawalRequest := withdrawalRequest (db w);
          refundRequests := refundRequests (db w);
          referrals := referrals (db w);
          vendors := vendors (db w) |}.
Proof.
  intros H. unfold confirmOrderWithOTP in H.
  destruct (blank _ || blank _ || blank _); [discriminate|].
  unfold release in H. unfold_monad. cbn in H.
  destruct (orders (db w) !! _) as [od|] eqn:Ho; cbn in H; [|discriminate].
  destruct (users (db w) !! _) as [v|] eqn:Hv; cbn in H; [|discriminate].
  destruct (expiredAt (now env) od); cbn in H; [discriminate|].
  destruct (bool_decide (Order.deliveryConfirmed od = Some true)); cbn in H; [discriminate|].
  destruct (bool_decide (Some (enteredOtp data) = Order.deliveryCode od));
    cbn in H; [|discriminate].
  destruct (num_gt _ _) eqn:Hlow; cbn in H; [discriminate|].
  rewrite Hv in H. cbn in H. rewrite Ho in H. cbn in H. injection H as <-. cbn.
  apply num_gt_false in Hlow.
  exists od, v. repeat split; auto.
Qed.

(** X10. A confirmation completes the order and leaves the money fields
    alone: the order is stored as completed, confirmed and not yet
    reviewed, with its amounts, code and expiry as they were and a
    timeline extended by at most the entry ["Order completed"] stamped
    one hour ahead of the clock; the vendor's balance, ledger and
    monthly sales are as before. *)
Theorem release_completes_order env data w w' :
  confirmOrderWithOTP env data w = (inr tt, w') ->
  exists od od' v v',
    orders (db w) !! orderId data = Some od
    /\ orders (db w') !! orderId data = Some od'
    /\ users (db w) !! vendorId data = Some v
    /\ users (db w') !! vendorId data = Some v'
    /\ Order.orderStatus (Order.order od') = order_completed
    /\ Order.deliveryConfirmed od' = Some true
    /\ Order.reviewed od' = Some false
    /\ Order.vendorEarnings (Order.order od') = Order.vendorEarnings (Order.order od)
    /\ Order.totalAmountPaid (Order.order od') = Order.totalAmountPaid (Order.order od)
    /\ Order.deliveryCode od' = Order.deliveryCode od
    /\ {| Order.status := "Order completed";
          Order.timestamp := now env + 3600000;
          Order.actor := "vendor" |} ∈ Order.timeline od'
    /\ Order.timeline od `prefix_of` Order.timeline od'
    /\ User.balance (User.wallet v') = User.balance (User.wallet v)
    /\ User.transactions (User.wallet v') = User.transactions (User.wallet v)
    /\ User.monthlySales v' = User.monthlySales v.
Proof.
  intros H. apply confirm_db in H as (od & v & Ho & Hv & _ & Hdb).
  eexists od, _, v, _. rewrite Hdb. cbn. rewrite !lookup_insert_eq.
  split; [exact Ho|]. split; [reflexivity|]. split; [exact Hv|]. split; [reflexivity|].
  cbn. repeat split.
  - unfold timelineUnion. destruct (decide (_ ∈ _)) as [Hin|Hin]; [exact Hin|].
    apply elem_of_app. right. apply list_elem_of_singleton. reflexivity.
  - unfold timelineUnion. destruct (decide (_ ∈ _)); [reflexivity|].
    apply prefix_app_r. reflexivity.
Qed.

(** The scenario's confirmation. *)
Lemma release_completes_order_witness :
  exists od',
    orders (db Scenario.world3) !! "order-1" = Some od'
    /\ Order.orderStatus (Order.order od') = order_completed
    /\ Order.deliveryConfirmed od' = Some true
    /\ {| Order.status := "Order completed";
          Order.timestamp := 1750007200000;
          Order.actor := "vendor" |} ∈ Order.timeline od'.
Proof.
  destruct (release_completes_order _ _ _ _ scenario_releases)
    as (od & od' & v & v' & _ & Ho' & _ & _ & Hs & Hc & _ & _ & _ & _ & Ht & _).
  exists od'. repeat split; assumption.
Defined.

End ReleaseEdges.

(** ** What each successful call wrote

    The database after a successful call, as the database before with
    the documents the handler wrote. *)

Section Footprints.
Import Num.

Lemma createOrder_db env data w w' :
  Orders.createOrderAndLogTransaction env data w = (inr tt, w') ->
  exists v v' od,
    orders (db w) !! Order.orderId (Orders.order data) = None
    /\ users (db w) !! Order.vendorId (Orders.order data) = Some v
    /\ sameAmounts (Order.order od)
         (Order.setCommissionAndEarnings
            (Order.setTotalAmountPaid
               (Order.setServiceFee (Orders.order data)
                  (Fees.calculateServiceCharge (Order.subtotal (Orders.order data))))
               (Orders.totalPaid data))
            0 (Order.subtotal (Orders.order data)
               + Order.deliveryFee (Orders.order data) - 0))
    /\ User.pendingBalance (User.wallet v') =
         Some (orZero (User.pendingBalance (User.wallet v))
               + (Order.subtotal (Orders.order data)
                  + Order.deliveryFee (Orders.order data) - 0))%Q
    /\ User.eligibleBalance (User.wallet v') = User.eligibleBalance (User.wallet v)
    /\ ledgerOf v `prefix_of` ledgerOf v'
    /\ db w' =
       setDocs usersC (<[Order.vendorId (Orders.order data) := v']> (users (db w)))
         (setDocs ordersC (<[Order.orderId (Orders.order data) := od]> (orders (db w)))
            (db w)).
Proof.
  intros H. unfold Orders.createOrderAndLogTransaction in H. cbv zeta in H.
  destruct (blank _ || blank _); [discriminate|].
  destruct (num_gt _ _); [discriminate|].
  destruct (num_gt _ _); [discriminate|].
  unfold Orders.settle in H. unfold_monad. cbn in H.
  destruct (orders (db w) !! _) eqn:Ho; cbn in H; [discriminate|].
  destruct (users (db w) !! _) as [v|] eqn:Hu; cbn in H; [|discriminate].
  rewrite Hu in H. cbn in H. injection H as <-. cbn.
  eexists v, _, _. split; [reflexivity|]. split; [reflexivity|].
  split; [|split; [|split; [|split; [|reflexivity]]]]; cbn.
  - repeat split.
  - reflexivity.
  - reflexivity.
  - unfold ledgerOf. cbn. apply arrayUnion_prefix.
Qed.

Lemma generateCode_db env orderId w code w' :
  Orders.generateDeliveryCode env orderId w = (inr code, w') ->
  exists od,
    orders (db w) !! orderId = Some od
    /\ db w' =
       setDocs ordersC
         (<[orderId :=
              {| Order.order := Order.order od;
                 Order.deliveryCode := Some code;
                 Order.deliveryCodeExpiresAt := Some (now env + 72 * 60 * 60 * 1000);
                 Order.deliveryConfirmed := Some false;
                 Order.reviewed := Order.reviewed od;
                 Order.timeline := Order.timeline od |}]> (orders (db w)))
         (db w).
Proof.
  intros H. unfold Orders.generateDeliveryCode in H.
  destruct (blank orderId); [discriminate|].
  unfold try_catch, bind, doc_get, doc_update, ret, throw, emit in H. cbn in H.
  destruct (orders (db w) !! orderId) as [od|] eqn:Ho; cbn in H; [|discriminate].
  destruct (bool_decide _); cbn in H; [discriminate|].
  rewrite Ho in H. cbn in H. injection H as <- <-. exists od. split; reflexivity.
Qed.

Lemma requestWithdrawal_db env data w w' :
  Withdrawals.requestVendorWithdrawal env data w = (inr tt, w') ->
  exists v wd,
    users (db w) !! Withdrawals.vendorId data = Some v
    /\ (Withdrawals.amount data <= orZero (User.eligibleBalance (User.wallet v)))%Q
    /\ Withdrawal.amount wd = Withdrawals.amount data
    /\ Withdrawal.status wd = pending
    /\ db w' =
       setDocs withdrawalRequestC (<[autoId env := wd]> (withdrawalRequest (db w)))
         (setDocs usersC
            (<[Withdrawals.vendorId data :=
                 Withdrawals.setEligible
                   (orZero (User.eligibleBalance (User.wallet v))
                    - Withdrawals.amount data)%Q (now env) v]> (users (db w)))
            (db w)).
Proof.
  intros H. unfold Withdrawals.requestVendorWithdrawal in H.
  destruct (blank _ || _ || _ || _ || _); [discriminate|].
  unfold Withdrawals.reserve in H. unfold_monad. cbn in H.
  destruct (users (db w) !! _) as [v|] eqn:Hv; cbn in H; [|discriminate].
  destruct (num_lt _ _) eqn:Hlt; cbn in H; [discriminate|].
  rewrite Hv in H. cbn in H. injection H as <-. cbn.
  apply num_lt_false in Hlt.
  eexists v, _. repeat apply conj; revgoals; first [eassumption|reflexivity].
Qed.

Lemma rejectWithdrawal_db env id reason w w' :
  Withdrawals.rejectVendorWithdrawal env id reason w = (inr tt, w') ->
  exists wd v wd',
    withdrawalRequest (db w) !! id = Some wd
    /\ Withdrawal.status wd = pending
    /\ users (db w) !! Withdrawal.vendorId wd = Some v
    /\ Withdrawal.amount wd' = Withdrawal.amount wd
    /\ Withdrawal.status wd' = rejected
    /\ db w' =
       setDocs withdrawalRequestC (<[id := wd']> (withdrawalRequest (db w)))
         (setDocs usersC
            (<[Withdrawal.vendorId wd :=
                 Withdrawals.setEligible
                   (orZero (User.eligibleBalance (User.wallet v))
                    + Withdrawal.amount wd)%Q (now env) v]> (users (db w)))
            (db w)).
Proof.
  intros H. unfold Withdrawals.rejectVendorWithdrawal in H.
  destruct (blank id); [discriminate|].
  unfold Withdrawals.restore in H. unfold_monad. cbn in H.
  destruct (withdrawalRequest (db w) !! id) as [wd|] eqn:Hwd; cbn in H; [|discriminate].
  destruct (bool_decide (Withdrawal.status wd = pending)) eqn:Hst; cbn in H; [|discriminate].
  destruct (users (db w) !! _) as [v|] eqn:Hv; cbn in H; [|discriminate].
  rewrite Hv in H. cbn in H. rewrite Hwd in H. cbn in H. injection H as <-. cbn.
  apply bool_decide_eq_true in Hst.
  eexists wd, v, _. repeat apply conj; revgoals; first [eassumption|reflexivity].
Qed.

Lemma approveWithdrawal_db env id isLive w w' :
  Withdrawals.approveVendorWithdrawal env id isLive w = (inr tt, w') ->
  exists wd v wd' v' ref,
    withdrawalRequest (db w) !! id = Some wd
    /\ Withdrawal.status wd = pending
    /\ users (db w) !! Withdrawal.vendorId wd = Some v
    /\ Withdrawal.amount wd' = Withdrawal.amount wd
    /\ Withdrawal.status wd' = approved
    /\ Withdrawal.transferReference wd' = Some ref
    /\ User.pendingBalance (User.wallet v') = User.pendingBalance (User.wallet v)
    /\ User.eligibleBalance (User.wallet v') = User.eligibleBalance (User.wallet v)
    /\ ledgerOf v' =
         ledgerOf v ++ [Ledger.WithdrawalDebit (Withdrawal.amount wd) ref
                          (Withdrawal.vendorId wd) (now env)]
    /\ db w' =
       setDocs usersC (<[Withdrawal.vendorId wd := v']> (users (db w)))
         (setDocs withdrawalRequestC (<[id := wd']> (withdrawalRequest (db w))) (db w)).
Proof.
  intros H. unfold Withdrawals.approveVendorWithdrawal in H.
  destruct (blank id); [discriminate|].
  unfold Withdrawals.payout in H. unfold_monad. cbn in H.
  destruct (withdrawalRequest (db w) !! id) as [wd|] eqn:Hwd; cbn in H; [|discriminate].
  destruct (bool_decide (Withdrawal.status wd = pending)) eqn:Hst; cbn in H; [|discriminate].
  destruct (users (db w) !! _) as [v|] eqn:Hv; cbn in H; [|discriminate].
  destruct (truthy _); cbn in H; [|discriminate].
  destruct (transferrecipient env _ _) as [code|]; cbn in H; [|discriminate].
  destruct (transfer env _ _) as [ref|]; cbn in H; [|discriminate].
  rewrite Hwd in H. cbn in H. rewrite Hv in H. cbn in H. injection H as <-. cbn.
  apply bool_decide_eq_true in Hst.
  eexists wd, v, _, _, ref. repeat apply conj; revgoals; first [eassumption|reflexivity].
Qed.

Lemma requestRefund_db env data w w' :
  Refunds.requestRefund env data w = (inr tt, w') ->
  exists orderId rd,
    Refunds.req_orderId data = Some orderId
    /\ refundRequests (db w) !! orderId = None
    /\ Refund.status rd = pending
    /\ db w' = setDocs refundRequestsC (<[orderId := rd]> (refundRequests (db w))) (db w).
Proof.
  intros H. unfold Refunds.requestRefund in H.
  destruct (Refunds.req_orderId data) as [oid|]; [|discriminate].
  destruct (Refunds.req_userId data); [|discriminate].
  destruct (Refunds.req_vendorId data); [|discriminate].
  destruct (Refunds.req_amount data); [|discriminate].
  destruct (Refunds.req_subtotal data); [|discriminate].
  destruct (Refunds.req_deliveryFee data); [|discriminate].
  destruct (Refunds.req_vendorEarnings data); [|discriminate].
  destruct (Refunds.req_totalPaid data); [|discriminate].
  destruct (Refunds.req_reason data); [|discriminate].
  unfold try_catch, bind, doc_get, doc_set, throw in H. cbn in H.
  destruct (refundRequests (db w) !! oid) eqn:Hrd; cbn in H; [discriminate|].
  injection H as <-. eexists oid, _.
  repeat apply conj; revgoals; first [eassumption|reflexivity].
Qed.

Lemma rejectRefund_db env orderId reason w w' :
  Refunds.rejectRefundRequest env orderId reason w = (inr tt, w') ->
  exists rd rd',
    refundRequests (db w) !! orderId = Some rd
    /\ Refund.status rd = pending
    /\ Refund.status rd' = rejected
    /\ db w' = setDocs refundRequestsC (<[orderId := rd']> (refundRequests (db w))) (db w).
Proof.
  intros H. unfold Refunds.rejectRefundRequest in H.
  destruct (blank orderId); [discriminate|].
  unfold_monad. cbn in H.
  destruct (refundRequests (db w) !! orderId) as [rd|] eqn:Hrd; cbn in H; [|discriminate].
  destruct (bool_decide (Refund.status rd = pending)) eqn:Hst; cbn in H; [|discriminate].
  rewrite Hrd in H. cbn in H. injection H as <-. cbn.
  apply bool_decide_eq_true in Hst.
  eexists rd, _. repeat apply conj; revgoals; first [eassumption|reflexivity].
Qed.

Lemma approveRefund_db env data w w' :
  Refunds.approveRefundRequest env data w = (inr tt, w') ->
  exists rd rd' u u' v v' ref,
    refundRequests (db w) !! Refunds.orderId data = Some rd
    /\ Refund.status rd = pending
    /\ Refund.status rd' = approved
    /\ users (db w) !! Refunds.userId data = Some u
    /\ users (db w) !! Refund.vendorId rd = Some v
    /\ ledgerOf u' =
         ledgerOf u ++ [Ledger.RefundCredit (Refunds.amount data) ref
                          (Refunds.userId data) (now env)]
    /\ ledgerOf v' =
         ledgerOf v ++ [Ledger.RefundDebit (Refund.vendorEarnings rd) ref
                          (Refund.vendorId rd) (now env)]
    /\ db w' =
       setDocs usersC
         (<[Refund.vendorId rd := v']> (<[Refunds.userId data := u']> (users (db w))))
         (setDocs refundRequestsC
            (<[Refunds.orderId data := rd']> (refundRequests (db w))) (db w)).
Proof.
  intros H. unfold Refunds.approveRefundRequest in H.
  destruct (blank _ || blank _ || falsy _); [discriminate|].
  unfold Refunds.reverse in H. unfold_monad. cbn in H.
  destruct (refundRequests (db w) !! _) as [rd|] eqn:Hrd; cbn in H; [|discriminate].
  destruct (bool_decide (Refund.status rd = pending)) eqn:Hst; cbn in H; [|discriminate].
  apply bool_decide_eq_true in Hst.
  destruct (users (db w) !! Refunds.userId data) as [u|] eqn:Hu; cbn in H; [|discriminate].
  destruct (Refunds.bankDetailsMissing _); cbn in H; [discriminate|].
  destruct (truthy _); cbn in H; [|discriminate].
  destruct (transferrecipient env _ _) as [code|]; cbn in H; [|discriminate].
  destruct (transfer env _ _) as [ref|]; cbn in H; [|discriminate].
  rewrite Hrd in H. cbn in H. rewrite Hu in H. cbn in H.
  rewrite lookup_insert in H.
  destruct (decide (Refunds.userId data = Refund.vendorId rd)) as [Heq|Hne]; cbn in H.
  - rewrite Heq in H, Hu. injection H as <-. cbn. rewrite Hu. cbn.
    eexists rd, _, u, _, u, _, ref. rewrite Heq.
    repeat apply conj; revgoals; first [eassumption|reflexivity].
  - destruct (users (db w) !! Refund.vendorId rd) as [v|] eqn:Hv; cbn in H; [|discriminate].
    injection H as <-. cbn.
    eexists rd, _, u, _, v, _, ref.
    repeat apply conj; revgoals; first [eassumption|reflexivity].
Qed.

Lemma addReferral_db env vendorId referredCustomerId w w' :
  Referrals.addReferralForVendor env vendorId referredCustomerId w = (inr tt, w') ->
  exists r', db w' = setDocs referralsC (<[vendorId := r']> (referrals (db w))) (db w).
Proof.
  intros H. unfold Referrals.addReferralForVendor in H.
  destruct (blank _ || blank _); [discriminate|].
  unfold Referrals.signup in H. unfold_monad. cbn in H.
  destruct (vendors (db w) !! vendorId) as [vd|]; cbn in H; [|discriminate].
  destruct (referrals (db w) !! vendorId) as [r|] eqn:Hr; cbn in H.
  - rewrite Hr in H. injection H as <-. cbn. eexists. reflexivity.
  - injection H as <-. cbn. eexists. reflexivity.
Qed.

Lemma purchase_db env vendorId referredCustomerId orderId w w' :
  Referrals.updateReferralPointsOnPurchase env vendorId referredCustomerId orderId w
  = (inr tt, w') ->
  exists r', db w' = setDocs referralsC (<[vendorId := r']> (referrals (db w))) (db w).
Proof.
  intros H. unfold Referrals.updateReferralPointsOnPurchase in H.
  destruct (blank _ || blank _ || blank _); [discriminate|].
  unfold Referrals.purchase in H. unfold_monad. cbn in H.
  destruct (referrals (db w) !! vendorId) as [r|] eqn:Hr; cbn in H; [|discriminate].
  destruct (Referral.referralHistory r); cbn in H; [|discriminate].
  destruct (Referrals.hasReferralIn _ _); cbn in H; [|discriminate].
  rewrite Hr in H. injection H as <-. cbn. eexists. reflexivity.
Qed.

End Footprints.

(** ** Failing calls *)

Section Atomicity.
Import Num.

(** A transaction whose callback throws, in a handler that rethrows,
    leaves the database as it was. *)
Lemma transaction_failure {A} (body : M A) (rethrow : Thrown -> Thrown) w e w' :
  try_catch (runTransaction body) (fun error => throw (rethrow error)) w = (inl e, w') ->
  db w' = db w.
Proof.
  unfold try_catch, runTransaction, throw.
  destruct (body _) as [[e0|a] w0]; [|discriminate].
  intros [= <- <-]. reflexivity.
Qed.

Lemma generateCode_inl env orderId w e w' :
  Orders.generateDeliveryCode env orderId w = (inl e, w') -> db w' = db w.
Proof.
  unfold Orders.generateDeliveryCode.
  destruct (blank orderId); [intros [= <- <-]; reflexivity|].
  unfold try_catch, bind, doc_get, doc_update, ret, throw, emit. cbn.
  destruct (orders (db w) !! orderId) as [od|] eqn:Ho; cbn;
    [|intros [= <- <-]; reflexivity].
  destruct (bool_decide _); cbn; [intros [= <- <-]; reflexivity|].
  rewrite Ho. cbn. discriminate.
Qed.

Lemma confirm_inl env data w e w' :
  Orders.confirmOrderWithOTP env data w = (inl e, w') -> db w' = db w.
Proof.
  unfold Orders.confirmOrderWithOTP.
  destruct (blank _ || blank _ || blank _); [intros [= <- <-]; reflexivity|].
  apply transaction_failure.
Qed.

Lemma requestWithdrawal_inl env data w e w' :
  Withdrawals.requestVendorWithdrawal env data w = (inl e, w') -> db w' = db w.
Proof.
  unfold Withdrawals.requestVendorWithdrawal.
  destruct (blank _ || _ || _ || _ || _); [intros [= <- <-]; reflexivity|].
  apply (transaction_failure _ (fun _ => HttpsError internal "Withdrawal request failed.")).
Qed.

Lemma rejectWithdrawal_inl env id reason w e w' :
  Withdrawals.rejectVendorWithdrawal env id reason w = (inl e, w') -> db w' = db w.
Proof.
  unfold Withdrawals.rejectVendorWithdrawal.
  destruct (blank _); [intros [= <- <-]; reflexivity|].
  apply transaction_failure.
Qed.

Lemma requestRefund_inl env data w e w' :
  Refunds.requestRefund env data w = (inl e, w') -> db w' = db w.
Proof.
  unfold Refunds.requestRefund.
  destruct (Refunds.req_orderId data) as [oid|]; [|intros [= <- <-]; reflexivity].
  destruct (Refunds.req_userId data); [|intros [= <- <-]; reflexivity].
  destruct (Refunds.req_vendorId data); [|intros [= <- <-]; reflexivity].
  destruct (Refunds.req_amount data); [|intros [= <- <-]; reflexivity].
  destruct (Refunds.req_subtotal data); [|intros [= <- <-]; reflexivity].
  destruct (Refunds.req_deliveryFee data); [|intros [= <- <-]; reflexivity].
  destruct (Refunds.req_vendorEarnings data); [|intros [= <- <-]; reflexivity].
  destruct (Refunds.req_totalPaid data); [|intros [= <- <-]; reflexivity].
  destruct (Refunds.req_reason data); [|intros [= <- <-]; reflexivity].
  unfold try_catch, bind, doc_get, doc_set, throw. cbn.
  destruct (refundRequests (db w) !! oid); cbn; [|discriminate].
  intros [= <- <-]. reflexivity.
Qed.

Lemma rejectRefund_inl env orderId reason w e w' :
  Refunds.rejectRefundRequest env orderId reason w = (inl e, w') -> db w' = db w.
Proof.
  unfold Refunds.rejectRefundRequest.
  destruct (blank _); [intros [= <- <-]; reflexivity|].
  apply (transaction_failure _ (fun _ => HttpsError internal "Reject refund failed.")).
Qed.

Lemma approveRefund_inl env data w e w' :
  Refunds.approveRefundRequest env data w = (inl e, w') -> db w' = db w.
Proof.
  unfold Refunds.approveRefundRequest.
  destruct (blank _ || blank _ || falsy _); [intros [= <- <-]; reflexivity|].
  apply (transaction_failure _ (fun _ => HttpsError internal "Refund approval failed.")).
Qed.

Lemma addReferral_inl env vendorId referredCustomerId w e w' :
  Referrals.addReferralForVendor env vendorId referredCustomerId w = (inl e, w') ->
  db w' = db w.
Proof.
  unfold Referrals.addReferralForVendor.
  destruct (blank _ || blank _); [intros [= <- <-]; reflexivity|].
  apply transaction_failure.
Qed.

Lemma purchase_inl env vendorId referredCustomerId orderId w e w' :
  Referrals.updateReferralPointsOnPurchase env vendorId referredCustomerId orderId w
  = (inl e, w') ->
  db w' = db w.
Proof.
  unfold Referrals.updateReferralPointsOnPurchase.
  destruct (blank _ || blank _ || blank _); [intros [= <- <-]; reflexivity|].
  apply transaction_failure.
Qed.

(** A call either fails, and then the database is as before, or it
    succeeded in its handler. *)
Lemma invoke_failed env c w e w' :
  Index.invoke env c w = (Some e, w') -> db w' = db w.
Proof.
  destruct c; cbn [Index.invoke]; unfold Index.outcome;
    match goal with |- context [?h env ?a ?b ?c w] => destruct (h env a b c w) as [[e0|r] w0] eqn:Hc
                  | |- context [?h env ?a ?b w] => destruct (h env a b w) as [[e0|r] w0] eqn:Hc
                  | |- context [?h env ?a w] => destruct (h env a w) as [[e0|r] w0] eqn:Hc
    end; cbn; intros [= <- <-] || discriminate.
  - eapply createOrder_inl; eauto.
  - eapply generateCode_inl; eauto.
  - eapply confirm_inl; eauto.
  - eapply requestWithdrawal_inl; eauto.
  - eapply rejectWithdrawal_inl; eauto.
  - eapply approveWithdrawal_inl; eauto.
  - eapply requestRefund_inl; eauto.
  - eapply rejectRefund_inl; eauto.
  - eapply approveRefund_inl; eauto.
  - eapply addReferral_inl; eauto.
  - eapply purchase_inl; eauto.
Qed.

(** What a handler's [catch] throws is what it makes of the error it
    caught. *)
Lemma caught {A} (body : M A) (rethrow : Thrown -> Thrown) w e w' :
  try_catch body (fun error => throw (rethrow error)) w = (inl e, w') ->
  exists error, e = rethrow error.
Proof.
  unfold try_catch, throw. destruct (body w) as [[e0|a] w0]; [|discriminate].
  intros [= <- _]. exists e0. reflexivity.
Qed.

(** The code of the error of a failed call. *)
Lemma invoke_error_code env c w e w' :
  Index.invoke env c w = (Some e, w') ->
  codeOf e = invalid_argument \/ codeOf e = internal.
Proof.
  assert (Hout : forall A (r : (Thrown + A) * World),
            Index.outcome r = (Some e, w') -> r = (inl e, w')).
  { intros A [[e0|a] w0]; unfold Index.outcome; cbn; [intros [= <- <-]; reflexivity|discriminate]. }
  destruct c; cbn [Index.invoke]; intros H; apply Hout in H.
  - unfold Orders.createOrderAndLogTransaction in H. cbv zeta in H.
    destruct (blank _ || blank _); [injection H as <- _; left; reflexivity|].
    destruct (num_gt _ _); [injection H as <- _; left; reflexivity|].
    destruct (num_gt _ _); [injection H as <- _; left; reflexivity|].
    apply caught in H as (e0 & ->). right. reflexivity.
  - unfold Orders.generateDeliveryCode in H.
    destruct (blank _); [injection H as <- _; left; reflexivity|].
    apply caught in H as (e0 & ->). right. reflexivity.
  - unfold Orders.confirmOrderWithOTP in H.
    destruct (blank _ || blank _ || blank _); [injection H as <- _; left; reflexivity|].
    apply caught in H as (e0 & ->). right. reflexivity.
  - unfold Withdrawals.requestVendorWithdrawal in H.
    destruct (blank _ || _ || _ || _ || _); [injection H as <- _; left; reflexivity|].
    apply (caught _ (fun _ => HttpsError internal "Withdrawal request failed.")) in H
      as (e0 & ->). right. reflexivity.
  - unfold Withdrawals.rejectVendorWithdrawal in H.
    destruct (blank _); [injection H as <- _; left; reflexivity|].
    apply caught in H as (e0 & ->). right. reflexivity.
  - unfold Withdrawals.approveVendorWithdrawal in H.
    destruct (blank _); [injection H as <- _; left; reflexivity|].
    apply (caught _ (fun _ => HttpsError internal "Approval failed.")) in H
      as (e0 & ->). right. reflexivity.
  - unfold Refunds.requestRefund in H.
    destruct (Refunds.req_orderId data); [|injection H as <- _; left; reflexivity].
    destruct (Refunds.req_userId data); [|injection H as <- _; left; reflexivity].
    destruct (Refunds.req_vendorId data); [|injection H as <- _; left; reflexivity].
    destruct (Refunds.req_amount data); [|injection H as <- _; left; reflexivity].
    destruct (Refunds.req_subtotal data); [|injection H as <- _; left; reflexivity].
    destruct (Refunds.req_deliveryFee data); [|injection H as <- _; left; reflexivity].
    destruct (Refunds.req_vendorEarnings data); [|injection H as <- _; left; reflexivity].
    destruct (Refunds.req_totalPaid data); [|injection H as <- _; left; reflexivity].
    destruct (Refunds.req_reason data); [|injection H as <- _; left; reflexivity].
    apply (caught _ (fun _ => HttpsError internal "Refund request failed.")) in H
      as (e0 & ->). right. reflexivity.
  - unfold Refunds.rejectRefundRequest in H.
    destruct (blank _); [injection H as <- _; left; reflexivity|].
    apply (caught _ (fun _ => HttpsError internal "Reject refund failed.")) in H
      as (e0 & ->). right. reflexivity.
  - unfold Refunds.approveRefundRequest in H.
    destruct (blank _ || blank _ || falsy _); [injection H as <- _; left; reflexivity|].
    apply (caught _ (fun _ => HttpsError internal "Refund approval failed.")) in H
      as (e0 & ->). right. reflexivity.
  - unfold Referrals.addReferralForVendor in H.
    destruct (blank _ || blank _); [injection H as <- _; left; reflexivity|].
    apply caught in H as (e0 & ->). right. reflexivity.
  - unfold Referrals.updateReferralPointsOnPurchase in H.
    destruct (blank _ || blank _ || blank _); [injection H as <- _; left; reflexivity|].
    apply caught in H as (e0 & ->). right. reflexivity.
Qed.

(** X12. Every call that ends in an error leaves every collection as it was,
    and the error has one of two codes: whichever of the eleven order,
    withdrawal, refund and referral functions is called, with whatever
    data, an error to the caller means that no order, wallet, request or
    referral record was written, and its code is [invalid-argument],
    from the validation of the request, or [internal], from the
    handler's [catch]; the codes thrown inside the transactions
    ([not-found], [already-exists], [failed-precondition],
    [permission-denied], [deadline-exceeded]) never reach the caller as
    the code of the error. *)
Theorem failed_call_changes_nothing env c w e w' :
  Index.invoke env c w = (Some e, w') ->
  db w' = db w /\ (codeOf e = invalid_argument \/ codeOf e = internal).
Proof.
  intros H. split.
  - eapply invoke_failed. exact H.
  - eapply invoke_error_code. exact H.
Qed.

(** A withdrawal of 4000 asked of the new vendor, whose eligible
    balance is nothing. *)
Lemma failed_call_changes_nothing_witness :
  db (Index.invoke Scenario.env0 (Index.RequestVendorWithdrawal Scenario.withdraw4000)
        Scenario.world0).2
  = db Scenario.world0
  /\ (codeOf (HttpsError internal "Withdrawal request failed.") = invalid_argument
      \/ codeOf (HttpsError internal "Withdrawal request failed.") = internal).
Proof.
  apply (failed_call_changes_nothing Scenario.env0
           (Index.RequestVendorWithdrawal Scenario.withdraw4000) Scenario.world0
           (HttpsError internal "Withdrawal request failed.")).
  vm_compute. reflexivity.
Defined.

End Atomicity.

(** ** Sequences of calls *)

Section Histories.
Import Num.

(** A call failed and changed nothing, or its handler succeeded. *)
Lemma invoke_cases env c w :
  db (Index.invoke env c w).2 = db w
  \/ match c with
     | Index.CreateOrderAndLogTransaction data =>
         Orders.createOrderAndLogTransaction env data w = (inr tt, (Index.invoke env c w).2)
     | Index.GenerateDeliveryCode orderId =>
         exists code,
           Orders.generateDeliveryCode env orderId w = (inr code, (Index.invoke env c w).2)
     | Index.ConfirmOrderWithOTP data =>
         Orders.confirmOrderWithOTP env data w = (inr tt, (Index.invoke env c w).2)
     | Index.RequestVendorWithdrawal data =>
         Withdrawals.requestVendorWithdrawal env data w = (inr tt, (Index.invoke env c w).2)
     | Index.RejectVendorWithdrawal id reason =>
         Withdrawals.rejectVendorWithdrawal env id reason w
         = (inr tt, (Index.invoke env c w).2)
     | Index.ApproveVendorWithdrawal id isLive =>
         Withdrawals.approveVendorWithdrawal env id isLive w
         = (inr tt, (Index.invoke env c w).2)
     | Index.RequestRefund data =>
         Refunds.requestRefund env data w = (inr tt, (Index.invoke env c w).2)
     | Index.RejectRefundRequest orderId reason =>
         Refunds.rejectRefundRequest env orderId reason w
         = (inr tt, (Index.invoke env c w).2)
     | Index.ApproveRefundRequest data =>
         Refunds.approveRefundRequest env data w = (inr tt, (Index.invoke env c w).2)
     | Index.AddReferralForVendor vendorId referredCustomerId =>
         Referrals.addReferralForVendor env vendorId referredCustomerId w
         = (inr tt, (Index.invoke env c w).2)
     | Index.UpdateReferralPointsOnPurchase vendorId referredCustomerId orderId =>
         Referrals.updateReferralPointsOnPurchase env vendorId referredCustomerId orderId w
         = (inr tt, (Index.invoke env c w).2)
     end.
Proof.
  destruct (Index.invoke env c w) as [[e|] w'] eqn:H.
  - left. eapply invoke_failed. exact H.
  - right. destruct c; cbn [Index.invoke] in H; unfold Index.outcome in H;
      match type of H with
      | context [?h env ?a ?b ?c w] => destruct (h env a b c w) as [[e0|r] w0]
      | context [?h env ?a ?b w] => destruct (h env a b w) as [[e0|r] w0]
      | context [?h env ?a w] => destruct (h env a w) as [[e0|r] w0]
      end; cbn in H; try discriminate; injection H as <-;
      try destruct r; cbn; eauto.
Qed.

Lemma sameAmounts_refl (o : Order.IncomingOrder) : sameAmounts o o.
Proof. repeat split. Qed.

Lemma sameAmounts_trans (a b c : Order.IncomingOrder) :
  sameAmounts a b -> sameAmounts b c -> sameAmounts a c.
Proof.
  unfold sameAmounts. intros H1 H2.
  repeat match goal with H : _ /\ _ |- _ => destruct H end.
  repeat split; congruence.
Qed.



(** One call keeps every persisted order, with its amounts. *)
Lemma invoke_keeps_orders env c w oid od :
  orders (db w) !! oid = Some od ->
  exists od',
    orders (db (Index.invoke env c w).2) !! oid = Some od'
    /\ sameAmounts (Order.order od) (Order.order od').
Proof.
  intros Hod.
  destruct (invoke_cases env c w) as [->|H];
    [exists od; split; [exact Hod|apply sameAmounts_refl]|].
  destruct c.
  - apply createOrder_db in H as (v & v' & od0 & Hnone & _ & _ & _ & _ & _ & ->). cbn.
    rewrite lookup_insert_ne by congruence.
    exists od. split; [exact Hod|apply sameAmounts_refl].
  - destruct H as (code & H). apply generateCode_db in H as (od0 & Hod0 & ->). cbn.
    destruct (decide (orderId = oid)) as [->|Hne].
    + rewrite lookup_insert_eq. eexists. split; [reflexivity|]. cbn.
      rewrite Hod in Hod0. injection Hod0 as <-. apply sameAmounts_refl.
    + rewrite lookup_insert_ne by exact Hne.
      exists od. split; [exact Hod|apply sameAmounts_refl].
  - apply confirm_db in H as (od0 & v & Hod0 & _ & _ & ->). cbn.
    destruct (decide (Orders.orderId data = oid)) as [Heq|Hne].
    + rewrite Heq in *. rewrite lookup_insert_eq. eexists. split; [reflexivity|]. cbn.
      rewrite Hod in Hod0. injection Hod0 as <-. repeat split.
    + rewrite lookup_insert_ne by exact Hne.
      exists od. split; [exact Hod|apply sameAmounts_refl].
  - apply requestWithdrawal_db in H as (v & wd & _ & _ & _ & _ & ->).
    exists od. split; [exact Hod|apply sameAmounts_refl].
  - apply rejectWithdrawal_db in H as (wd & v & wd' & _ & _ & _ & _ & _ & ->).
    exists od. split; [exact Hod|apply sameAmounts_refl].
  - apply approveWithdrawal_db in H
      as (wd & v & wd' & v' & ref & _ & _ & _ & _ & _ & _ & _ & _ & _ & ->).
    exists od. split; [exact Hod|apply sameAmounts_refl].
  - apply requestRefund_db in H as (oid' & rd & _ & _ & _ & ->).
    exists od. split; [exact Hod|apply sameAmounts_refl].
  - apply rejectRefund_db in H as (rd & rd' & _ & _ & _ & ->).
    exists od. split; [exact Hod|apply sameAmounts_refl].
  - apply approveRefund_db in H
      as (rd & rd' & u & u' & v & v' & ref & _ & _ & _ & _ & _ & _ & _ & ->).
    exists od. split; [exact Hod|apply sameAmounts_refl].
  - apply addReferral_db in H as (r' & ->).
    exists od. split; [exact Hod|apply sameAmounts_refl].
  - apply purchase_db in H as (r' & ->).
    exists od. split; [exact Hod|apply sameAmounts_refl].
Qed.

(** X15. A persisted order is never removed and its amounts never change:
    whatever calls of the order, withdrawal, refund and referral
    functions follow (a second settlement for its id, the generation of
    codes, the confirmation, refunds), the order is still stored with
    the ids, items, subtotal, fees, commission, earnings, paid total,
    payment reference and creation time it was stored with. *)
Theorem persisted_order_amounts_never_change calls w oid od :
  orders (db w) !! oid = Some od ->
  exists od',
    orders (db (Index.replay calls w)) !! oid = Some od'
    /\ sameAmounts (Order.order od) (Order.order od').
Proof.
  revert w od. induction calls as [|[env c] calls IH]; intros w od Hod.
  - exists od. split; [exact Hod|apply sameAmounts_refl].
  - cbn [Index.replay].
    destruct (invoke_keeps_orders env c w oid od Hod) as (od1 & Hod1 & Hs1).
    destruct (IH _ _ Hod1) as (od' & Hod' & Hs').
    exists od'. split; [exact Hod'|]. eapply sameAmounts_trans; eassumption.
Qed.

(** One call keeps every user and extends no ledger but at its end. *)
Lemma invoke_extends_ledgers env c w id v :
  users (db w) !! id = Some v ->
  exists v',
    users (db (Index.invoke env c w).2) !! id = Some v'
    /\ ledgerOf v `prefix_of` ledgerOf v'.
Proof.
  intros Hv.
  assert (Hsame : exists v', users (db w) !! id = Some v'
                             /\ ledgerOf v `prefix_of` ledgerOf v')
    by (exists v; split; [exact Hv|reflexivity]).
  destruct (invoke_cases env c w) as [->|H]; [exact Hsame|].
  destruct c.
  - apply createOrder_db in H as (v0 & v' & od0 & _ & Hv0 & _ & _ & _ & Hpre & ->). cbn.
    destruct (decide (Order.vendorId (Orders.order data) = id)) as [Heq|Hne].
    + rewrite Heq in *. rewrite lookup_insert_eq. exists v'. split; [reflexivity|].
      rewrite Hv in Hv0. injection Hv0 as <-. exact Hpre.
    + rewrite lookup_insert_ne by exact Hne. exact Hsame.
  - destruct H as (code & H). apply generateCode_db in H as (od0 & _ & ->). exact Hsame.
  - apply confirm_db in H as (od0 & v0 & _ & Hv0 & _ & ->). cbn.
    destruct (decide (Orders.vendorId data = id)) as [Heq|Hne].
    + rewrite Heq in *. rewrite lookup_insert_eq. eexists. split; [reflexivity|].
      rewrite Hv in Hv0. injection Hv0 as <-. reflexivity.
    + rewrite lookup_insert_ne by exact Hne. exact Hsame.
  - apply requestWithdrawal_db in H as (v0 & wd & Hv0 & _ & _ & _ & ->). cbn.
    destruct (decide (Withdrawals.vendorId data = id)) as [Heq|Hne].
    + rewrite Heq in *. rewrite lookup_insert_eq. eexists. split; [reflexivity|].
      rewrite Hv in Hv0. injection Hv0 as <-. reflexivity.
    + rewrite lookup_insert_ne by exact Hne. exact Hsame.
  - apply rejectWithdrawal_db in H as (wd & v0 & wd' & _ & _ & Hv0 & _ & _ & ->). cbn.
    destruct (decide (Withdrawal.vendorId wd = id)) as [Heq|Hne].
    + rewrite Heq in *. rewrite lookup_insert_eq. eexists. split; [reflexivity|].
      rewrite Hv in Hv0. injection Hv0 as <-. reflexivity.
    + rewrite lookup_insert_ne by exact Hne. exact Hsame.
  - apply approveWithdrawal_db in H
      as (wd & v0 & wd' & v' & ref & _ & _ & Hv0 & _ & _ & _ & _ & _ & Hl & ->). cbn.
    destruct (decide (Withdrawal.vendorId wd = id)) as [Heq|Hne].
    + rewrite Heq in *. rewrite lookup_insert_eq. exists v'. split; [reflexivity|].
      rewrite Hv in Hv0. injection Hv0 as <-. rewrite Hl. apply prefix_app_r. reflexivity.
    + rewrite lookup_insert_ne by exact Hne. exact Hsame.
  - apply requestRefund_db in H as (oid' & rd & _ & _ & _ & ->). exact Hsame.
  - apply rejectRefund_db in H as (rd & rd' & _ & _ & _ & ->). exact Hsame.
  - apply approveRefund_db in H
      as (rd & rd' & u & u' & v0 & v' & ref & _ & _ & _ & Hu & Hv0 & Hlu & Hlv & ->). cbn.
    destruct (decide (Refund.vendorId rd = id)) as [Heq|Hne].
    + rewrite Heq in *. rewrite lookup_insert_eq. exists v'. split; [reflexivity|].
      rewrite Hv in Hv0. injection Hv0 as <-. rewrite Hlv. apply prefix_app_r. reflexivity.
    + rewrite lookup_insert_ne by exact Hne.
      destruct (decide (Refunds.userId data = id)) as [Heq'|Hne'].
      * rewrite Heq' in *. rewrite lookup_insert_eq. exists u'. split; [reflexivity|].
        rewrite Hv in Hu. injection Hu as <-. rewrite Hlu. apply prefix_app_r. reflexivity.
      * rewrite lookup_insert_ne by exact Hne'. exact Hsame.
  - apply addReferral_db in H as (r' & ->). exact Hsame.
  - apply purchase_db in H as (r' & ->). exact Hsame.
Qed.

(** X16. The ledger is append-only: whatever calls of the order, withdrawal,
    refund and referral functions follow, a user's document is still
    there and [wallet.transactions] still starts with the entries it
    had, in their order; none of these handlers removes, rewrites or
    reorders a ledger entry. *)
Theorem ledger_is_append_only calls w id v :
  users (db w) !! id = Some v ->
  exists v',
    users (db (Index.replay calls w)) !! id = Some v'
    /\ ledgerOf v `prefix_of` ledgerOf v'.
Proof.
  revert w v. induction calls as [|[env c] calls IH]; intros w v Hv.
  - exists v. split; [exact Hv|reflexivity].
  - cbn [Index.replay].
    destruct (invoke_extends_ledgers env c w id v Hv) as (v1 & Hv1 & Hp1).
    destruct (IH _ _ Hv1) as (v' & Hv' & Hp').
    exists v'. split; [exact Hv'|]. etrans; eassumption.
Qed.

(** One call leaves a decided refund request as it is. *)
Lemma invoke_keeps_decided_refund env c w oid rd :
  refundRequests (db w) !! oid = Some rd ->
  Refund.status rd <> pending ->
  refundRequests (db (Index.invoke env c w).2) !! oid = Some rd.
Proof.
  intros Hrd Hst.
  destruct (invoke_cases env c w) as [->|H]; [exact Hrd|].
  destruct c.
  - apply createOrder_db in H as (v0 & v' & od0 & _ & _ & _ & _ & _ & _ & ->). exact Hrd.
  - destruct H as (code & H). apply generateCode_db in H as (od0 & _ & ->). exact Hrd.
  - apply confirm_db in H as (od0 & v0 & _ & _ & _ & ->). exact Hrd.
  - apply requestWithdrawal_db in H as (v0 & wd & _ & _ & _ & _ & ->). exact Hrd.
  - apply rejectWithdrawal_db in H as (wd & v0 & wd' & _ & _ & _ & _ & _ & ->). exact Hrd.
  - apply approveWithdrawal_db in H
      as (wd & v0 & wd' & v' & ref & _ & _ & _ & _ & _ & _ & _ & _ & _ & ->). exact Hrd.
  - apply requestRefund_db in H as (oid' & rd' & _ & Hnone & _ & ->). cbn.
    rewrite lookup_insert_ne by congruence. exact Hrd.
  - apply rejectRefund_db in H as (rd0 & rd' & Hrd0 & Hp & _ & ->). cbn.
    rewrite lookup_insert_ne by congruence. exact Hrd.
  - apply approveRefund_db in H
      as (rd0 & rd' & u & u' & v0 & v' & ref & Hrd0 & Hp & _ & _ & _ & _ & _ & ->). cbn.
    rewrite lookup_insert_ne by congruence. exact Hrd.
  - apply addReferral_db in H as (r' & ->). exact Hrd.
  - apply purchase_db in H as (r' & ->). exact Hrd.
Qed.

(** X17. A refund request that was approved or rejected is final: whatever
    calls of the order, withdrawal, refund and referral functions
    follow, its document is the one that was stored, so it is not
    approved after a rejection, not paid a second time and not replaced
    by a new request for the order. *)
Theorem decided_refund_is_final calls w oid rd :
  refundRequests (db w) !! oid = Some rd ->
  Refund.status rd <> pending ->
  refundRequests (db (Index.replay calls w)) !! oid = Some rd.
Proof.
  revert w. induction calls as [|[env c] calls IH]; intros w Hrd Hst.
  - exact Hrd.
  - cbn [Index.replay]. apply IH; [|exact Hst].
    apply invoke_keeps_decided_refund; assumption.
Qed.

(** One call leaves a decided withdrawal request as it is, unless the
    store hands out its id again. *)
Lemma invoke_keeps_decided_withdrawal env c w id wd :
  withdrawalRequest (db w) !! id = Some wd ->
  Withdrawal.status wd <> pending ->
  autoId env <> id ->
  withdrawalRequest (db (Index.invoke env c w).2) !! id = Some wd.
Proof.
  intros Hwd Hst Hfresh.
  destruct (invoke_cases env c w) as [->|H]; [exact Hwd|].
  destruct c.
  - apply createOrder_db in H as (v0 & v' & od0 & _ & _ & _ & _ & _ & _ & ->). exact Hwd.
  - destruct H as (code & H). apply generateCode_db in H as (od0 & _ & ->). exact Hwd.
  - apply confirm_db in H as (od0 & v0 & _ & _ & _ & ->). exact Hwd.
  - apply requestWithdrawal_db in H as (v0 & wd0 & _ & _ & _ & _ & ->). cbn.
    rewrite lookup_insert_ne by exact Hfresh. exact Hwd.
  - apply rejectWithdrawal_db in H as (wd0 & v0 & wd' & Hwd0 & Hp & _ & _ & _ & ->). cbn.
    rewrite lookup_insert_ne by congruence. exact Hwd.
  - apply approveWithdrawal_db in H
      as (wd0 & v0 & wd' & v' & ref & Hwd0 & Hp & _ & _ & _ & _ & _ & _ & _ & ->). cbn.
    rewrite lookup_insert_ne by congruence. exact Hwd.
  - apply requestRefund_db in H as (oid' & rd' & _ & _ & _ & ->). exact Hwd.
  - apply rejectRefund_db in H as (rd0 & rd' & _ & _ & _ & ->). exact Hwd.
  - apply approveRefund_db in H
      as (rd0 & rd' & u & u' & v0 & v' & ref & _ & _ & _ & _ & _ & _ & _ & ->). exact Hwd.
  - apply addReferral_db in H as (r' & ->). exact Hwd.
  - apply purchase_db in H as (r' & ->). exact Hwd.
Qed.

(** X18. A withdrawal request that was approved or rejected is final:
    whatever calls of the order, withdrawal, refund and referral
    functions follow, as long as the store does not hand out its id to a
    new request, its document is the one that was stored, so the
    reserved amount is not given back after a payout and not paid out
    after it was given back. *)
Theorem decided_withdrawal_is_final calls w id wd :
  withdrawalRequest (db w) !! id = Some wd ->
  Withdrawal.status wd <> pending ->
  Forall (fun ec => autoId ec.1 <> id) calls ->
  withdrawalRequest (db (Index.replay calls w)) !! id = Some wd.
Proof.
  intros Hwd Hst Hf. revert w Hwd.
  induction Hf as [|[env c] calls Hc _ IH]; intros w Hwd.
  - exact Hwd.
  - cbn [Index.replay]. apply IH.
    apply invoke_keeps_decided_withdrawal; assumption.
Qed.

End Histories.

(** ** The invariants on the marketplace's flows *)

Section FlowFacts.
Import Num.



(** The scenario's order through delivery and refund. *)
Lemma persisted_order_amounts_never_change_witness :
  exists od od',
    orders (db Scenario.world1) !! "order-1" = Some od
    /\ orders (db (Index.replay Flows.afterSettlement Scenario.world1)) !! "order-1"
       = Some od'
    /\ sameAmounts (Order.order od) (Order.order od').
Proof.
  destruct (orders (db Scenario.world1) !! "order-1") as [od|] eqn:Ho;
    [|vm_compute in Ho; discriminate].
  destruct (persisted_order_amounts_never_change Flows.afterSettlement Scenario.world1
              "order-1" od Ho) as (od' & Ho' & Hs).
  exists od, od'. split; [reflexivity|]. split; assumption.
Defined.

(** The vendor's ledger from the settlement on. *)
Lemma ledger_is_append_only_witness :
  exists v v',
    users (db Scenario.world1) !! "vendor-1" = Some v
    /\ users (db (Index.replay Flows.afterSettlement Scenario.world1)) !! "vendor-1"
       = Some v'
    /\ ledgerOf v `prefix_of` ledgerOf v'.
Proof.
  destruct (users (db Scenario.world1) !! "vendor-1") as [v|] eqn:Hv;
    [|vm_compute in Hv; discriminate].
  destruct (ledger_is_append_only Flows.afterSettlement Scenario.world1
              "vendor-1" v Hv) as (v' & Hv' & Hp).
  exists v, v'. split; [reflexivity|]. split; assumption.
Defined.

(** The approved refund of order-2. *)
Lemma decided_refund_is_final_witness :
  exists rd,
    refundRequests (db Flows.world8) !! "order-2" = Some rd
    /\ Refund.status rd = approved
    /\ refundRequests (db (Index.replay Flows.reopenRefund Flows.world8)) !! "order-2"
       = Some rd.
Proof.
  destruct (refundRequests (db Flows.world8) !! "order-2") as [rd|] eqn:Hrd;
    [|vm_compute in Hrd; discriminate].
  assert (Hst : Refund.status rd = approved)
    by (vm_compute in Hrd; injection Hrd as <-; reflexivity).
  exists rd. split; [reflexivity|]. split; [exact Hst|].
  apply (decided_refund_is_final Flows.reopenRefund Flows.world8 "order-2" rd Hrd).
  rewrite Hst. discriminate.
Defined.

(** The paid withdrawal of 4000. *)
Lemma decided_withdrawal_is_final_witness :
  exists wd,
    withdrawalRequest (db Flows.world9) !! "withdrawal-1" = Some wd
    /\ Withdrawal.status wd = approved
    /\ withdrawalRequest (db (Index.replay Flows.reopenWithdrawal Flows.world9))
         !! "withdrawal-1" = Some wd.
Proof.
  destruct (withdrawalRequest (db Flows.world9) !! "withdrawal-1") as [wd|] eqn:Hwd;
    [|vm_compute in Hwd; discriminate].
  assert (Hst : Withdrawal.status wd = approved)
    by (vm_compute in Hwd; injection Hwd as <-; reflexivity).
  exists wd. split; [reflexivity|]. split; [exact Hst|].
  apply (decided_withdrawal_is_final Flows.reopenWithdrawal Flows.world9
           "withdrawal-1" wd Hwd).
  - rewrite Hst. discriminate.
  - unfold Flows.reopenWithdrawal. repeat constructor; cbn; discriminate.
Defined.

(** The order refunded before its delivery: the code 4842 is right, but
    the refund took the earnings out of the pending balance. *)
Lemma release_needs_pending_balance_witness :
  exists w',
    Orders.confirmOrderWithOTP Scenario.env1 (Scenario.confirmWith "4842") Flows.world7
    = (inl (HttpsErrorWith internal "OTP confirmation failed"
              (HttpsError failed_precondition "Pending balance too low.")), w')
    /\ db w' = db Flows.world7.
Proof.
  destruct (orders (db Flows.world7) !! "order-1") as [od|] eqn:Ho;
    [|vm_compute in Ho; discriminate].
  destruct (users (db Flows.world7) !! "vendor-1") as [v|] eqn:Hv;
    [|vm_compute in Hv; discriminate].
  apply (release_needs_pending_balance Scenario.env1 (Scenario.confirmWith "4842")
           Flows.world7 od v); try assumption.
  - repeat split; discriminate.
  - vm_compute in Ho. injection Ho as <-. reflexivity.
  - vm_compute in Ho. injection Ho as <-. discriminate.
  - vm_compute in Ho. injection Ho as <-. reflexivity.
  - vm_compute in Ho, Hv. injection Ho as <-. injection Hv as <-. reflexivity.
Defined.

End FlowFacts.

(** ** One-time codes *)

Section OtpFacts.
Import Num.

Lemma pretty_N_go_nonempty (x : N) (s : string) : s <> "" -> pretty_N_go x s <> "".
Proof.
  revert s. induction (N.lt_wf_0 x) as [x _ IH]; intros s Hs.
  destruct (decide (x = 0%N)) as [->|Hx].
  - rewrite pretty_N_go_0. exact Hs.
  - rewrite pretty_N_go_step by lia. apply IH; [apply N.div_lt; lia|discriminate].
Qed.

(** The decimal form of an integer is not the empty string. *)
Lemma pretty_Z_nonempty (x : Z) : pretty x <> "".
Proof.
  assert (HN : forall p, pretty (N.pos p) <> "").
  { intros p. unfold pretty, pretty_N. destruct (decide _); [discriminate|].
    rewrite pretty_N_go_step by lia. apply pretty_N_go_nonempty. discriminate. }
  destruct x as [|p|p]; unfold pretty, pretty_Z.
  - discriminate.
  - apply HN.
  - discriminate.
Qed.

(** The decimal form of an integer from 100000 to 999999 has six
    characters. *)
Lemma pretty_six_digits (n : Z) :
  100000 <= n <= 999999 -> String.length (pretty n) = 6%nat.
Proof.
  intros Hn. destruct n as [|p|p]; try lia.
  unfold pretty, pretty_Z, pretty_positive, pretty, pretty_N.
  destruct (decide _); [lia|].
  assert (H0 : (0 < N.pos p)%N) by lia.
  assert (H1 : (0 < N.pos p / 10)%N)
    by (apply N.div_str_pos; lia).
  assert (H2 : (0 < N.pos p / 10 / 10)%N)
    by (rewrite N.Div0.div_div; apply N.div_str_pos; lia).
  assert (H3 : (0 < N.pos p / 10 / 10 / 10)%N)
    by (rewrite !N.Div0.div_div; apply N.div_str_pos; lia).
  assert (H4 : (0 < N.pos p / 10 / 10 / 10 / 10)%N)
    by (rewrite !N.Div0.div_div; apply N.div_str_pos; lia).
  assert (H5 : (0 < N.pos p / 10 / 10 / 10 / 10 / 10)%N)
    by (rewrite !N.Div0.div_div; apply N.div_str_pos; lia).
  assert (H6 : (N.pos p / 10 / 10 / 10 / 10 / 10 / 10 = 0)%N)
    by (rewrite !N.Div0.div_div; apply N.div_small; lia).
  rewrite (pretty_N_go_step _ _ H0), (pretty_N_go_step _ _ H1),
    (pretty_N_go_step _ _ H2), (pretty_N_go_step _ _ H3),
    (pretty_N_go_step _ _ H4), (pretty_N_go_step _ _ H5), H6, pretty_N_go_0.
  reflexivity.
Qed.

(** X22. [generateOtp] returns six decimal digits' worth: for a draw of
    [Math.random()] in [0, 1) the code is the decimal form of an integer
    from 100000 to 999999, six characters long. *)
Theorem generateOtp_six_digits (random : number) :
  (0 <= random < 1)%Q ->
  exists n,
    Otp.generateOtp random = pretty n
    /\ 100000 <= n <= 999999
    /\ String.length (Otp.generateOtp random) = 6%nat.
Proof.
  intros [Hlo Hhi]. unfold Otp.generateOtp.
  assert (Hn : 100000 <= Qfloor (100000 + random * 900000) <= 999999).
  { split.
    - assert (Hge : (100000 <= 100000 + random * 900000)%Q) by lra.
      apply Qfloor_resp_le in Hge. exact Hge.
    - assert (Hlt : (inject_Z (Qfloor (100000 + random * 900000)) < inject_Z 1000000)%Q).
      { eapply Qle_lt_trans; [apply Qfloor_le|].
        change (inject_Z 1000000) with 1000000%Q. lra. }
      rewrite <- Zlt_Qlt in Hlt. lia. }
  eexists. split; [reflexivity|]. split; [exact Hn|].
  apply pretty_six_digits. exact Hn.
Qed.

Lemma generateOtp_six_digits_witness :
  exists n,
    Otp.generateOtp 0.4269 = pretty n
    /\ 100000 <= n <= 999999
    /\ String.length (Otp.generateOtp 0.4269) = 6%nat.
Proof. apply (generateOtp_six_digits 0.4269). split; [discriminate|reflexivity]. Defined.

(** X23. A code that was sent verifies once: when the mail is accepted, the
    code verifies at any moment up to its expiry, five minutes after it
    was generated; the verification deletes it, so that a second one
    finds nothing. *)
Theorem otp_verifies_once env env' env'' brevo email codes :
  email <> "" ->
  brevo email (Otp.generateOtp (random env)) = true ->
  now env' <= now env + 300000 ->
  exists codes1,
    Otp.sendOtpToEmail env brevo email codes = (inr tt, codes1)
    /\ Otp.verifyOtp env' email (Otp.generateOtp (random env)) codes1
       = (inr tt, delete email codes)
    /\ Otp.verifyOtp env'' email (Otp.generateOtp (random env)) (delete email codes)
       = (inl (HttpsError not_found "OTP not found."), delete email codes).
Proof.
  intros He Hb Ht. apply blank_false in He.
  assert (Ho : blank (Otp.generateOtp (random env)) = false)
    by (apply blank_false, pretty_Z_nonempty).
  unfold Otp.sendOtpToEmail. rewrite He, Hb.
  eexists. split; [reflexivity|]. split.
  - unfold Otp.verifyOtp. rewrite He, Ho. cbn [orb].
    rewrite lookup_insert_eq. cbn [Otp.code Otp.expiresAt].
    rewrite String.eqb_refl. cbn [negb].
    rewrite bool_decide_eq_false_2 by (unfold Otp.OTP_EXPIRY_MINUTES; lia).
    rewrite delete_insert_eq. reflexivity.
  - unfold Otp.verifyOtp. rewrite He, Ho. cbn [orb].
    rewrite lookup_delete_eq. reflexivity.
Qed.

Lemma otp_verifies_once_witness :
  exists codes1,
    Otp.sendOtpToEmail Scenario.env0 (fun _ _ => true) "ada@example.com" ∅
    = (inr tt, codes1)
    /\ Otp.verifyOtp Scenario.env0 "ada@example.com"
         (Otp.generateOtp (random Scenario.env0)) codes1
       = (inr tt, delete "ada@example.com" ∅)
    /\ Otp.verifyOtp Scenario.env1 "ada@example.com"
         (Otp.generateOtp (random Scenario.env0)) (delete "ada@example.com" ∅)
       = (inl (HttpsError not_found "OTP not found."), delete "ada@example.com" ∅).
Proof.
  apply (otp_verifies_once Scenario.env0 Scenario.env0 Scenario.env1 (fun _ _ => true)
           "ada@example.com" ∅).
  - discriminate.
  - reflexivity.
  - cbn. lia.
Defined.

(** X24. A wrong guess costs nothing: whatever is entered for an address
    whose code is something else, however often, the collection is as it
    was, so the code still verifies; there is no count of attempts. *)
Theorem wrong_guesses_keep_the_code env email doc guesses codes :
  codes !! email = Some doc ->
  Forall (fun guess => guess <> Otp.code doc) guesses ->
  foldl (fun codes guess => (Otp.verifyOtp env email guess codes).2) codes guesses
  = codes.
Proof.
  intros Hd Hg. induction Hg as [|guess guesses Hne _ IH]; [reflexivity|].
  cbn [foldl].
  assert (Hstep : (Otp.verifyOtp env email guess codes).2 = codes).
  { unfold Otp.verifyOtp. destruct (blank email || blank guess); [reflexivity|].
    rewrite Hd. destruct (String.eqb (Otp.code doc) guess) eqn:E; [|reflexivity].
    apply String.eqb_eq in E. congruence. }
  rewrite Hstep. exact IH.
Qed.

Lemma wrong_guesses_keep_the_code_witness :
  foldl (fun codes guess =>
           (Otp.verifyOtp Scenario.env0 "ada@example.com" guess codes).2)
    {[ "ada@example.com" :=
         {| Otp.code := "484210"; Otp.expiresAt := 1750000300000;
            Otp.createdAt := 1750000000000 |} ]}
    ["000000"; "000001"; ""; "48421"]
  = {[ "ada@example.com" :=
         {| Otp.code := "484210"; Otp.expiresAt := 1750000300000;
            Otp.createdAt := 1750000000000 |} ]}.
Proof.
  apply (wrong_guesses_keep_the_code Scenario.env0 "ada@example.com"
           {| Otp.code := "484210"; Otp.expiresAt := 1750000300000;
              Otp.createdAt := 1750000000000 |}).
  - apply lookup_singleton_eq.
  - repeat constructor; discriminate.
Defined.

(** X25. The scheduled cleaning and the verification agree on what is
    expired: at one and the same moment, [cleanExpiredOtps] removes the
    code of an address exactly when [verifyOtp] with the right code
    would answer [deadline-exceeded], and leaves the document as it is
    otherwise. *)
Theorem cleaning_agrees_with_verification env email doc codes :
  email <> "" -> Otp.code doc <> "" ->
  codes !! email = Some doc ->
  ((Otp.verifyOtp env email (Otp.code doc) codes).1
   = inl (HttpsError deadline_exceeded "OTP has expired.")
   /\ Otp.cleanExpiredOtps env codes !! email = None)
  \/ ((Otp.verifyOtp env email (Otp.code doc) codes).1 = inr tt
      /\ Otp.cleanExpiredOtps env codes !! email = Some doc).
Proof.
  intros He Hc Hd. apply blank_false in He, Hc.
  unfold Otp.verifyOtp, Otp.cleanExpiredOtps. rewrite He, Hc. cbn [orb].
  rewrite Hd, String.eqb_refl. cbn [negb].
  destruct (decide (Otp.expiresAt doc < now env)) as [Hexp|Hexp].
  - left. rewrite bool_decide_eq_true_2 by exact Hexp. split; [reflexivity|].
    apply lookup_difference_None. right.
    exists doc. apply map_lookup_filter_Some. split; [exact Hd|exact Hexp].
  - right. rewrite bool_decide_eq_false_2 by exact Hexp. split; [reflexivity|].
    apply lookup_difference_Some. split; [exact Hd|].
    apply map_lookup_filter_None. right. intros doc' Hd'.
    rewrite Hd in Hd'. injection Hd' as <-. exact Hexp.
Qed.

Lemma cleaning_agrees_with_verification_witness :
  ((Otp.verifyOtp Scenario.env1 "ada@example.com" "484210"
      {[ "ada@example.com" :=
           {| Otp.code := "484210"; Otp.expiresAt := 1750000300000;
              Otp.createdAt := 1750000000000 |} ]}).1
   = inl (HttpsError deadline_exceeded "OTP has expired.")
   /\ Otp.cleanExpiredOtps Scenario.env1
        {[ "ada@example.com" :=
             {| Otp.code := "484210"; Otp.expiresAt := 1750000300000;
                Otp.createdAt := 1750000000000 |} ]} !! "ada@example.com" = None)
  \/ ((Otp.verifyOtp Scenario.env1 "ada@example.com" "484210"
         {[ "ada@example.com" :=
              {| Otp.code := "484210"; Otp.expiresAt := 1750000300000;
                 Otp.createdAt := 1750000000000 |} ]}).1 = inr tt
      /\ Otp.cleanExpiredOtps Scenario.env1
           {[ "ada@example.com" :=
                {| Otp.code := "484210"; Otp.expiresAt := 1750000300000;
                   Otp.createdAt := 1750000000000 |} ]} !! "ada@example.com"
         = Some {| Otp.code := "484210"; Otp.expiresAt := 1750000300000;
                   Otp.createdAt := 1750000000000 |}).
Proof.
  apply (cleaning_agrees_with_verification Scenario.env1 "ada@example.com"
           {| Otp.code := "484210"; Otp.expiresAt := 1750000300000;
              Otp.createdAt := 1750000000000 |}).
  - discriminate.
  - discriminate.
  - apply lookup_singleton_eq.
Defined.

End OtpFacts.

(** ** Rewards *)

Section RewardFacts.
Import Num.


Lemma hours_below_twelve (z : Z) :
  z < 43200000 -> (inject_Z z / Rewards.hour < 12)%Q.
Proof.
  intros Hz. change Rewards.hour with 3600000%Q.
  unfold Qlt, Qdiv, Qmult, Qinv. cbn. lia.
Qed.



(** X26. A reward that was added can be used once, whatever the request said
    of its state: the reward is stored as unused and active, with the
    time of the call as its creation time, even when the data submitted
    say otherwise; the first [markRewardAsUsed] for the id returned
    succeeds and records the order; every later one is refused
    ([failed-precondition], surfaced as [internal]) and changes
    nothing. *)
Theorem added_reward_is_used_once env env' env'' rewardData orderId orderId' rewards :
  autoId env <> "" -> orderId <> "" -> orderId' <> "" ->
  exists rewards1 rewards2,
    Rewards.addReward env (Some rewardData) rewards = (inr (autoId env), rewards1)
    /\ rewards1 !! autoId env = Some (Rewards.stamped rewardData (now env))
    /\ Rewards.markRewardAsUsed env' (autoId env) orderId rewards1 = (inr tt, rewards2)
    /\ rewards2 !! autoId env
       = Some (Rewards.used (Rewards.stamped rewardData (now env)) (now env') orderId)
    /\ Rewards.markRewardAsUsed env'' (autoId env) orderId' rewards2
       = (inl (HttpsErrorWith internal "Failed to mark reward as used"
                 (HttpsError failed_precondition "Reward has already been used")),
          rewards2).
Proof.
  intros Hid Ho Ho'. apply blank_false in Hid, Ho, Ho'.
  eexists _, _. split; [reflexivity|].
  split; [apply lookup_insert_eq|].
  split; [|split].
  - unfold Rewards.markRewardAsUsed. rewrite Hid, Ho. cbn [orb].
    rewrite lookup_insert_eq. cbn [Rewards.stamped Rewards.isUsed].
    rewrite bool_decide_eq_false_2 by discriminate. reflexivity.
  - apply lookup_insert_eq.
  - unfold Rewards.markRewardAsUsed. rewrite Hid, Ho'. cbn [orb].
    rewrite lookup_insert_eq. cbn [Rewards.used Rewards.isUsed].
    rewrite bool_decide_eq_true_2 by reflexivity. reflexivity.
Qed.

(** A reward submitted as already used. *)
Lemma added_reward_is_used_once_witness :
  exists rewards1 rewards2,
    Rewards.addReward Scenario.env0
      (Some {| Rewards.userId := Some "customer-1";
               Rewards.rewardType := Some "free_delivery_350";
               Rewards.referrerVendorId := Some "vendor-1";
               Rewards.createdAt := None;
               Rewards.expiresAt := Some 1750600000000;
               Rewards.isUsed := Some true;
               Rewards.isActive := Some false;
               Rewards.usedAt := None;
               Rewards.appliedToOrderId := None;
               Rewards.rewardValue := Some 350%Q;
               Rewards.channel := Some "referral_signup_spin";
               Rewards.lastNotificationTime := None;
               Rewards.notificationsSent := None |}) ∅
    = (inr "withdrawal-1", rewards1)
    /\ Rewards.markRewardAsUsed Scenario.env1 "withdrawal-1" "order-1" rewards1
       = (inr tt, rewards2)
    /\ Rewards.markRewardAsUsed Scenario.envLate "withdrawal-1" "order-2" rewards2
       = (inl (HttpsErrorWith internal "Failed to mark reward as used"
                 (HttpsError failed_precondition "Reward has already been used")),
          rewards2).
Proof.
  destruct (added_reward_is_used_once Scenario.env0 Scenario.env1 Scenario.envLate
              {| Rewards.userId := Some "customer-1";
                 Rewards.rewardType := Some "free_delivery_350";
                 Rewards.referrerVendorId := Some "vendor-1";
                 Rewards.createdAt := None;
                 Rewards.expiresAt := Some 1750600000000;
                 Rewards.isUsed := Some true;
                 Rewards.isActive := Some false;
                 Rewards.usedAt := None;
                 Rewards.appliedToOrderId := None;
                 Rewards.rewardValue := Some 350%Q;
                 Rewards.channel := Some "referral_signup_spin";
                 Rewards.lastNotificationTime := None;
                 Rewards.notificationsSent := None |}
              "order-1" "order-2" ∅)
    as (r1 & r2 & H1 & _ & H2 & _ & H3); try discriminate.
  exists r1, r2. split; [exact H1|]. split; [exact H2|exact H3].
Defined.

(** One call or run leaves a used reward as it is, unless the store
    hands out its id again. *)
Lemma invoke_keeps_used_reward env c rewards id reward :
  rewards !! id = Some reward ->
  Rewards.isUsed reward = Some true ->
  autoId env <> id ->
  Rewards.invoke env c rewards !! id = Some reward.
Proof.
  intros Hr Hu Hfresh. destruct c; cbn [Rewards.invoke].
  - unfold Rewards.addReward. destruct rewardData as [data|]; cbn; [|exact Hr].
    rewrite lookup_insert_ne by exact Hfresh. exact Hr.
  - unfold Rewards.markRewardAsUsed.
    destruct (blank rewardId || blank orderId); cbn; [exact Hr|].
    destruct (rewards !! rewardId) as [d|] eqn:Hd; cbn; [|exact Hr].
    destruct (bool_decide (Rewards.isUsed d = Some true)) eqn:Hused; cbn; [exact Hr|].
    apply bool_decide_eq_false in Hused.
    rewrite lookup_insert_ne by congruence. exact Hr.
  - cbn. rewrite lookup_fmap, Hr. cbn. f_equal.
    unfold Rewards.checked, Rewards.selected. rewrite Hu.
    rewrite bool_decide_eq_false_2 by discriminate. reflexivity.
Qed.

(** X27. A used reward is final: whatever calls of [addReward] and
    [markRewardAsUsed] and runs of [checkExpiringRewards] follow, as
    long as the store does not hand out its id to a new reward, its
    document is the one that was stored: it is not applied to a second
    order, not made unused again and not touched by the expiry
    notices. *)
Theorem used_reward_is_final calls rewards id reward :
  rewards !! id = Some reward ->
  Rewards.isUsed reward = Some true ->
  Forall (fun ec => autoId ec.1 <> id) calls ->
  Rewards.replay calls rewards !! id = Some reward.
Proof.
  intros Hr Hu Hf. revert rewards Hr.
  induction Hf as [|[env c] calls Hc _ IH]; intros rewards Hr; [exact Hr|].
  unfold Rewards.replay. cbn [foldl]. apply IH.
  apply invoke_keeps_used_reward; assumption.
Qed.

(** The reward applied to the scenario's order. *)
Lemma used_reward_is_final_witness :
  Rewards.replay Flows.reuseReward {[ "reward-1" := Flows.usedReward ]} !! "reward-1"
  = Some Flows.usedReward.
Proof.
  apply (used_reward_is_final Flows.reuseReward {[ "reward-1" := Flows.usedReward ]}
           "reward-1" Flows.usedReward).
  - apply lookup_singleton_eq.
  - reflexivity.
  - unfold Flows.reuseReward. repeat constructor; cbn; discriminate.
Defined.

(** X29. A notified reward is not notified again within twelve hours: when a
    run sends a notice about a reward, it stamps the reward with the
    time of the run and counts the notice, and a run less than twelve
    hours later sends nothing about it and leaves it as it is. *)
Theorem one_notice_per_twelve_hours env env' rewards id reward n :
  rewards !! id = Some reward ->
  (Rewards.checked (now env) reward).1 = Some n ->
  now env <= now env' < now env + 43200000 ->
  exists reward1,
    (Rewards.checkExpiringRewards env rewards).2 !! id = Some reward1
    /\ Rewards.lastNotificationTime reward1 = Some (now env)
    /\ Rewards.notificationsSent reward1
       = Some (default 0 (Rewards.notificationsSent reward) + 1)
    /\ Rewards.checked (now env') reward1 = (None, reward1)
    /\ (Rewards.checkExpiringRewards env'
          (Rewards.checkExpiringRewards env rewards).2).2 !! id = Some reward1.
Proof.
  intros Hr Hn Ht.
  assert (H1 : Rewards.checked (now env) reward
               = (Some n, Rewards.notified reward (now env))).
  { unfold Rewards.checked in *.
    destruct (Rewards.selected (now env) reward); [|discriminate].
    destruct (Rewards.due (now env) reward); [|discriminate].
    cbn in Hn. injection Hn as <-. reflexivity. }
  assert (H2 : Rewards.checked (now env') (Rewards.notified reward (now env))
               = (None, Rewards.notified reward (now env))).
  { unfold Rewards.checked.
    destruct (Rewards.selected _ _); [|reflexivity].
    unfold Rewards.due.
    cbn [Rewards.notified Rewards.lastNotificationTime default from_option Datatypes.id].
    assert (Hlt : num_lt (inject_Z (now env' - now env) / Rewards.hour) 12 = true)
      by (apply num_lt_true, hours_below_twelve; lia).
    rewrite Hlt. reflexivity. }
  exists (Rewards.notified reward (now env)).
  assert (H3 : (Rewards.checkExpiringRewards env rewards).2 !! id
               = Some (Rewards.notified reward (now env)))
    by (cbn; rewrite lookup_fmap, Hr; cbn; rewrite H1; reflexivity).
  split; [exact H3|]. split; [reflexivity|]. split; [reflexivity|].
  split; [exact H2|].
  cbn in *. rewrite lookup_fmap, H3. cbn. rewrite H2. reflexivity.
Qed.

(** A reward that expires in 72 hours, checked now and two hours
    later. *)
Lemma one_notice_per_twelve_hours_witness :
  exists reward1,
    (Rewards.checkExpiringRewards Scenario.env0
       {[ "reward-1" :=
            {| Rewards.userId := Some "customer-1";
               Rewards.rewardType := Some "free_delivery_350";
               Rewards.referrerVendorId := None;
               Rewards.createdAt := Some 1749000000000;
               Rewards.expiresAt := Some 1750259200000;
               Rewards.isUsed := Some false;
               Rewards.isActive := Some true;
               Rewards.usedAt := None;
               Rewards.appliedToOrderId := None;
               Rewards.rewardValue := None;
               Rewards.channel := Some "admin";
               Rewards.lastNotificationTime := None;
               Rewards.notificationsSent := None |} ]}).2 !! "reward-1" = Some reward1
    /\ Rewards.lastNotificationTime reward1 = Some 1750000000000
    /\ Rewards.notificationsSent reward1 = Some 1
    /\ Rewards.checked 1750003600000 reward1 = (None, reward1).
Proof.
  destruct (one_notice_per_twelve_hours Scenario.env0 Scenario.env1
              {[ "reward-1" :=
                   {| Rewards.userId := Some "customer-1";
                      Rewards.rewardType := Some "free_delivery_350";
                      Rewards.referrerVendorId := None;
                      Rewards.createdAt := Some 1749000000000;
                      Rewards.expiresAt := Some 1750259200000;
                      Rewards.isUsed := Some false;
                      Rewards.isActive := Some true;
                      Rewards.usedAt := None;
                      Rewards.appliedToOrderId := None;
                      Rewards.rewardValue := None;
                      Rewards.channel := Some "admin";
                      Rewards.lastNotificationTime := None;
                      Rewards.notificationsSent := None |} ]}
              "reward-1" _
              {| Rewards.notice := Rewards.three_days_left;
                 Rewards.about := Some "free_delivery_350";
                 Rewards.include_external_user_ids := [Some "customer-1"] |}
              (lookup_singleton_eq _ _))
    as (reward1 & H1 & H2 & H3 & H4 & _).
  - vm_compute. reflexivity.
  - cbn. lia.
  - exists reward1. split; [exact H1|]. split; [exact H2|]. split; [exact H3|exact H4].
Defined.

End RewardFacts.

(** ** Referral points and the weekly reset *)

Section LeaderboardFacts.

(** What a signup does to the referral records: nothing when it fails;
    otherwise the vendor's record gains 10 points, in total and for the
    week, one customer and one entry, or is created with them. *)
Lemma signup_referrals env vendorId referredCustomerId w :
  let w' := (Referrals.addReferralForVendor env vendorId referredCustomerId w).2 in
  referrals (db w') = referrals (db w)
  \/ exists r',
       referrals (db w') = <[vendorId := r']> (referrals (db w))
       /\ ((exists r,
              referrals (db w) !! vendorId = Some r
              /\ Referral.totalReferralPoints r' = Referral.totalReferralPoints r + 10
              /\ Referral.weeklyReferralPoints r' = Referral.weeklyReferralPoints r + 10
              /\ Referral.referredCustomersCount r' = Referral.referredCustomersCount r + 1
              /\ Referral.successfulReferralsCount r' = Referral.successfulReferralsCount r
              /\ historyPoints r' = historyPoints r + 10)
           \/ (referrals (db w) !! vendorId = None
               /\ Referral.totalReferralPoints r' = 10
               /\ Referral.weeklyReferralPoints r' = 10
               /\ Referral.referredCustomersCount r' = 1
               /\ Referral.successfulReferralsCount r' = 0
               /\ historyPoints r' = 10)).
Proof.
  cbv zeta. unfold Referrals.addReferralForVendor.
  destruct (Num.blank _ || Num.blank _); [left; reflexivity|].
  unfold Referrals.signup. unfold_monad. cbn.
  destruct (vendors (db w) !! vendorId) as [vd|]; cbn; [|left; reflexivity].
  destruct (referrals (db w) !! vendorId) as [r|] eqn:Hr; cbn.
  - rewrite Hr. cbn. right. eexists. split; [reflexivity|]. left. exists r.
    split; [reflexivity|]. cbn. repeat (split; [reflexivity|]).
    unfold historyPoints. cbn. rewrite foldr_app. cbn.
    generalize (default [] (Referral.referralHistory r)). intros l.
    induction l as [|h l IH]; cbn; [lia|]. rewrite IH. lia.
  - right. eexists. split; [reflexivity|]. right.
    split; [reflexivity|]. cbn. repeat (split; [reflexivity|]). reflexivity.
Qed.

(** What a purchase does to the referral records: nothing when it
    fails; otherwise the vendor's record gains 40 points, in total and
    for the week, one successful referral and one entry. *)
Lemma purchase_referrals env vendorId referredCustomerId orderId w :
  let w' := (Referrals.updateReferralPointsOnPurchase env vendorId referredCustomerId
               orderId w).2 in
  referrals (db w') = referrals (db w)
  \/ exists r r',
       referrals (db w') = <[vendorId := r']> (referrals (db w))
       /\ referrals (db w) !! vendorId = Some r
       /\ Referral.totalReferralPoints r' = Referral.totalReferralPoints r + 40
       /\ Referral.weeklyReferralPoints r' = Referral.weeklyReferralPoints r + 40
       /\ Referral.referredCustomersCount r' = Referral.referredCustomersCount r
       /\ Referral.successfulReferralsCount r' = Referral.successfulReferralsCount r + 1
       /\ historyPoints r' = historyPoints r + 40.
Proof.
  cbv zeta. unfold Referrals.updateReferralPointsOnPurchase.
  destruct (Num.blank _ || Num.blank _ || Num.blank _); [left; reflexivity|].
  unfold Referrals.purchase. unfold_monad. cbn.
  destruct (referrals (db w) !! vendorId) as [r|] eqn:Hr; cbn; [|left; reflexivity].
  destruct (Referral.referralHistory r) as [history|] eqn:Hh; cbn; [|left; reflexivity].
  destruct (Referrals.hasReferralIn _ _); cbn; [|left; reflexivity].
  rewrite Hr. cbn. right. eexists r, _. split; [reflexivity|].
  split; [reflexivity|]. cbn. repeat (split; [reflexivity|]).
  unfold historyPoints. cbn. rewrite Hh. cbn. rewrite foldr_app. cbn.
  clear Hh. induction history as [|h l IH]; cbn; [lia|]. rewrite IH. lia.
Qed.

Lemma zeroWeekly_tallied (r : Referral.Doc) : tallied r -> tallied (Leaderboard.zeroWeekly r).
Proof.
  unfold tallied, historyPoints. cbn. intros (H1 & H2 & H3 & H4 & H5).
  repeat split; try assumption; lia.
Qed.

(** One event keeps the referral records adding up. *)
Lemma after_tallied e s :
  map_Forall (fun _ r => tallied r) (referrals (db s.2)) ->
  map_Forall (fun _ r => tallied r) (referrals (db (Events.after e s).2)).
Proof.
  intros Hall. destruct e as [env v c|env v c o|]; cbn [Events.after snd].
  - destruct (signup_referrals env v c s.2) as [->|(r' & -> & Hr')]; [exact Hall|].
    apply map_Forall_insert_2; [|exact Hall].
    destruct Hr' as [(r & Hr & Ht & Hw & Hc & Hs & Hh)|(_ & Ht & Hw & Hc & Hs & Hh)].
    + destruct (Hall _ _ Hr) as (H1 & H2 & H3 & H4 & H5).
      unfold tallied. rewrite Ht, Hw, Hc, Hs, Hh. lia.
    + unfold tallied. rewrite Ht, Hw, Hc, Hs, Hh. lia.
  - destruct (purchase_referrals env v c o s.2)
      as [->|(r & r' & -> & Hr & Ht & Hw & Hc & Hs & Hh)]; [exact Hall|].
    apply map_Forall_insert_2; [|exact Hall].
    destruct (Hall _ _ Hr) as (H1 & H2 & H3 & H4 & H5).
    unfold tallied. rewrite Ht, Hw, Hc, Hs, Hh. lia.
  - unfold Leaderboard.resetWeeklyLeaderboard.
    destruct s.1 as [settings|]; [|exact Hall].
    destruct (Leaderboard.nextResetTime settings); [|exact Hall].
    cbn. apply map_Forall_fmap. intros id r Hr. cbn. apply zeroWeekly_tallied.
    exact (Hall _ _ Hr).
Qed.

(** X19. The referral records always add up: along any sequence of signups,
    purchases and weekly resets, failed calls included, every vendor's
    total is the sum of the points in the history, 10 for each customer
    referred and 40 for each purchase counted, and the points of the
    week are between 0 and the total, provided that was so before (as it
    is when there is no record yet). *)
Theorem referral_points_add_up events s :
  map_Forall (fun _ r => tallied r) (referrals (db s.2)) ->
  map_Forall (fun _ r => tallied r) (referrals (db (Events.afterAll events s).2)).
Proof.
  revert s. induction events as [|e events IH]; intros s Hall; [exact Hall|].
  unfold Events.afterAll. cbn [foldl]. apply IH. apply after_tallied. exact Hall.
Qed.

(** One event that is not a reset keeps every record and the difference
    between its total and its points of the week. *)
Lemma after_keeps_lead e s id r :
  Events.isReset e = false ->
  referrals (db s.2) !! id = Some r ->
  exists r',
    referrals (db (Events.after e s).2) !! id = Some r'
    /\ Referral.totalReferralPoints r' - Referral.weeklyReferralPoints r'
       = Referral.totalReferralPoints r - Referral.weeklyReferralPoints r.
Proof.
  intros He Hr. destruct e as [env v c|env v c o|]; [| |discriminate];
    cbn [Events.after snd].
  - destruct (signup_referrals env v c s.2) as [->|(r' & -> & Hr')];
      [exists r; split; [exact Hr|reflexivity]|].
    destruct (decide (v = id)) as [->|Hne].
    + rewrite lookup_insert_eq. exists r'. split; [reflexivity|].
      destruct Hr' as [(r0 & Hr0 & Ht & Hw & _)|(Hnone & _)]; [|congruence].
      rewrite Hr in Hr0. injection Hr0 as <-. lia.
    + rewrite lookup_insert_ne by exact Hne. exists r. split; [exact Hr|reflexivity].
  - destruct (purchase_referrals env v c o s.2)
      as [->|(r0 & r' & -> & Hr0 & Ht & Hw & _)];
      [exists r; split; [exact Hr|reflexivity]|].
    destruct (decide (v = id)) as [->|Hne].
    + rewrite lookup_insert_eq. exists r'. split; [reflexivity|].
      rewrite Hr in Hr0. injection Hr0 as <-. lia.
    + rewrite lookup_insert_ne by exact Hne. exists r. split; [exact Hr|reflexivity].
Qed.

Lemma afterAll_keeps_lead events s id r :
  forallb (fun e => negb (Events.isReset e)) events = true ->
  referrals (db s.2) !! id = Some r ->
  exists r',
    referrals (db (Events.afterAll events s).2) !! id = Some r'
    /\ Referral.totalReferralPoints r' - Referral.weeklyReferralPoints r'
       = Referral.totalReferralPoints r - Referral.weeklyReferralPoints r.
Proof.
  revert s r. induction events as [|e events IH]; intros s r Hev Hr.
  - exists r. split; [exact Hr|reflexivity].
  - cbn in Hev. apply andb_true_iff in Hev as [He Hev].
    apply negb_true_iff in He.
    destruct (after_keeps_lead e s id r He Hr) as (r1 & Hr1 & H1).
    destruct (IH _ _ Hev Hr1) as (r' & Hr' & H').
    exists r'. split; [exact Hr'|]. lia.
Qed.

(** X20. The points of the week are the points earned since the last reset:
    when the reset runs, with its settings in place, and signups and
    purchases follow, a vendor who had a record at the reset has as
    weekly points the total now less the total then. *)
Theorem weekly_points_count_since_reset events settings t w id r :
  Leaderboard.nextResetTime settings = Some t ->
  forallb (fun e => negb (Events.isReset e)) events = true ->
  referrals (db w) !! id = Some r ->
  exists r',
    referrals (db (Events.afterAll (Events.WeeklyReset :: events) (Some settings, w)).2)
      !! id = Some r'
    /\ Referral.weeklyReferralPoints r'
       = Referral.totalReferralPoints r' - Referral.totalReferralPoints r.
Proof.
  intros Ht Hev Hr. unfold Events.afterAll. cbn [foldl].
  assert (H0 : referrals (db (Events.after Events.WeeklyReset (Some settings, w)).2) !! id
               = Some (Leaderboard.zeroWeekly r)).
  { cbn. unfold Leaderboard.resetWeeklyLeaderboard. rewrite Ht. cbn.
    rewrite lookup_fmap, Hr. reflexivity. }
  destruct (afterAll_keeps_lead events _ id _ Hev H0) as (r' & Hr' & H').
  exists r'. split; [exact Hr'|]. cbn in H'. lia.
Qed.

(** X21. The reset moves its window by one week each time it runs: after any
    sequence of events, the next reset time in the settings is the one
    there was plus one week for every run, and the current window starts
    one week before it once the reset has run; the clock is not
    read. *)
Theorem reset_window_moves_by_a_week events settings t w :
  Leaderboard.nextResetTime settings = Some t ->
  exists settings',
    (Events.afterAll events (Some settings, w)).1 = Some settings'
    /\ Leaderboard.nextResetTime settings'
       = Some (t + resets events * Leaderboard.week)
    /\ (0 < resets events ->
        Leaderboard.currentResetStart settings'
        = Some (t + (resets events - 1) * Leaderboard.week)).
Proof.
  revert settings t w. induction events as [|e events IH]; intros settings t w Ht.
  - exists settings. split; [reflexivity|]. split.
    + rewrite Ht. f_equal. unfold resets. cbn. lia.
    + unfold resets. cbn. lia.
  - unfold Events.afterAll. cbn [foldl].
    destruct e as [env v c|env v c o|].
    + cbn [Events.after fst snd].
      destruct (IH settings t
                  (Referrals.addReferralForVendor env v c w).2 Ht) as (s' & H1 & H2 & H3).
      exists s'. split; [exact H1|]. unfold resets in *. cbn. split; assumption.
    + cbn [Events.after fst snd].
      destruct (IH settings t
                  (Referrals.updateReferralPointsOnPurchase env v c o w).2 Ht)
        as (s' & H1 & H2 & H3).
      exists s'. split; [exact H1|]. unfold resets in *. cbn. split; assumption.
    + cbn [Events.after fst snd]. unfold Leaderboard.resetWeeklyLeaderboard.
      rewrite Ht. cbn [fst snd].
      edestruct (IH {| Leaderboard.currentResetStart := Some t;
                       Leaderboard.nextResetTime := Some (t + Leaderboard.week) |}
                   (t + Leaderboard.week)) as (s' & H1 & H2 & H3); [reflexivity|].
      exists s'. split; [exact H1|].
      assert (Hres : resets (Events.WeeklyReset :: events) = resets events + 1)
        by (unfold resets; cbn [List.filter Events.isReset length]; lia).
      rewrite Hres. split.
      * rewrite H2. f_equal. lia.
      * intros _. destruct (decide (resets events = 0)) as [Hz|Hnz].
        -- rewrite Hz. replace (0 + 1 - 1) with 0 by lia.
           unfold resets in Hz.
           assert (Hnil : List.filter Events.isReset events = [])
             by (destruct (List.filter Events.isReset events); [reflexivity|cbn in Hz; lia]).
           clear -H1 Hnil.
           assert (Hkeep : forall evs s, List.filter Events.isReset evs = [] ->
                     (Events.afterAll evs s).1 = s.1).
           { induction evs as [|e evs IHe]; intros s Hf; [reflexivity|].
             unfold Events.afterAll. cbn [foldl].
             destruct e; cbn in Hf; try discriminate;
               (etrans; [apply (IHe _ Hf)|reflexivity]). }
           rewrite (Hkeep _ _ Hnil) in H1. cbn in H1. injection H1 as <-. cbn.
           f_equal. lia.
        -- rewrite H3 by (unfold resets in *; lia). f_equal. lia.
Qed.

End LeaderboardFacts.

Section LeaderboardFlows.

(** Two weeks of the scenario's vendor, from no record at all. *)
Lemma referral_points_add_up_witness :
  map_Forall (fun _ r => tallied r)
    (referrals (db (Events.afterAll Flows.referralWeeks
                      (Some Flows.settings0, Scenario.world0)).2)).
Proof.
  apply (referral_points_add_up Flows.referralWeeks (Some Flows.settings0, Scenario.world0)).
  apply map_Forall_empty.
Defined.

(** The vendor has 10 points when the reset runs and 50 after the
    purchase that follows: 40 for the week. *)
Lemma weekly_points_count_since_reset_witness :
  exists r r',
    referrals (db Flows.world10) !! "vendor-1" = Some r
    /\ referrals
         (db (Events.afterAll
                [Events.WeeklyReset;
                 Events.Purchase Scenario.env1 "vendor-1" "customer-1" "order-1"]
                (Some Flows.settings0, Flows.world10)).2) !! "vendor-1" = Some r'
    /\ Referral.totalReferralPoints r = 10
    /\ Referral.totalReferralPoints r' = 50
    /\ Referral.weeklyReferralPoints r'
       = Referral.totalReferralPoints r' - Referral.totalReferralPoints r.
Proof.
  destruct (referrals (db Flows.world10) !! "vendor-1") as [r|] eqn:Hr;
    [|vm_compute in Hr; discriminate].
  destruct (weekly_points_count_since_reset
              [Events.Purchase Scenario.env1 "vendor-1" "customer-1" "order-1"]
              Flows.settings0 1750000000000 Flows.world10 "vendor-1" r
              eq_refl eq_refl Hr) as (r' & Hr' & Hw).
  exists r, r'. split; [reflexivity|]. split; [exact Hr'|].
  split; [vm_compute in Hr; injection Hr as <-; reflexivity|].
  split; [vm_compute in Hr'; injection Hr' as <-; reflexivity|exact Hw].
Defined.

(** One reset among the scenario's events: the window moves from
    1750000000000 to 1750604800000. *)
Lemma reset_window_moves_by_a_week_witness :
  exists settings',
    (Events.afterAll Flows.referralWeeks (Some Flows.settings0, Scenario.world0)).1
    = Some settings'
    /\ Leaderboard.nextResetTime settings' = Some 1750604800000
    /\ Leaderboard.currentResetStart settings' = Some 1750000000000.
Proof.
  destruct (reset_window_moves_by_a_week Flows.referralWeeks Flows.settings0
              1750000000000 Scenario.world0 eq_refl) as (s' & H1 & H2 & H3).
  exists s'. split; [exact H1|]. split; [exact H2|]. apply H3. reflexivity.
Defined.

End LeaderboardFlows.

(** ** Deleting a vendor's account *)

Section AccountFacts.
Import Num.

(** X30. A vendor with funds is not deleted: while the eligible or the
    pending balance of [users/vendorId] is positive, [deleteVendorAccount]
    answers [failed-precondition], not rethrown as [internal], and
    deletes nothing, whatever the other deletions would have done. *)
Theorem vendor_with_funds_is_not_deleted cleanup deleteUser vendorId userId d v :
  vendorId <> "" -> userId <> "" ->
  users d !! vendorId = Some v ->
  (0 < orZero (User.eligibleBalance (User.wallet v))
   \/ 0 < orZero (User.pendingBalance (User.wallet v)))%Q ->
  Accounts.deleteVendorAccount cleanup deleteUser vendorId userId d
  = (Some (HttpsError failed_precondition
             "Withdraw your funds before deleting your account"), d).
Proof.
  intros Hv Hu Hd Hfunds. apply blank_false in Hv, Hu.
  unfold Accounts.deleteVendorAccount. rewrite Hv, Hu, Hd. cbn [orb].
  assert (Hg : num_gt (orZero (User.eligibleBalance (User.wallet v))) 0
               || num_gt (orZero (User.pendingBalance (User.wallet v))) 0 = true).
  { apply orb_true_iff. destruct Hfunds as [H|H]; [left|right]; apply num_gt_true; exact H. }
  rewrite Hg. reflexivity.
Qed.

(** The scenario's vendor after the settlement, with 10500 pending. *)
Lemma vendor_with_funds_is_not_deleted_witness :
  Accounts.deleteVendorAccount None None "vendor-1" "vendor-1" (db Scenario.world1)
  = (Some (HttpsError failed_precondition
             "Withdraw your funds before deleting your account"), db Scenario.world1).
Proof.
  destruct (users (db Scenario.world1) !! "vendor-1") as [v|] eqn:Hv;
    [|vm_compute in Hv; discriminate].
  apply (vendor_with_funds_is_not_deleted None None "vendor-1" "vendor-1"
           (db Scenario.world1) v); try discriminate; [exact Hv|].
  right. vm_compute in Hv. injection Hv as <-. reflexivity.
Defined.

(** When an account is deleted, or the call fails after the batch was
    committed, the wallet that was checked held no funds, and what is
    gone is the document [users/userId] and the document
    [vendors/vendorId]; orders, requests and referral records stay. *)
Theorem deletion_removes_two_documents cleanup deleteUser vendorId userId d r d' :
  Accounts.deleteVendorAccount cleanup deleteUser vendorId userId d = (r, d') ->
  d' <> d ->
  exists v,
    users d !! vendorId = Some v
    /\ (orZero (User.eligibleBalance (User.wallet v)) <= 0)%Q
    /\ (orZero (User.pendingBalance (User.wallet v)) <= 0)%Q
    /\ users d' = delete userId (users d)
    /\ vendors d' = delete vendorId (vendors d)
    /\ orders d' = orders d
    /\ withdrawalRequest d' = withdrawalRequest d
    /\ refundRequests d' = refundRequests d
    /\ referrals d' = referrals d.
Proof.
  unfold Accounts.deleteVendorAccount. intros H Hne.
  destruct (blank _ || blank _); [injection H as _ <-; contradiction|].
  destruct (users d !! vendorId) as [v|] eqn:Hv; [|injection H as _ <-; contradiction].
  destruct (num_gt _ _ || num_gt _ _) eqn:Hg; [injection H as _ <-; contradiction|].
  apply orb_false_iff in Hg as [He Hp]. apply num_gt_false in He, Hp.
  destruct cleanup; [injection H as _ <-; contradiction|].
  exists v. split; [reflexivity|]. split; [exact He|]. split; [exact Hp|].
  destruct deleteUser; injection H as _ <-; repeat split.
Qed.

(** The new vendor, who has sold nothing, is deleted. *)
Lemma deletion_removes_two_documents_witness :
  exists d',
    Accounts.deleteVendorAccount None None "vendor-1" "vendor-1" (db Scenario.world0)
    = (None, d')
    /\ users d' = delete "vendor-1" (users (db Scenario.world0))
    /\ vendors d' = delete "vendor-1" (vendors (db Scenario.world0)).
Proof.
  destruct (Accounts.deleteVendorAccount None None "vendor-1" "vendor-1"
              (db Scenario.world0)) as [r d'] eqn:H.
  assert (Hr : r = None) by (vm_compute in H; injection H as <- _; reflexivity).
  assert (Hne : d' <> db Scenario.world0).
  { intros Heq. assert (Hv : vendors d' !! "vendor-1" = None)
      by (vm_compute in H; injection H as _ <-; reflexivity).
    rewrite Heq in Hv. vm_compute in Hv. discriminate. }
  destruct (deletion_removes_two_documents None None "vendor-1" "vendor-1"
              (db Scenario.world0) r d' H Hne) as (v & _ & _ & _ & Hu & Hvd & _).
  exists d'. rewrite Hr. split; [reflexivity|]. split; assumption.
Defined.

End AccountFacts.

(** ** From the delivery code to the release, and the payout *)

Section RoundTrips.
Import Num.

(** X11. A generated code releases the order's earnings: when
    [generateDeliveryCode] returns a code, [confirmOrderWithOTP] with
    that code, for a user whose pending balance covers the earnings,
    succeeds at any moment up to 72 hours later. *)
Theorem generated_code_confirms env env' orderId vendorId w code w1 od v :
  Orders.generateDeliveryCode env orderId w = (inr code, w1) ->
  vendorId <> "" ->
  orders (db w) !! orderId = Some od ->
  users (db w) !! vendorId = Some v ->
  (Order.vendorEarnings (Order.order od)
   <= orZero (User.pendingBalance (User.wallet v)))%Q ->
  now env' <= now env + 259200000 ->
  exists w2,
    Orders.confirmOrderWithOTP env'
      {| Orders.orderId := orderId; Orders.vendorId := vendorId;
         Orders.enteredOtp := code |} w1
    = (inr tt, w2).
Proof.
  intros Hgen Hvid Hod Hv Hle Ht.
  assert (Hcode : code <> "" /\ orderId <> "").
  { unfold Orders.generateDeliveryCode in Hgen.
    destruct (blank orderId) eqn:Hb; [discriminate|]. apply blank_false in Hb.
    split; [|exact Hb].
    unfold try_catch, bind, doc_get, doc_update, ret, throw, emit in Hgen. cbn in Hgen.
    rewrite Hod in Hgen. cbn in Hgen.
    destruct (bool_decide _); cbn in Hgen; [discriminate|].
    rewrite Hod in Hgen. cbn in Hgen. injection Hgen as <- _.
    apply pretty_Z_nonempty. }
  destruct Hcode as [Hcode Hoid].
  apply generateCode_db in Hgen as (od0 & Hod0 & Hdb).
  rewrite Hod in Hod0. injection Hod0 as <-.
  eapply (confirm_succeeds env' _ w1).
  - repeat split; assumption.
  - rewrite Hdb. cbn. apply lookup_insert_eq.
  - rewrite Hdb. cbn. exact Hv.
  - reflexivity.
  - unfold Orders.expiredAt. cbn. apply bool_decide_eq_false_2. lia.
  - cbn. discriminate.
  - cbn. exact Hle.
Qed.

(** The scenario's order, confirmed an hour after the code was
    generated. *)
Lemma generated_code_confirms_witness :
  exists w2,
    Orders.confirmOrderWithOTP Scenario.env1
      {| Orders.orderId := "order-1"; Orders.vendorId := "vendor-1";
         Orders.enteredOtp := "4842" |} Scenario.world2
    = (inr tt, w2).
Proof.
  destruct (orders (db Scenario.world1) !! "order-1") as [od|] eqn:Ho;
    [|vm_compute in Ho; discriminate].
  destruct (users (db Scenario.world1) !! "vendor-1") as [v|] eqn:Hv;
    [|vm_compute in Hv; discriminate].
  apply (generated_code_confirms Scenario.env0 Scenario.env1 "order-1" "vendor-1"
           Scenario.world1 "4842" Scenario.world2 od v).
  - exact scenario_code.
  - discriminate.
  - exact Ho.
  - exact Hv.
  - vm_compute in Ho, Hv. injection Ho as <-. injection Hv as <-. discriminate.
  - cbn. lia.
Defined.

End RoundTrips.

(** ** The accounting identity of the wallet *)

Section Accounting.
Import Num.












End Accounting.

Section AccountingFlows.
Import Num.



End AccountingFlows.
